(** * Gestor de Biblioteca: a shallow embedding of [Gestor-Biblioteca.py]

    The development follows the source file from top to bottom: the
    record classes [Libro] and [Prestamo], the manager [Biblioteca] with
    its persistence ([cargar_datos], [guardar_datos]) and its three
    mutating operations ([agregar_libro], [prestar_libro],
    [devolver_libro]).  The two library types the program leans on,
    [datetime.date] and the values handled by [json], are modelled first.

    A text ([str]) is a [string], one [ascii] for each character: the
    texts of the model are those made of the characters U+0000 to
    U+00FF. *)

From Stdlib Require Import ZArith List String Ascii Bool Lia QArith.
Import ListNotations.
Open Scope Z_scope.

(** ** Calendar dates ([datetime.date])

    A date is represented by its proleptic Gregorian ordinal, the number
    [date.toordinal()] returns: comparison of dates is comparison of
    ordinals, [d + timedelta(days=k)] is [d + k] and [(a - b).days] is
    [a - b].  The conversions to and from (year, month, day) follow the
    pure-Python reference implementation of the [datetime] module. *)
Module Fecha.

Definition MAXORDINAL : Z := 3652059.

(** The ordinals of the dates 0001-01-01 .. 9999-12-31. *)
Definition valida (d : Z) : Prop := 1 <= d <= MAXORDINAL.

Definition DAYS_IN_MONTH : list Z :=
  [-1; 31; 28; 31; 30; 31; 30; 31; 31; 30; 31; 30; 31].

Definition DAYS_BEFORE_MONTH : list Z :=
  [-1; 0; 31; 59; 90; 120; 151; 181; 212; 243; 273; 304; 334].

Definition tabla (t : list Z) (i : Z) : Z := nth (Z.to_nat i) t 0.

Definition is_leap (year : Z) : bool :=
  (year mod 4 =? 0) && (negb (year mod 100 =? 0) || (year mod 400 =? 0)).

Definition days_before_year (year : Z) : Z :=
  let y := year - 1 in y * 365 + y / 4 - y / 100 + y / 400.

Definition days_in_month (year month : Z) : Z :=
  if (month =? 2) && is_leap year then 29 else tabla DAYS_IN_MONTH month.

Definition b2z (b : bool) : Z := if b then 1 else 0.

Definition days_before_month (year month : Z) : Z :=
  tabla DAYS_BEFORE_MONTH month + b2z ((2 <? month) && is_leap year).

Definition ymd2ord (year month day : Z) : Z :=
  days_before_year year + days_before_month year month + day.

(** The month and day of the [n]-th day (from 0) of a year. *)
Definition mes_y_dia (leapyear : bool) (n : Z) : Z * Z :=
  let month := Z.shiftr (n + 50) 5 in
  let preceding :=
    tabla DAYS_BEFORE_MONTH month + b2z ((2 <? month) && leapyear) in
  if n <? preceding then
    let month := month - 1 in
    let preceding :=
      preceding - (tabla DAYS_IN_MONTH month + b2z ((month =? 2) && leapyear)) in
    (month, n - preceding + 1)
  else (month, n - preceding + 1).

Definition ord2ymd (n : Z) : Z * Z * Z :=
  let n := n - 1 in
  let n400 := n / 146097 in
  let n := n mod 146097 in
  let year := n400 * 400 + 1 in
  let n100 := n / 36524 in
  let n := n mod 36524 in
  let n4 := n / 1461 in
  let n := n mod 1461 in
  let n1 := n / 365 in
  let n := n mod 365 in
  let year := year + n100 * 100 + n4 * 4 + n1 in
  if (n1 =? 4) || (n100 =? 4) then (year - 1, 12, 31)
  else
    let leapyear := (n1 =? 3) && (negb (n4 =? 24) || (n100 =? 3)) in
    let '(month, day) := mes_y_dia leapyear n in
    (year, month, day).

(** *** The text format ['%Y-%m-%d'] *)

Definition digito (n : Z) : ascii := ascii_of_nat (48 + Z.to_nat n).

Definition es_digito (c : ascii) : bool :=
  let k := Z.of_nat (nat_of_ascii c) in (48 <=? k) && (k <=? 57).

Definition valor (c : ascii) : Z := Z.of_nat (nat_of_ascii c) - 48.

Definition entre (lo hi : Z) (c : ascii) : bool :=
  es_digito c && (lo <=? valor c) && (valor c <=? hi).

Definition dos_digitos (n : Z) (resto : string) : string :=
  String (digito (n / 10)) (String (digito (n mod 10)) resto).

(** The year as [%Y] writes it.  [date.strftime] hands the format to
    the [strftime] of the C library, and the one of Linux (glibc) writes
    the year as a plain number, with no zero before it: four digits from
    year 1000 on, and '999' or '1' before. *)
Definition anio (y : Z) (resto : string) : string :=
  if y <? 10 then String (digito y) resto
  else if y <? 100 then dos_digitos y resto
  else if y <? 1000 then String (digito (y / 100)) (dos_digitos (y mod 100) resto)
  else String (digito (y / 1000))
         (String (digito (y / 100 mod 10)) (dos_digitos (y mod 100) resto)).

(** [d.strftime('%Y-%m-%d')]: the year as above, then month and day on
    two digits, zero-filled. *)
Definition strftime (d : Z) : string :=
  let '(y, m, dd) := ord2ymd d in
  anio y (String "-" (dos_digitos m (String "-" (dos_digitos dd EmptyString)))).

(** The ordinals of the dates 1000-01-01 .. 9999-12-31, whose year takes
    four digits. *)
Definition cuatro_cifras (d : Z) : Prop := 364878 <= d <= MAXORDINAL.

(** The directive [%Y] reads exactly four digits.  Of the characters of
    the model, the decimal digits that the pattern [\d] and [int] take
    are '0' to '9'; the digits of other scripts, which they take too,
    are beyond U+00FF. *)
Definition lee_anio (s : string) : option (Z * string) :=
  match s with
  | String a (String b (String c (String d r))) =>
      if es_digito a && es_digito b && es_digito c && es_digito d
      then Some (1000 * valor a + 100 * valor b + 10 * valor c + valor d, r)
      else None
  | _ => None
  end.

Definition lee_guion (s : string) : option string :=
  match s with
  | String "-" r => Some r
  | _ => None
  end.

(** The directive [%m] reads [1[0-2]|0[1-9]|[1-9]]; the hyphen that
    follows it in the format decides between the alternatives. *)
Definition lee_mes (s : string) : option (Z * string) :=
  match s with
  | String a (String b (String "-" r)) =>
      if ((valor a =? 1) && entre 0 2 b) || ((valor a =? 0) && entre 1 9 b)
      then if es_digito a then Some (10 * valor a + valor b, r) else None
      else None
  | String a (String "-" r) =>
      if entre 1 9 a then Some (valor a, r) else None
  | _ => None
  end.

(** The directive [%d] reads [3[01]|[12]\d|0[1-9]|[1-9]| [1-9]] and must
    end the text. *)
Definition lee_dia (s : string) : option Z :=
  match s with
  | String a (String b EmptyString) =>
      if es_digito a then
        if ((valor a =? 3) && entre 0 1 b)
           || (entre 1 2 a && es_digito b)
           || ((valor a =? 0) && entre 1 9 b)
        then Some (10 * valor a + valor b) else None
      else if Ascii.eqb a " " && entre 1 9 b then Some (valor b) else None
  | String a EmptyString => if entre 1 9 a then Some (valor a) else None
  | _ => None
  end.

(** [datetime.strptime(s, '%Y-%m-%d').date()]: [None] stands for the
    [ValueError] raised on a text that does not match the format or does
    not name a date. *)
Definition strptime (s : string) : option Z :=
  match lee_anio s with
  | Some (y, r) =>
      match lee_guion r with
      | Some r =>
          match lee_mes r with
          | Some (m, r) =>
              match lee_dia r with
              | Some dd =>
                  if (1 <=? y) && (dd <=? days_in_month y m)
                  then Some (ymd2ord y m dd) else None
              | None => None
              end
          | None => None
          end
      | None => None
      end
  | None => None
  end.

(** *** Checks used in the proofs about the calendar *)

Definition rango (k : nat) : list Z := map Z.of_nat (seq 0 k).

(** [mes_y_dia] names a day of a month, and the day it was given. *)
Definition mes_y_dia_bien (leap : bool) (n : Z) : bool :=
  let '(m, d) := mes_y_dia leap n in
  (1 <=? m) && (m <=? 12) && (1 <=? d)
  && (d <=? tabla DAYS_IN_MONTH m + b2z ((m =? 2) && leap))
  && (tabla DAYS_BEFORE_MONTH m + b2z ((2 <? m) && leap) + d =? n + 1).

End Fecha.

(** ** Results and exceptions

    A call either returns a value or raises one of the exceptions the
    program can meet. *)
Inductive excepcion : Type :=
| FileNotFoundError
| JSONDecodeError
| UnicodeDecodeError
| RecursionError
| OSError
| OverflowError
| AttributeError
| TypeError
| ValueError
| KeyError (clave : string).

(** [isinstance(e, ValueError)]: [json.JSONDecodeError] and
    [UnicodeDecodeError] are subclasses of [ValueError]. *)
Definition es_ValueError (e : excepcion) : bool :=
  match e with
  | ValueError | JSONDecodeError | UnicodeDecodeError => true
  | _ => false
  end.

Inductive resultado (A : Type) : Type :=
| Ret (a : A)
| Raise (e : excepcion).
Arguments Ret {A} a.
Arguments Raise {A} e.

Definition ligar {A B} (r : resultado A) (k : A -> resultado B) : resultado B :=
  match r with
  | Ret a => k a
  | Raise e => Raise e
  end.

Declare Scope res_scope.
Delimit Scope res_scope with res.
Notation "x <- r ;; k" := (ligar r (fun x => k))
  (at level 61, r at next level, right associativity) : res_scope.

Fixpoint para_cada {A B} (f : A -> resultado B) (l : list A) : resultado (list B) :=
  match l with
  | [] => Ret []
  | x :: r =>
      (y <- f x ;; ys <- para_cada f r ;; Ret (y :: ys))%res
  end.

(** [date + timedelta(days=k)] raises [OverflowError] outside
    0001-01-01 .. 9999-12-31. *)
Definition sumar_dias (d k : Z) : resultado Z :=
  let o := d + k in
  if (0 <? o) && (o <=? Fecha.MAXORDINAL) then Ret o else Raise OverflowError.

(** ** The values [json] reads and writes

    [JObj] is a Python [dict] with its keys in insertion order, looked up
    by the first entry of a key.  Numbers with a fraction or an exponent
    are left out: no field of the program holds one. *)
#[warnings="-register-all"]
Inductive json : Type :=
| JNull
| JBool (b : bool)
| JNum (n : Z)
| JStr (s : string)
| JArr (l : list json)
| JObj (kv : list (string * json)).

Fixpoint buscar_clave (k : string) (kv : list (string * json)) : option json :=
  match kv with
  | [] => None
  | (k', v) :: r => if String.eqb k' k then Some v else buscar_clave k r
  end.

(** [d.get(k, [])] *)
Definition get (d : json) (k : string) : resultado json :=
  match d with
  | JObj kv =>
      match buscar_clave k kv with
      | Some v => Ret v
      | None => Ret (JArr [])
      end
  | _ => Raise AttributeError
  end.

(** [d[k]] with a text key [k] *)
Definition subindice (d : json) (k : string) : resultado json :=
  match d with
  | JObj kv =>
      match buscar_clave k kv with
      | Some v => Ret v
      | None => Raise (KeyError k)
      end
  | _ => Raise TypeError
  end.

(** [for x in d]: a list gives its items, a dict its keys, a text its
    characters; nothing else can be iterated. *)
Definition iterar (d : json) : resultado (list json) :=
  match d with
  | JArr l => Ret l
  | JObj kv => Ret (map (fun p => JStr (fst p)) kv)
  | JStr s => Ret (map (fun c => JStr (String c EmptyString)) (list_ascii_of_string s))
  | _ => Raise TypeError
  end.

(** [datetime.strptime(v, '%Y-%m-%d').date()] *)
Definition strptime_json (v : json) : resultado Z :=
  match v with
  | JStr s =>
      match Fecha.strptime s with
      | Some d => Ret d
      | None => Raise ValueError
      end
  | _ => Raise TypeError
  end.

(** The data file [biblioteca.json], by what [open] and [json.load] make
    of it: there is no such file; the file cannot be opened for reading;
    its bytes are not a text in the encoding [open] reads with; its text
    is not JSON; its text is JSON nested deeper than the interpreter
    recurses; its text is JSON with an integer of more digits than [int]
    converts; or its text is that of the JSON value [data].  A JSON text
    is represented by the value [json.load] reads from it, and
    [json.dump] writes a text that reads back as the value it was
    given. *)
Inductive archivo : Type :=
| NoExiste
| Inaccesible
| NoTexto
| NoJson
| MuyAnidado
| EnteroDesmedido
| Documento (data : json).

(** What the console and the event loop receive. *)
Inductive evento : Type :=
| SinDatosPrevios
| ErrorLectura
| YaExisteLibro (id : Z)
| LibroAgregado (titulo : string)
| YaPrestado (usuario : string)
| LibroNoEncontrado (libro_id : Z)
| SinExistencias (titulo : string)
| LibroPrestado (titulo usuario : string) (fecha_devolucion : Z)
| TareaNotificacion (usuario titulo : string) (fecha_devolucion : Z)
| PrestamoNoEncontrado (usuario : string)
| DevolucionTardia (multa : Q)
| LibroDevuelto (titulo : string).

(** ** class Libro *)
Module Libro.

Record t : Type := mk {
  id : Z;
  titulo : string;
  autor : string;
  stock : Z
}.

Definition to_dict (self : t) : json :=
  JObj [("id"%string, JNum (id self));
        ("titulo"%string, JStr (titulo self));
        ("autor"%string, JStr (autor self));
        ("stock"%string, JNum (stock self))].

Definition con_stock (self : t) (s : Z) : t :=
  {| id := id self; titulo := titulo self; autor := autor self; stock := s |}.

(** A [Libro] as [cargar_datos] builds it: the constructor stores
    whatever the document holds. *)
Record cargado : Type := mk_cargado {
  c_id : json;
  c_titulo : json;
  c_autor : json;
  c_stock : json
}.

Definition tipado (l : cargado) : option t :=
  match c_id l, c_titulo l, c_autor l, c_stock l with
  | JNum i, JStr ti, JStr au, JNum s => Some (mk i ti au s)
  | _, _, _, _ => None
  end.

End Libro.

(** ** class Prestamo *)
Module Prestamo.

Record t : Type := mk {
  libro_id : Z;
  usuario : string;
  fecha_prestamo : Z;
  fecha_devolucion : Z;
  devuelto : bool
}.

(** [Prestamo(libro_id, usuario, dias_prestamo)] on the day [hoy]. *)
Definition init (hoy : Z) (libro_id : Z) (usuario : string) (dias_prestamo : Z)
  : resultado t :=
  (fecha_devolucion <- sumar_dias hoy dias_prestamo ;;
   Ret (mk libro_id usuario hoy fecha_devolucion false))%res.

(** The amounts are multiples of 0.50 below 2^53, which binary floating
    point represents and multiplies exactly; they are kept as rationals. *)
Definition calcular_multa (hoy : Z) (self : t) : Q :=
  if devuelto self then 0%Q
  else if hoy <=? fecha_devolucion self then 0%Q
  else
    let dias_retraso := hoy - fecha_devolucion self in
    (inject_Z (Z.max 0 dias_retraso) * (1 # 2))%Q.

Definition marcar_devuelto (self : t) : t :=
  {| libro_id := libro_id self; usuario := usuario self;
     fecha_prestamo := fecha_prestamo self;
     fecha_devolucion := fecha_devolucion self; devuelto := true |}.

Definition to_dict (p : t) : json :=
  JObj [("libro_id"%string, JNum (libro_id p));
        ("usuario"%string, JStr (usuario p));
        ("fecha_prestamo"%string, JStr (Fecha.strftime (fecha_prestamo p)));
        ("fecha_devolucion"%string, JStr (Fecha.strftime (fecha_devolucion p)));
        ("devuelto"%string, JBool (devuelto p))].

(** A [Prestamo] as [cargar_datos] builds it: the two dates come out of
    [strptime], the other attributes are whatever the document holds. *)
Record cargado : Type := mk_cargado {
  c_libro_id : json;
  c_usuario : json;
  c_fecha_prestamo : Z;
  c_fecha_devolucion : Z;
  c_devuelto : json
}.

Definition tipado (p : cargado) : option t :=
  match c_libro_id p, c_usuario p, c_devuelto p with
  | JNum i, JStr u, JBool d =>
      Some (mk i u (c_fecha_prestamo p) (c_fecha_devolucion p) d)
  | _, _, _ => None
  end.

End Prestamo.

(** ** class Biblioteca *)
Module Biblioteca.

Record t : Type := mk {
  libros : list Libro.t;
  prestamos : list Prestamo.t
}.

(** What an operation can touch: the manager's two lists, the data
    file, and the output produced so far. *)
Record Mundo : Type := mk_mundo {
  bib : t;
  disco : archivo;
  salida : list evento
}.

(** How the write of the data file goes: to the end; refused when the
    file is opened, which leaves it as it was; or interrupted after the
    file was truncated, which leaves the beginning of a JSON text. *)
Inductive escritura_t : Type :=
| EscrituraOk
| AperturaRechazada
| EscrituraInterrumpida.

(** What an operation reads from outside: the date [datetime.now().date()]
    and the behaviour of the file system. *)
Record Entorno : Type := mk_entorno {
  hoy : Z;
  escritura : escritura_t
}.

(** Computations over the world that may raise. *)
Definition M (A : Type) : Type := Mundo -> resultado A * Mundo.

Definition ret {A} (a : A) : M A := fun w => (Ret a, w).

Definition bind {A B} (m : M A) (k : A -> M B) : M B :=
  fun w =>
    match m w with
    | (Ret a, w') => k a w'
    | (Raise e, w') => (Raise e, w')
    end.

Definition elevar {A} (r : resultado A) : M A := fun w => (r, w).

Declare Scope mundo_scope.
Delimit Scope mundo_scope with mundo.
Notation "x <- m ;; k" := (bind m (fun x => k))
  (at level 61, m at next level, right associativity) : mundo_scope.
Notation "m ;; k" := (bind m (fun _ => k))
  (at level 61, right associativity) : mundo_scope.

Definition self : M t := fun w => (Ret (bib w), w).

Definition set_libros (ls : list Libro.t) : M unit :=
  fun w => (Ret tt, mk_mundo (mk ls (prestamos (bib w))) (disco w) (salida w)).

Definition set_prestamos (ps : list Prestamo.t) : M unit :=
  fun w => (Ret tt, mk_mundo (mk (libros (bib w)) ps) (disco w) (salida w)).

Definition print (e : evento) : M unit :=
  fun w => (Ret tt, mk_mundo (bib w) (disco w) (salida w ++ [e])).

(** [asyncio.create_task(...)], called from inside the running loop of
    [main]: the task is handed over and not awaited. *)
Definition create_task (e : evento) : M unit := print e.

(** Assignment to an attribute of the first object of a list that
    satisfies [p]: the object [next(x for x in l if p(x))] returns is the
    one stored in the list, and no object is stored twice. *)
Fixpoint modificar_primero {A} (p : A -> bool) (f : A -> A) (l : list A) : list A :=
  match l with
  | [] => []
  | x :: r => if p x then f x :: r else x :: modificar_primero p f r
  end.

Definition con_id (libro_id : Z) (l : Libro.t) : bool :=
  Libro.id l =? libro_id.

Definition activo_de (libro_id : Z) (usuario : string) (p : Prestamo.t) : bool :=
  (Prestamo.libro_id p =? libro_id)
  && String.eqb (Prestamo.usuario p) usuario
  && negb (Prestamo.devuelto p).

(** *** Persistence *)

Definition datos (b : t) : json :=
  JObj [("libros"%string, JArr (map Libro.to_dict (libros b)));
        ("prestamos"%string, JArr (map Prestamo.to_dict (prestamos b)))].

Definition guardar_datos (env : Entorno) : M unit :=
  fun w =>
    match escritura env with
    | EscrituraOk =>
        (Ret tt, mk_mundo (bib w) (Documento (datos (bib w))) (salida w))
    | AperturaRechazada => (Raise OSError, w)
    | EscrituraInterrumpida =>
        (Raise OSError, mk_mundo (bib w) NoJson (salida w))
    end.

(** [open('biblioteca.json', 'r')] followed by [json.load(f)] *)
Definition abrir_y_leer (d : archivo) : resultado json :=
  match d with
  | NoExiste => Raise FileNotFoundError
  | Inaccesible => Raise OSError
  | NoTexto => Raise UnicodeDecodeError
  | NoJson => Raise JSONDecodeError
  | MuyAnidado => Raise RecursionError
  | EnteroDesmedido => Raise ValueError
  | Documento data => Ret data
  end.

Definition cargar_libro (l : json) : resultado Libro.cargado :=
  (i <- subindice l "id" ;;
   ti <- subindice l "titulo" ;;
   au <- subindice l "autor" ;;
   s <- subindice l "stock" ;;
   Ret (Libro.mk_cargado i ti au s))%res.

Definition cargar_prestamo (hoy : Z) (p : json) : resultado Prestamo.cargado :=
  (i <- subindice p "libro_id" ;;
   u <- subindice p "usuario" ;;
   _ <- sumar_dias hoy 14 ;;
   fp <- subindice p "fecha_prestamo" ;;
   fecha_prestamo <- strptime_json fp ;;
   fd <- subindice p "fecha_devolucion" ;;
   fecha_devolucion <- strptime_json fd ;;
   d <- subindice p "devuelto" ;;
   Ret (Prestamo.mk_cargado i u fecha_prestamo fecha_devolucion d))%res.

(** The body of the [try] of [cargar_datos]. *)
Definition leer_todo (hoy : Z) (d : archivo)
  : resultado (list Libro.cargado * list Prestamo.cargado) :=
  (data <- abrir_y_leer d ;;
   jl <- get data "libros" ;;
   ls <- iterar jl ;;
   libros <- para_cada cargar_libro ls ;;
   jp <- get data "prestamos" ;;
   ps <- iterar jp ;;
   prestamos <- para_cada (cargar_prestamo hoy) ps ;;
   Ret (libros, prestamos))%res.

Fixpoint todos {A B} (f : A -> option B) (l : list A) : option (list B) :=
  match l with
  | [] => Some []
  | x :: r =>
      match f x, todos f r with
      | Some y, Some ys => Some (y :: ys)
      | _, _ => None
      end
  end.

(** How a call of [cargar_datos] ends: it returns, leaving the manager
    with the lists [b] after the output [avisos]; or it returns having
    built records with an attribute of a type the classes do not
    declare; or an exception leaves it. *)
Inductive carga : Type :=
| Cargada (b : t) (avisos : list evento)
| CargadaSinTipo
| CargaFallida (e : excepcion).

Definition cargar_datos (hoy : Z) (self : t) (d : archivo) : carga :=
  match leer_todo hoy d with
  | Ret (ls, ps) =>
      match todos Libro.tipado ls, todos Prestamo.tipado ps with
      | Some libros, Some prestamos => Cargada (mk libros prestamos) []
      | _, _ => CargadaSinTipo
      end
  | Raise FileNotFoundError => Cargada self [SinDatosPrevios]
  | Raise JSONDecodeError => Cargada self [ErrorLectura]
  | Raise e => CargaFallida e
  end.

(** [Biblioteca()] *)
Definition init (hoy : Z) (d : archivo) : carga :=
  cargar_datos hoy (mk [] []) d.

(** *** The operations *)

Definition agregar_libro (env : Entorno) (libro : Libro.t) : M bool :=
  (b <- self ;;
   if existsb (con_id (Libro.id libro)) (libros b) then
     print (YaExisteLibro (Libro.id libro)) ;;
     ret false
   else
     set_libros (libros b ++ [libro]) ;;
     guardar_datos env ;;
     print (LibroAgregado (Libro.titulo libro)) ;;
     ret true)%mundo.

Definition prestar_libro (env : Entorno) (libro_id : Z) (usuario : string) : M bool :=
  (b <- self ;;
   let prestamo_activo := existsb (activo_de libro_id usuario) (prestamos b) in
   if prestamo_activo then
     print (YaPrestado usuario) ;;
     ret false
   else
     match find (con_id libro_id) (libros b) with
     | None =>
         print (LibroNoEncontrado libro_id) ;;
         ret false
     | Some libro =>
         if Libro.stock libro <=? 0 then
           print (SinExistencias (Libro.titulo libro)) ;;
           ret false
         else
           set_libros
             (modificar_primero (con_id libro_id)
                (fun l => Libro.con_stock l (Libro.stock l - 1)) (libros b)) ;;
           prestamo <- elevar (Prestamo.init (hoy env) libro_id usuario 14) ;;
           set_prestamos (prestamos b ++ [prestamo]) ;;
           guardar_datos env ;;
           print (LibroPrestado (Libro.titulo libro) usuario
                    (Prestamo.fecha_devolucion prestamo)) ;;
           create_task (TareaNotificacion usuario (Libro.titulo libro)
                          (Prestamo.fecha_devolucion prestamo)) ;;
           ret true
     end)%mundo.

Definition devolver_libro (env : Entorno) (libro_id : Z) (usuario : string) : M bool :=
  (b <- self ;;
   match find (activo_de libro_id usuario) (prestamos b) with
   | None =>
       print (PrestamoNoEncontrado usuario) ;;
       ret false
   | Some prestamo =>
       match find (con_id libro_id) (libros b) with
       | None =>
           print (LibroNoEncontrado libro_id) ;;
           ret false
       | Some libro =>
           set_prestamos
             (modificar_primero (activo_de libro_id usuario)
                Prestamo.marcar_devuelto (prestamos b)) ;;
           set_libros
             (modificar_primero (con_id libro_id)
                (fun l => Libro.con_stock l (Libro.stock l + 1)) (libros b)) ;;
           guardar_datos env ;;
           let multa :=
             Prestamo.calcular_multa (hoy env) (Prestamo.marcar_devuelto prestamo) in
           (if negb (Qle_bool multa 0) then print (DevolucionTardia multa)
            else print (LibroDevuelto (Libro.titulo libro))) ;;
           ret true
       end
   end)%mundo.

(** *** Runs of operations *)

Inductive operacion : Type :=
| Agregar (libro : Libro.t)
| Prestar (libro_id : Z) (usuario : string)
| Devolver (libro_id : Z) (usuario : string).

Definition ejecutar (env : Entorno) (op : operacion) : M bool :=
  match op with
  | Agregar libro => agregar_libro env libro
  | Prestar libro_id usuario => prestar_libro env libro_id usuario
  | Devolver libro_id usuario => devolver_libro env libro_id usuario
  end.

(** The world an operation leaves, whether it returned or raised. *)
Definition tras (env : Entorno) (op : operacion) (w : Mundo) : Mundo :=
  snd (ejecutar env op w).

Inductive alcanzable (w : Mundo) : Mundo -> Prop :=
| alc_inicio : alcanzable w w
| alc_paso w' env op : alcanzable w w' -> alcanzable w (tras env op w').

Fixpoint correr (ops : list (Entorno * operacion)) (w : Mundo) : Mundo :=
  match ops with
  | [] => w
  | (env, op) :: r => correr r (tras env op w)
  end.

End Biblioteca.

(** ** The vocabulary of the specification *)

Import Biblioteca.

(** The borrower holds an unreturned loan of the book. *)
Definition tiene_activo (libro_id : Z) (usuario : string) (b : Biblioteca.t) : Prop :=
  exists p, In p (prestamos b)
            /\ Prestamo.libro_id p = libro_id
            /\ Prestamo.usuario p = usuario
            /\ Prestamo.devuelto p = false.

(** No book of the catalog has the identifier. *)
Definition sin_libro (libro_id : Z) (b : Biblioteca.t) : Prop :=
  forall l, In l (libros b) -> Libro.id l <> libro_id.

(** The book an identifier names: the first of the catalog that has it. *)
Definition libro_de (libro_id : Z) (b : Biblioteca.t) : option Libro.t :=
  find (con_id libro_id) (libros b).

Definition stock_de (libro_id : Z) (b : Biblioteca.t) : option Z :=
  option_map Libro.stock (libro_de libro_id b).

(** The three reasons for which a loan is refused. *)
Definition prestamo_rechazado (libro_id : Z) (usuario : string) (b : Biblioteca.t) : Prop :=
  tiene_activo libro_id usuario b
  \/ sin_libro libro_id b
  \/ (exists l, libro_de libro_id b = Some l /\ Libro.stock l <= 0).

(** The number of unreturned loans of a book. *)
Definition cuenta_activo (libro_id : Z) (p : Prestamo.t) : bool :=
  (Prestamo.libro_id p =? libro_id) && negb (Prestamo.devuelto p).

Definition activos (libro_id : Z) (b : Biblioteca.t) : Z :=
  Z.of_nat (List.length (filter (cuenta_activo libro_id) (prestamos b))).

(** At most one unreturned loan for each book and borrower. *)
Definition unico_activo (b : Biblioteca.t) : Prop :=
  forall libro_id usuario,
    (List.length (filter (activo_de libro_id usuario) (prestamos b)) <= 1)%nat.

(** Every date of the state is one [datetime.date] can hold. *)
Definition fechas_validas (b : Biblioteca.t) : Prop :=
  Forall (fun p => Fecha.valida (Prestamo.fecha_prestamo p)
                   /\ Fecha.valida (Prestamo.fecha_devolucion p)) (prestamos b).

(** The clock shows a date, and a loan of 14 days made on it still ends
    on a date. *)
Definition reloj_ok (hoy : Z) : Prop :=
  Fecha.valida hoy /\ hoy + 14 <= Fecha.MAXORDINAL.

(** Every date of the state is in a year of four digits; some date of
    the state is before year 1000. *)
Definition fechas_de_cuatro_cifras (b : Biblioteca.t) : Prop :=
  Forall (fun p => Fecha.cuatro_cifras (Prestamo.fecha_prestamo p)
                   /\ Fecha.cuatro_cifras (Prestamo.fecha_devolucion p)) (prestamos b).

Definition alguna_fecha_corta (b : Biblioteca.t) : Prop :=
  Exists (fun p => Prestamo.fecha_prestamo p < 364878
                   \/ Prestamo.fecha_devolucion p < 364878) (prestamos b).

Definition con_escritura (env : Entorno) (e : escritura_t) : Entorno :=
  mk_entorno (hoy env) e.

(** Atomicity of an operation, in the strong form: it returns success
    with the state changed and written, or the state and the file are
    what they were. *)
Definition atomica (env : Entorno) (op : operacion) (w : Mundo) : Prop :=
  let r := ejecutar env op w in
  (fst r = Ret true
   /\ bib (snd r) <> bib w
   /\ disco (snd r) = Documento (datos (bib (snd r))))
  \/ (fst r <> Ret true /\ bib (snd r) = bib w /\ disco (snd r) = disco w).

(** A return that marks the last unreturned loan of the book and
    borrower. *)
Definition devuelve_el_ultimo : Prop :=
  forall env libro_id usuario w antes p despues,
    prestamos (bib w) = antes ++ p :: despues ->
    activo_de libro_id usuario p = true ->
    (forall q, In q despues -> activo_de libro_id usuario q = false) ->
    fst (devolver_libro env libro_id usuario w) = Ret true ->
    prestamos (bib (snd (devolver_libro env libro_id usuario w)))
    = antes ++ Prestamo.marcar_devuelto p :: despues.

(** A load that never lets an exception out. *)
Definition carga_total : Prop :=
  forall hoy d e, Biblioteca.init hoy d <> CargaFallida e.

(** *** Sample data *)

Definition mundo_vacio : Mundo := mk_mundo (mk [] []) NoExiste [].

Definition libro_x : Libro.t := Libro.mk 1 "X" "Y" 2.

Definition dia_1 : Z := 739000.

Definition entorno_1 : Entorno := mk_entorno dia_1 EscrituraOk.

Definition entorno_sin_permiso : Entorno := mk_entorno dia_1 AperturaRechazada.

Definition prestamo_viejo : Prestamo.t := Prestamo.mk 1 "alice" 738000 738014 false.

Definition prestamo_nuevo : Prestamo.t := Prestamo.mk 1 "alice" 738900 738914 false.

(** A state with two unreturned loans of one book to one borrower, as a
    data file written by hand can give. *)
Definition mundo_doble : Mundo :=
  mk_mundo (mk [libro_x] [prestamo_viejo; prestamo_nuevo]) NoExiste [].

Definition mundo_un_libro : Mundo := mk_mundo (mk [libro_x] []) NoExiste [].


(** A loan made on 0999-05-07 and returned, the data file, written by
    hand, that holds it, and the dictionary [to_dict] makes of it. *)
Definition prestamo_999 : Prestamo.t := Prestamo.mk 1 "alice" 364639 364653 true.

Definition documento_999 : json :=
  JObj [("libros"%string, JArr [Libro.to_dict libro_x]);
        ("prestamos"%string,
         JArr [JObj [("libro_id"%string, JNum 1);
                     ("usuario"%string, JStr "alice");
                     ("fecha_prestamo"%string, JStr "0999-05-07");
                     ("fecha_devolucion"%string, JStr "0999-05-21");
                     ("devuelto"%string, JBool true)]])].

Definition mundo_999 : Mundo :=
  mk_mundo (mk [libro_x] [prestamo_999]) (Documento documento_999) [].

Definition prestamo_999_escrito : json :=
  JObj [("libro_id"%string, JNum 1);
        ("usuario"%string, JStr "alice");
        ("fecha_prestamo"%string, JStr "999-05-07");
        ("fecha_devolucion"%string, JStr "999-05-21");
        ("devuelto"%string, JBool true)].

(** A document whose only book record lacks three of its fields. *)
Definition documento_incompleto : json :=
  JObj [("libros"%string, JArr [JObj [("id"%string, JNum 1)]])].

(** ** Queries, listings and the menu *)

(** More vocabulary: the identifiers of the catalog are pairwise
    distinct; no stock is negative; the file holds the lists. *)
Definition ids_unicos (b : Biblioteca.t) : Prop :=
  NoDup (map Libro.id (libros b)).

Definition stocks_no_negativos (b : Biblioteca.t) : Prop :=
  Forall (fun l => 0 <= Libro.stock l) (libros b).

Definition sincronizado (w : Mundo) : Prop :=
  disco w = Documento (datos (bib w)).

(** What never changes in a loan: everything but its returned flag. *)
Definition sin_bandera (p : Prestamo.t) : Z * string * Z * Z :=
  (Prestamo.libro_id p, Prestamo.usuario p,
   Prestamo.fecha_prestamo p, Prestamo.fecha_devolucion p).

(** What never changes in a book: everything but its stock. *)
Definition sin_stock (l : Libro.t) : Z * string * string :=
  (Libro.id l, Libro.titulo l, Libro.autor l).

Definition devueltos (ps : list Prestamo.t) : list bool :=
  map Prestamo.devuelto ps.

(** [b'] continues [b]: the books of [b] are still there, in place, with
    their identifier, title and author; so are its loans, with their
    book, borrower and dates; and a loan that was returned still is. *)
Definition continua (b b' : Biblioteca.t) : Prop :=
  (exists ls, map sin_stock (libros b') = map sin_stock (libros b) ++ ls)
  /\ (exists ps, map sin_bandera (prestamos b') = map sin_bandera (prestamos b) ++ ps)
  /\ (forall i, nth i (devueltos (prestamos b)) false = true ->
                nth i (devueltos (prestamos b')) false = true).

Definition stock_admisible (eo : Entorno * operacion) : Prop :=
  match snd eo with
  | Agregar libro => 0 <= Libro.stock libro
  | _ => True
  end.

(** The value of an attribute read by name. *)
Inductive atributo : Type :=
| AInt (n : Z)
| AStr (s : string).

(** [a == b] between an integer and a text is false. *)
Definition atributo_eqb (a b : atributo) : bool :=
  match a, b with
  | AInt x, AInt y => x =? y
  | AStr x, AStr y => String.eqb x y
  | _, _ => false
  end.

(** [getattr(l, nombre)]; [None] stands for the [AttributeError] of a
    name that is not an attribute. *)
Definition getattr (l : Libro.t) (nombre : string) : option atributo :=
  if String.eqb nombre "id" then Some (AInt (Libro.id l))
  else if String.eqb nombre "titulo" then Some (AStr (Libro.titulo l))
  else if String.eqb nombre "autor" then Some (AStr (Libro.autor l))
  else if String.eqb nombre "stock" then Some (AInt (Libro.stock l))
  else None.

(** [x in l] for texts *)
Definition pertenece (x : string) (l : list string) : bool :=
  existsb (String.eqb x) l.

Inductive estado_prestamo : Type :=
| EnPlazo
| Atrasado (multa : Q).

(** The prompts of [input]. *)
Inductive pregunta : Type :=
| PideOpcion
| PideIdLibro
| PideTitulo
| PideAutor
| PideStock
| PideCriterio
| PideValor (criterio : string)
| PideIdPrestar
| PideUsuario
| PideIdDevolver.

(** What the listings, the search and the menu print.  [MenuPrincipal]
    and [MenuBusqueda] stand for the lines of the two menus, and
    [DeBiblioteca] for a line printed by an operation of the manager. *)
Inductive linea : Type :=
| CriterioInvalido (criterio : string)
| ValorInvalido (criterio valor : string)
| NoHayLibros
| CabeceraCatalogo
| LineaLibro (l : Libro.t)
| NoHayPrestamos
| CabeceraPrestamos
| LineaPrestamo (usuario libro_titulo : string) (fecha_devolucion : Z)
    (estado : estado_prestamo)
| MenuPrincipal
| Pregunta (p : pregunta)
| ErrorEnteros
| ErrorIdEntero
| MenuBusqueda
| CabeceraResultados
| LineaResultado (l : Libro.t)
| SinResultados
| OpcionInvalida
| HastaPronto
| DeBiblioteca (e : evento).

Definition es_atrasado (l : linea) : option Q :=
  match l with
  | LineaPrestamo _ _ _ (Atrasado m) => Some m
  | _ => None
  end.

(** *** Listings *)

Definition listar_libros (b : Biblioteca.t) : list linea :=
  match libros b with
  | [] => [NoHayLibros]
  | _ => CabeceraCatalogo :: map LineaLibro (libros b)
  end.

(** The lines of the active loans.  The clock is read once for each
    loan, and once more by [calcular_multa] for a loan that is late:
    [reloj k] is the date the [k]-th reading of the call gives. *)
Fixpoint lineas_prestamos (reloj : nat -> Z) (k : nat) (ls : list Libro.t)
    (activos : list Prestamo.t) : list linea :=
  match activos with
  | [] => []
  | prestamo :: resto =>
      let libro_titulo :=
        match find (con_id (Prestamo.libro_id prestamo)) ls with
        | Some libro => Libro.titulo libro
        | None => "Libro Desconocido"%string
        end in
      if reloj k <=? Prestamo.fecha_devolucion prestamo then
        LineaPrestamo (Prestamo.usuario prestamo) libro_titulo
          (Prestamo.fecha_devolucion prestamo) EnPlazo
        :: lineas_prestamos reloj (S k) ls resto
      else
        LineaPrestamo (Prestamo.usuario prestamo) libro_titulo
          (Prestamo.fecha_devolucion prestamo)
          (Atrasado (Prestamo.calcular_multa (reloj (S k)) prestamo))
        :: lineas_prestamos reloj
             (if Prestamo.devuelto prestamo then S k else S (S k)) ls resto
  end.

Definition listar_prestamos_activos (reloj : nat -> Z) (b : Biblioteca.t)
  : list linea :=
  let activos := filter (fun p => negb (Prestamo.devuelto p)) (prestamos b) in
  match activos with
  | [] => [NoHayPrestamos]
  | _ => CabeceraPrestamos :: lineas_prestamos reloj 0 (libros b) activos
  end.

(** *** The session at the console *)

(** The manager with its file, the screen, and the lines still to be
    typed. *)
Record Sesion : Type := mk_sesion {
  mundo : Mundo;
  pantalla : list linea;
  teclado : list string
}.

(** What leaves a computation of the session: an exception of the
    manager or of a conversion, or the [EOFError] of [input] when
    nothing is left to read. *)
Inductive salto : Type :=
| Excepcion (e : excepcion)
| EOFError.

Definition S_ (A : Type) : Type := Sesion -> (A + salto) * Sesion.

Definition ret_s {A} (a : A) : S_ A := fun s => (inl a, s).

Definition bind_s {A B} (m : S_ A) (k : A -> S_ B) : S_ B :=
  fun s =>
    match m s with
    | (inl a, s') => k a s'
    | (inr e, s') => (inr e, s')
    end.

Declare Scope sesion_scope.
Delimit Scope sesion_scope with sesion.
Notation "x <- m ;; k" := (bind_s m (fun x => k))
  (at level 61, m at next level, right associativity) : sesion_scope.
Notation "m ;; k" := (bind_s m (fun _ => k))
  (at level 61, right associativity) : sesion_scope.

Definition print_s (l : linea) : S_ unit :=
  fun s => (inl tt, mk_sesion (mundo s) (pantalla s ++ [l]) (teclado s)).

Definition print_todas (ls : list linea) : S_ unit :=
  fun s => (inl tt, mk_sesion (mundo s) (pantalla s ++ ls) (teclado s)).

(** [input(prompt)] *)
Definition input (p : pregunta) : S_ string :=
  fun s =>
    match teclado s with
    | [] => (inr EOFError, mk_sesion (mundo s) (pantalla s ++ [Pregunta p]) [])
    | x :: r => (inl x, mk_sesion (mundo s) (pantalla s ++ [Pregunta p]) r)
    end.

(** A call of a method of the manager: what it prints goes to the
    screen. *)
Definition llamar {A} (m : M A) : S_ A :=
  fun s =>
    let '(r, w') := m (mundo s) in
    let s' := mk_sesion w'
                (pantalla s
                 ++ map DeBiblioteca (skipn (List.length (salida (mundo s))) (salida w')))
                (teclado s) in
    match r with
    | Ret a => (inl a, s')
    | Raise e => (inr (Excepcion e), s')
    end.

(** [try: m except ValueError: h] *)
Definition salvo_ValueError {A} (m : S_ A) (h : S_ A) : S_ A :=
  fun s =>
    match m s with
    | (inr (Excepcion e), s') =>
        if es_ValueError e then h s' else (inr (Excepcion e), s')
    | r => r
    end.

Definition mostrar_menu : S_ string :=
  (print_s MenuPrincipal ;; input PideOpcion)%sesion.

Definition criterios (subopcion : string) : option string :=
  if String.eqb subopcion "1" then Some "id"%string
  else if String.eqb subopcion "2" then Some "titulo"%string
  else if String.eqb subopcion "3" then Some "autor"%string
  else if String.eqb subopcion "4" then Some "stock"%string
  else None.

Section Texto.

(** The two conversions of the standard library the program applies to
    what the user types: [s.lower()], and [int(s)] with [None] for its
    [ValueError]. *)
Variable lower : string -> string.
Variable int : string -> option Z.

Definition buscar_libro (criterio valor : string) (b : Biblioteca.t)
  : list Libro.t * list linea :=
  let criterio := lower criterio in
  if negb (pertenece criterio ["id"; "titulo"; "autor"; "stock"]%string) then
    ([], [CriterioInvalido criterio])
  else
    let convertido :=
      if pertenece criterio ["id"; "stock"]%string
      then option_map AInt (int valor)
      else Some (AStr valor) in
    match convertido with
    | Some v =>
        (filter (fun l => match getattr l criterio with
                          | Some a => atributo_eqb a v
                          | None => false
                          end) (libros b), [])
    | None => ([], [ValorInvalido criterio valor])
    end.

(** [int(input(prompt))] *)
Definition input_int (p : pregunta) : S_ Z :=
  (x <- input p ;;
   match int x with
   | Some n => ret_s n
   | None => fun s => (inr (Excepcion ValueError), s)
   end)%sesion.

(** What the loop of [main] does with the option typed; [true] is its
    [break]. *)
Definition segun_opcion (env : Entorno) (reloj : nat -> Z) (opcion : string)
  : S_ bool :=
  (if String.eqb opcion "1" then
     salvo_ValueError
       (id <- input_int PideIdLibro ;;
        titulo <- input PideTitulo ;;
        autor <- input PideAutor ;;
        stock <- input_int PideStock ;;
        _ <- llamar (agregar_libro env (Libro.mk id titulo autor stock)) ;;
        ret_s tt)
       (print_s ErrorEnteros) ;;
     ret_s false
   else if String.eqb opcion "2" then
     (fun s => print_todas (listar_libros (bib (mundo s))) s) ;;
     ret_s false
   else if String.eqb opcion "3" then
     print_s MenuBusqueda ;;
     subopcion <- input PideCriterio ;;
     match criterios subopcion with
     | Some criterio =>
         valor <- input (PideValor criterio) ;;
         (fun s =>
            let '(encontrados, avisos) := buscar_libro criterio valor (bib (mundo s)) in
            (print_todas avisos ;;
             match encontrados with
             | [] => print_s SinResultados
             | _ => print_todas (CabeceraResultados :: map LineaResultado encontrados)
             end) s) ;;
         ret_s false
     | None =>
         print_s OpcionInvalida ;;
         ret_s false
     end
   else if String.eqb opcion "4" then
     salvo_ValueError
       (libro_id <- input_int PideIdPrestar ;;
        usuario <- input PideUsuario ;;
        _ <- llamar (prestar_libro env libro_id usuario) ;;
        ret_s tt)
       (print_s ErrorIdEntero) ;;
     ret_s false
   else if String.eqb opcion "5" then
     salvo_ValueError
       (libro_id <- input_int PideIdDevolver ;;
        usuario <- input PideUsuario ;;
        _ <- llamar (devolver_libro env libro_id usuario) ;;
        ret_s tt)
       (print_s ErrorIdEntero) ;;
     ret_s false
   else if String.eqb opcion "6" then
     (fun s => print_todas (listar_prestamos_activos reloj (bib (mundo s))) s) ;;
     ret_s false
   else if String.eqb opcion "7" then
     print_s HastaPronto ;;
     ret_s true
   else
     print_s OpcionInvalida ;;
     ret_s false)%sesion.

(** One turn of the loop of [main]. *)
Definition iteracion (env : Entorno) (reloj : nat -> Z) : S_ bool :=
  (opcion <- mostrar_menu ;; segun_opcion env reloj opcion)%sesion.

(** How a run of the loop stands: it left by [break], an exception left
    it, or it is about to show the menu again. *)
Inductive final : Type :=
| Salio
| Cayo (e : salto)
| EnCurso.

(** The loop of [main], one environment for each turn. *)
Fixpoint bucle (ambientes : list (Entorno * (nat -> Z))) (s : Sesion)
  : final * Sesion :=
  match ambientes with
  | [] => (EnCurso, s)
  | (env, reloj) :: resto =>
      match iteracion env reloj s with
      | (inl true, s') => (Salio, s')
      | (inl false, s') => bucle resto s'
      | (inr e, s') => (Cayo e, s')
      end
  end.

(** [main]: the manager is built from the file, then the loop runs.
    [None] stands for a manager built with attributes of types the
    classes do not declare. *)
Definition main (hoy : Z) (d : archivo) (lineas : list string)
    (ambientes : list (Entorno * (nat -> Z))) : option (final * Sesion) :=
  match Biblioteca.init hoy d with
  | Cargada b avisos =>
      Some (bucle ambientes
              (mk_sesion (mk_mundo b d avisos) (map DeBiblioteca avisos) lineas))
  | CargaFallida e =>
      Some (Cayo (Excepcion e), mk_sesion (mk_mundo (mk [] []) d []) [] lineas)
  | CargadaSinTipo => None
  end.

End Texto.

(** Four things a computation of the session may keep: the manager
    untouched; the manager within reach of its operations; the lines
    still to be typed not more than they were; the loop not left. *)
Definition quieto {A} (m : S_ A) : Prop :=
  forall s, mundo (snd (m s)) = mundo s.

Definition dentro {A} (m : S_ A) : Prop :=
  forall s, alcanzable (mundo s) (mundo (snd (m s))).

Definition no_crece {A} (m : S_ A) : Prop :=
  forall s, (List.length (teclado (snd (m s))) <= List.length (teclado s))%nat.

Definition nunca_sale (m : S_ bool) : Prop :=
  forall s, fst (m s) <> inl true.

(** Conversions for texts of plain decimal digits and unaccented
    letters, on which they are what [lower] and [int] of the standard
    library compute. *)
Fixpoint lower_ascii (s : string) : string :=
  match s with
  | EmptyString => EmptyString
  | String c r =>
      let k := nat_of_ascii c in
      String (if ((65 <=? k) && (k <=? 90))%nat then ascii_of_nat (k + 32) else c)
        (lower_ascii r)
  end.

Fixpoint digitos (s : string) (acc : Z) : option Z :=
  match s with
  | EmptyString => Some acc
  | String c r =>
      if Fecha.es_digito c then digitos r (10 * acc + Fecha.valor c) else None
  end.

Definition int_decimal (s : string) : option Z :=
  match s with
  | EmptyString => None
  | String "-" EmptyString => None
  | String "-" r => option_map Z.opp (digitos r 0)
  | _ => digitos s 0
  end.

Definition sesion_1 : Sesion :=
  mk_sesion mundo_un_libro [] ["4"; "uno"; "7"]%string.

Definition reloj_fijo (d : Z) : nat -> Z := fun _ => d.

(** A document written by hand: no book, and a loan whose first date
    is not zero-filled. *)
Definition documento_sin_ceros : json :=
  JObj [("libros"%string, JArr []);
        ("prestamos"%string,
         JArr [JObj [("libro_id"%string, JNum 1);
                     ("usuario"%string, JStr "ana");
                     ("fecha_prestamo"%string, JStr "2024-2-9");
                     ("fecha_devolucion"%string, JStr "2024-02-23");
                     ("devuelto"%string, JBool false)]])].

(** * Properties *)

(** ** Dates *)

Example strftime_2024_02_29 : Fecha.strftime 738945 = "2024-02-29"%string.
Proof. reflexivity. Qed.

Example strptime_2024_02_29 : Fecha.strptime "2024-02-29" = Some 738945.
Proof. reflexivity. Qed.

Example strptime_2023_02_29 : Fecha.strptime "2023-02-29" = None.
Proof. reflexivity. Qed.

Example strptime_sin_ceros : Fecha.strptime "2024-2-9" = Some 738925.
Proof. reflexivity. Qed.

Example strftime_min : Fecha.strftime 1 = "1-01-01"%string.
Proof. reflexivity. Qed.

Example primer_dia_de_cuatro_cifras : Fecha.ymd2ord 1000 1 1 = 364878.
Proof. reflexivity. Qed.

Example strftime_1000_01_01 : Fecha.strftime 364878 = "1000-01-01"%string.
Proof. reflexivity. Qed.

Example strftime_999_12_31 : Fecha.strftime 364877 = "999-12-31"%string.
Proof. reflexivity. Qed.

Example strptime_0999_05_07 : Fecha.strptime "0999-05-07" = Some 364639.
Proof. reflexivity. Qed.

Example strftime_999_05_07 : Fecha.strftime 364639 = "999-05-07"%string.
Proof. reflexivity. Qed.

Example strptime_999_05_07 : Fecha.strptime "999-05-07" = None.
Proof. reflexivity. Qed.

Example strftime_max : Fecha.strftime Fecha.MAXORDINAL = "9999-12-31"%string.
Proof. reflexivity. Qed.

Section Calendario.
Import Fecha.

Lemma rango_In k n : 0 <= n < Z.of_nat k -> In n (rango k).
Proof.
  intros H. unfold rango. apply in_map_iff. exists (Z.to_nat n). split; [lia|].
  apply in_seq. lia.
Qed.

Lemma por_rango (P : Z -> Prop) (k : nat) :
  Forall P (rango k) -> forall n, 0 <= n < Z.of_nat k -> P n.
Proof.
  intros H n Hn. rewrite Forall_forall in H. now apply H, rango_In.
Qed.

(** Case analysis on a number below [k], each case closed by computation
    or by a contradictory bound. *)
Ltac uno_por_uno k :=
  let l := eval vm_compute in (rango k) in
  change (rango k) with l;
  repeat (apply Forall_cons;
          [first [reflexivity | split; reflexivity | intros; lia]|]);
  apply Forall_nil.

Lemma digito_ok n : 0 <= n <= 9 -> es_digito (digito n) = true /\ valor (digito n) = n.
Proof.
  intros H.
  apply (por_rango (fun n => es_digito (digito n) = true /\ valor (digito n) = n) 10);
    [uno_por_uno 10%nat|lia].
Qed.

Lemma mes_y_dia_todos :
  forallb (mes_y_dia_bien false) (rango 365) && forallb (mes_y_dia_bien true) (rango 366) = true.
Proof. vm_compute. reflexivity. Qed.

Lemma mes_y_dia_ok leap n :
  0 <= n < 365 + b2z leap -> mes_y_dia_bien leap n = true.
Proof.
  intros H. pose proof mes_y_dia_todos as T. apply andb_prop in T. destruct T as [T1 T2].
  rewrite forallb_forall in T1, T2.
  destruct leap; [apply T2|apply T1]; apply rango_In; cbn in *; lia.
Qed.

Lemma ord2ymd_ok n : valida n ->
  let '(y, m, d) := ord2ymd n in
  1 <= y <= 9999 /\ 1 <= m <= 12 /\ 1 <= d <= days_in_month y m /\ ymd2ord y m d = n.
Proof.
  unfold valida, MAXORDINAL. intros H. unfold ord2ymd.
  set (n0 := n - 1).
  set (n400 := n0 / 146097). set (r400 := n0 mod 146097).
  set (n100 := r400 / 36524). set (r100 := r400 mod 36524).
  set (n4 := r100 / 1461). set (r4 := r100 mod 1461).
  set (n1 := r4 / 365). set (r1 := r4 mod 365).
  assert (E400 : n0 = 146097 * n400 + r400 /\ 0 <= r400 < 146097)
    by (split; [apply Z.div_mod; lia | apply Z.mod_pos_bound; lia]).
  assert (E100 : r400 = 36524 * n100 + r100 /\ 0 <= r100 < 36524)
    by (split; [apply Z.div_mod; lia | apply Z.mod_pos_bound; lia]).
  assert (E4 : r100 = 1461 * n4 + r4 /\ 0 <= r4 < 1461)
    by (split; [apply Z.div_mod; lia | apply Z.mod_pos_bound; lia]).
  assert (E1 : r4 = 365 * n1 + r1 /\ 0 <= r1 < 365)
    by (split; [apply Z.div_mod; lia | apply Z.mod_pos_bound; lia]).
  assert (Hn0 : 0 <= n0 < 3652059 /\ n = n0 + 1) by (unfold n0; lia).
  clearbody n0 n400 r400 n100 r100 n4 r4 n1 r1.
  assert (B400 : 0 <= n400 <= 24) by lia.
  assert (B100 : 0 <= n100 <= 4) by lia.
  assert (B4 : 0 <= n4 <= 24) by lia.
  assert (B1 : 0 <= n1 <= 4) by lia.
  assert (BY : n400 * 400 + n100 * 100 + n4 * 4 + n1 <= 9998).
  { assert (n400 <= 23 \/ n400 = 24) as [?|?] by lia; [lia|].
    assert (n100 <= 2 \/ n100 = 3) as [?|?] by lia; [lia|].
    assert (n4 <= 23 \/ n4 = 24) as [?|?] by lia; [lia|].
    assert (n1 <= 2) by lia. lia. }
  destruct ((n1 =? 4) || (n100 =? 4)) eqn:Eb.
  - assert (r1 = 0 /\ (n1 = 4 \/ n100 = 4 /\ n4 = 0 /\ n1 = 0)) as [R C].
    { apply orb_prop in Eb. destruct Eb as [Eb|Eb]; apply Z.eqb_eq in Eb; lia. }
    unfold days_in_month, ymd2ord, days_before_month, days_before_year, is_leap.
    change (tabla DAYS_IN_MONTH 12) with 31.
    change (tabla DAYS_BEFORE_MONTH 12) with 334.
    replace (12 =? 2) with false by reflexivity. replace (2 <? 12) with true by reflexivity.
    cbn [andb].
    set (Y := n400 * 400 + 1 + n100 * 100 + n4 * 4 + n1 - 1).
    assert (HY : Y mod 4 = 0 /\ (Y mod 100 <> 0 \/ Y mod 400 = 0)).
    { unfold Y. clear Y. clear Eb.
      destruct C as [C|(C1 & C2 & C3)].
      - assert (0 <= n4 <= 23) by lia. subst n1.
        Z.div_mod_to_equations. lia.
      - subst. Z.div_mod_to_equations. lia. }
    destruct HY as [H4 H100].
    rewrite H4. cbn [Z.eqb andb].
    assert ((negb (Y mod 100 =? 0) || (Y mod 400 =? 0)) = true) as ->.
    { destruct H100 as [H100|H100]; [apply Z.eqb_neq in H100; rewrite H100; reflexivity|].
      rewrite H100. apply orb_true_r. }
    cbn [b2z].
    split; [unfold Y; lia|]. split; [lia|]. split; [lia|].
    assert (D4 : (Y - 1) / 4 = 100 * n400 + 25 * n100 + n4 + n1 - 4 + 3 * (n100 / 4)).
    { unfold Y. destruct C as [C|(C1 & C2 & C3)]; subst.
      - replace (n100 / 4) with 0 by (symmetry; apply Z.div_small; lia).
        Z.div_mod_to_equations; lia.
      - change (4 / 4) with 1. Z.div_mod_to_equations; lia. }
    assert (D100 : (Y - 1) / 100 = 4 * n400 + n100 - n100 / 4).
    { unfold Y. destruct C as [C|(C1 & C2 & C3)]; subst.
      - replace (n100 / 4) with 0 by (symmetry; apply Z.div_small; lia).
        assert (0 <= n4 <= 23) by lia. Z.div_mod_to_equations; lia.
      - change (4 / 4) with 1. Z.div_mod_to_equations; lia. }
    assert (D400 : (Y - 1) / 400 = n400).
    { unfold Y. destruct C as [C|(C1 & C2 & C3)]; subst.
      - assert (0 <= n4 <= 23) by lia. assert (0 <= n100 <= 3) by lia.
        Z.div_mod_to_equations; lia.
      - Z.div_mod_to_equations; lia. }
    rewrite D4, D100, D400.
    unfold Y. destruct C as [C|(C1 & C2 & C3)].
    + replace (n100 / 4) with 0 by (symmetry; apply Z.div_small; lia). lia.
    + rewrite C1. change (4 / 4) with 1. lia.
  - apply orb_false_elim in Eb. destruct Eb as [Eb1 Eb2].
    apply Z.eqb_neq in Eb1, Eb2.
    set (leapyear := (n1 =? 3) && (negb (n4 =? 24) || (n100 =? 3))).
    set (Y := n400 * 400 + 1 + n100 * 100 + n4 * 4 + n1).
    assert (HL : is_leap Y = leapyear).
    { unfold is_leap, leapyear, Y.
      destruct (Z.eqb_spec n1 3) as [e1|e1];
      destruct (Z.eqb_spec n4 24) as [e4|e4];
      destruct (Z.eqb_spec n100 3) as [e100|e100]; cbn [andb orb negb];
      repeat match goal with
      | |- context [?a mod ?b =? 0] => destruct (Z.eqb_spec (a mod b) 0)
      end; cbn [andb orb negb]; try reflexivity; exfalso;
      Z.div_mod_to_equations; lia. }
    assert (Hr : 0 <= r1 < 365 + b2z leapyear).
    { destruct leapyear; cbn; lia. }
    pose proof (mes_y_dia_ok leapyear r1 Hr) as M.
    unfold mes_y_dia_bien in M.
    destruct (mes_y_dia leapyear r1) as [m d].
    repeat (apply andb_prop in M; destruct M as [M ?]).
    repeat match goal with
    | H : (_ <=? _) = true |- _ => apply Z.leb_le in H
    | H : (_ =? _) = true |- _ => apply Z.eqb_eq in H
    end.
    assert (HD : days_in_month Y m = tabla DAYS_IN_MONTH m + b2z ((m =? 2) && leapyear)).
    { unfold days_in_month. rewrite HL. destruct ((m =? 2) && leapyear) eqn:E; cbn [b2z]; [|lia].
      apply andb_prop in E. destruct E as [E _]. apply Z.eqb_eq in E. subst m. reflexivity. }
    split; [unfold Y; lia|]. split; [lia|]. split; [lia|].
    unfold ymd2ord, days_before_month. rewrite HL.
    unfold days_before_year, Y. Z.div_mod_to_equations. lia.
Qed.

Lemma lee_anio_ok y r : 0 <= y <= 9999 ->
  lee_anio (String (digito (y / 1000)) (String (digito (y / 100 mod 10))
              (dos_digitos (y mod 100) r))) = Some (y, r).
Proof.
  intros H. unfold dos_digitos, lee_anio.
  destruct (digito_ok (y / 1000)) as [-> ->]; [Z.div_mod_to_equations; lia|].
  destruct (digito_ok (y / 100 mod 10)) as [-> ->]; [Z.div_mod_to_equations; lia|].
  destruct (digito_ok (y mod 100 / 10)) as [-> ->]; [Z.div_mod_to_equations; lia|].
  destruct (digito_ok (y mod 100 mod 10)) as [-> ->]; [Z.div_mod_to_equations; lia|].
  cbn [andb]. do 2 f_equal. Z.div_mod_to_equations; lia.
Qed.

Lemma lee_mes_ok m r : 1 <= m <= 12 ->
  lee_mes (dos_digitos m (String "-" r)) = Some (m, r).
Proof.
  intros H.
  apply (por_rango
           (fun m => 1 <= m -> lee_mes (dos_digitos m (String "-" r)) = Some (m, r)) 13);
    [uno_por_uno 13%nat|lia|lia].
Qed.

Lemma lee_dia_ok d : 1 <= d <= 31 ->
  lee_dia (dos_digitos d EmptyString) = Some d.
Proof.
  intros H.
  apply (por_rango
           (fun d => 1 <= d -> lee_dia (dos_digitos d EmptyString) = Some d) 32);
    [uno_por_uno 32%nat|lia|lia].
Qed.

Lemma days_in_month_le y m : 1 <= m <= 12 -> days_in_month y m <= 31.
Proof.
  intros H. unfold days_in_month. destruct ((m =? 2) && is_leap y); [lia|].
  apply Z.leb_le.
  apply (por_rango (fun m => (tabla DAYS_IN_MONTH m <=? 31) = true) 13);
    [uno_por_uno 13%nat|lia].
Qed.

Lemma anio_de_cuatro_cifras y r : 1000 <= y ->
  anio y r
  = String (digito (y / 1000))
      (String (digito (y / 100 mod 10)) (dos_digitos (y mod 100) r)).
Proof.
  intros H. unfold anio.
  replace (y <? 10) with false by (symmetry; apply Z.ltb_ge; lia).
  replace (y <? 100) with false by (symmetry; apply Z.ltb_ge; lia).
  replace (y <? 1000) with false by (symmetry; apply Z.ltb_ge; lia).
  reflexivity.
Qed.

Ltac caso_a_caso k tac :=
  let l := eval vm_compute in (rango k) in
  change (rango k) with l;
  repeat (apply Forall_cons; [tac|]);
  apply Forall_nil.

Lemma dias_del_mes_cota (m : Z) (b : bool) :
  1 <= m <= 12 ->
  0 <= tabla DAYS_BEFORE_MONTH m + b2z ((2 <? m) && b)
  /\ tabla DAYS_BEFORE_MONTH m + b2z ((2 <? m) && b)
     + (if (m =? 2) && b then 29 else tabla DAYS_IN_MONTH m) <= 365 + b2z b.
Proof.
  intros H.
  assert (((0 <=? tabla DAYS_BEFORE_MONTH m + b2z ((2 <? m) && b))
           && (tabla DAYS_BEFORE_MONTH m + b2z ((2 <? m) && b)
               + (if (m =? 2) && b then 29 else tabla DAYS_IN_MONTH m)
               <=? 365 + b2z b)) = true) as K.
  { revert b.
    apply (por_rango
             (fun m => 1 <= m -> forall b,
                ((0 <=? tabla DAYS_BEFORE_MONTH m + b2z ((2 <? m) && b))
                 && (tabla DAYS_BEFORE_MONTH m + b2z ((2 <? m) && b)
                     + (if (m =? 2) && b then 29 else tabla DAYS_IN_MONTH m)
                     <=? 365 + b2z b)) = true) 13);
      [caso_a_caso 13%nat ltac:(first [intros _ []; reflexivity | intros; lia])|lia|lia]. }
  apply andb_prop in K. destruct K as [K1 K2]. apply Z.leb_le in K1, K2. auto.
Qed.

(** The last day of a year before 1000 is before 1000-01-01. *)
Lemma fin_de_anio_corto y : 1 <= y <= 999 ->
  days_before_year y + 365 + b2z (is_leap y) <= 364877.
Proof.
  intros H. unfold days_before_year.
  assert (y <= 998 \/ y = 999) as [L|L] by lia; [|subst y; vm_compute; discriminate].
  assert (b2z (is_leap y) <= 1) by (destruct (is_leap y); cbn; lia).
  cbn zeta. Z.div_mod_to_equations. lia.
Qed.

Lemma ymd2ord_cota y m dd :
  1 <= m <= 12 -> 1 <= dd <= days_in_month y m ->
  days_before_year y < ymd2ord y m dd
  /\ ymd2ord y m dd <= days_before_year y + 365 + b2z (is_leap y).
Proof.
  intros Hm Hd. unfold ymd2ord, days_before_month.
  destruct (dias_del_mes_cota m (is_leap y) Hm) as [M1 M2].
  unfold days_in_month in Hd. lia.
Qed.

Lemma ord2ymd_cuatro_cifras d : cuatro_cifras d ->
  let '(y, _, _) := ord2ymd d in 1000 <= y.
Proof.
  unfold cuatro_cifras. intros H.
  assert (valida d) as V by (unfold valida; lia).
  pose proof (ord2ymd_ok d V) as K.
  destruct (ord2ymd d) as [[y m] dd]. destruct K as (Hy & Hm & Hd & E).
  destruct (Z.le_gt_cases 1000 y) as [L|L]; [assumption|].
  pose proof (ymd2ord_cota y m dd Hm Hd) as [_ C].
  pose proof (fin_de_anio_corto y). lia.
Qed.

Lemma ord2ymd_anio_corto d : valida d -> d < 364878 ->
  let '(y, _, _) := ord2ymd d in y < 1000.
Proof.
  intros V H. pose proof (ord2ymd_ok d V) as K.
  destruct (ord2ymd d) as [[y m] dd]. destruct K as (Hy & Hm & Hd & E).
  destruct (Z.le_gt_cases 1000 y) as [L|L]; [|assumption].
  pose proof (ymd2ord_cota y m dd Hm Hd) as [C _].
  assert (364877 <= days_before_year y); [|lia].
  unfold days_before_year. cbn zeta. Z.div_mod_to_equations. lia.
Qed.

(** From year 1000 on, the text [strftime] writes is read back as the
    date it was written from. *)
Theorem strptime_strftime d : cuatro_cifras d -> strptime (strftime d) = Some d.
Proof.
  intros H. pose proof (ord2ymd_cuatro_cifras d H) as Y.
  assert (valida d) as V by (unfold valida, cuatro_cifras in *; lia).
  pose proof (ord2ymd_ok d V) as K. unfold strftime, strptime.
  destruct (ord2ymd d) as [[y m] dd]. destruct K as (Hy & Hm & Hd & E).
  rewrite anio_de_cuatro_cifras by assumption.
  rewrite lee_anio_ok by lia. cbn [lee_guion].
  rewrite lee_mes_ok by lia. cbn [lee_guion].
  pose proof (days_in_month_le y m Hm).
  rewrite lee_dia_ok by lia.
  replace (1 <=? y) with true by (symmetry; apply Z.leb_le; lia).
  replace (dd <=? days_in_month y m) with true by (symmetry; apply Z.leb_le; lia).
  cbn [andb]. now rewrite E.
Qed.

(** Before year 1000 it is not: the year takes fewer than four
    characters, and [%Y] finds a hyphen where it wants a digit. *)
Theorem strptime_strftime_corto d : valida d -> d < 364878 ->
  strptime (strftime d) = None.
Proof.
  intros V H. pose proof (ord2ymd_anio_corto d V H) as Y.
  pose proof (ord2ymd_ok d V) as K. unfold strftime, strptime.
  destruct (ord2ymd d) as [[y m] dd]. destruct K as (Hy & Hm & Hd & E).
  assert (lee_anio
            (anio y (String "-" (dos_digitos m (String "-" (dos_digitos dd EmptyString)))))
          = None) as ->; [|reflexivity].
  unfold anio, dos_digitos.
  destruct (y <? 10); [|destruct (y <? 100); [|destruct (y <? 1000) eqn:E3]].
  - unfold lee_anio. change (es_digito "-") with false.
    now rewrite andb_false_r.
  - unfold lee_anio. change (es_digito "-") with false.
    now rewrite andb_false_r.
  - unfold lee_anio. change (es_digito "-") with false.
    now rewrite andb_false_r.
  - apply Z.ltb_ge in E3. lia.
Qed.

End Calendario.

(** ** Lists and the first element that satisfies a test *)

Section Primero.
Context {A : Type} (p : A -> bool) (f : A -> A).

Lemma find_partir l x :
  find p l = Some x ->
  exists antes despues,
    l = antes ++ x :: despues
    /\ (forall y, In y antes -> p y = false)
    /\ p x = true.
Proof.
  induction l as [|a l IH]; cbn; [discriminate|].
  destruct (p a) eqn:E.
  - intros [= ->]. exists [], l. repeat split; [intros y []|assumption].
  - intros H. destruct (IH H) as (l1 & l2 & -> & H1 & H2).
    exists (a :: l1), l2. repeat split; [|assumption].
    intros y [<-|Hy]; [assumption|now apply H1].
Qed.

Lemma modificar_primero_partir antes x despues :
  (forall y, In y antes -> p y = false) -> p x = true ->
  modificar_primero p f (antes ++ x :: despues) = antes ++ f x :: despues.
Proof.
  intros H Hx. induction antes as [|a l IH]; cbn.
  - now rewrite Hx.
  - rewrite (H a) by now left. f_equal. apply IH. intros y Hy. apply H. now right.
Qed.

Lemma find_app_some l l' x :
  find p l = Some x -> find p (l ++ l') = Some x.
Proof.
  induction l as [|a l IH]; cbn; [discriminate|].
  destruct (p a); [trivial|exact IH].
Qed.

End Primero.

Lemma activo_de_true libro_id usuario p :
  activo_de libro_id usuario p = true
  <-> Prestamo.libro_id p = libro_id
      /\ Prestamo.usuario p = usuario
      /\ Prestamo.devuelto p = false.
Proof.
  unfold activo_de. rewrite !andb_true_iff, Z.eqb_eq, String.eqb_eq, negb_true_iff.
  tauto.
Qed.

Lemma tiene_activo_existsb libro_id usuario b :
  tiene_activo libro_id usuario b
  <-> existsb (activo_de libro_id usuario) (prestamos b) = true.
Proof.
  unfold tiene_activo. rewrite existsb_exists. split.
  - intros (p & Hin & H). exists p. split; [assumption|]. now apply activo_de_true.
  - intros (p & Hin & H). exists p. split; [assumption|]. now apply activo_de_true.
Qed.

Lemma sin_libro_find libro_id b :
  sin_libro libro_id b <-> libro_de libro_id b = None.
Proof.
  unfold sin_libro, libro_de. split.
  - intros H. destruct (find (con_id libro_id) (libros b)) as [l|] eqn:E; [|reflexivity].
    apply find_some in E. destruct E as [Hin E]. apply Z.eqb_eq in E.
    now destruct (H l Hin).
  - intros H l Hin E. apply (find_none _ _ H) in Hin.
    unfold con_id in Hin. apply Z.eqb_neq in Hin. contradiction.
Qed.

Lemma existe_libro_find libro_id (ls : list Libro.t) :
  existsb (con_id libro_id) ls = true <-> exists l, In l ls /\ Libro.id l = libro_id.
Proof.
  rewrite existsb_exists. unfold con_id.
  split; intros (l & Hin & E); exists l; (split; [assumption|]); now apply Z.eqb_eq.
Qed.

(** ** Fines *)

(** C4. The fine of a loan on the day [hoy] is 0 when the loan is
    returned or [hoy] is not after the due date; otherwise it is the
    number of days since the due date times 0.50.  A loan 20 days
    overdue costs 10.00, and no fine is negative. *)
Theorem calcular_multa_correcta (hoy : Z) (p : Prestamo.t) :
  (Prestamo.devuelto p = true \/ hoy <= Prestamo.fecha_devolucion p ->
   Prestamo.calcular_multa hoy p = 0%Q)
  /\ (Prestamo.devuelto p = false -> Prestamo.fecha_devolucion p < hoy ->
      Prestamo.calcular_multa hoy p
      = (inject_Z (hoy - Prestamo.fecha_devolucion p) * (1 # 2))%Q)
  /\ (Prestamo.devuelto p = false -> hoy - Prestamo.fecha_devolucion p = 20 ->
      (Prestamo.calcular_multa hoy p == 10)%Q)
  /\ (0 <= Prestamo.calcular_multa hoy p)%Q.
Proof.
  unfold Prestamo.calcular_multa. repeat split.
  - intros [->|H]; [reflexivity|].
    destruct (Prestamo.devuelto p); [reflexivity|].
    apply Z.leb_le in H. now rewrite H.
  - intros -> H. apply Z.leb_gt in H. rewrite H.
    rewrite Z.max_r by (apply Z.leb_gt in H; lia). reflexivity.
  - intros -> H.
    replace (hoy <=? Prestamo.fecha_devolucion p) with false
      by (symmetry; apply Z.leb_gt; lia).
    rewrite H. reflexivity.
  - destruct (Prestamo.devuelto p); [discriminate|].
    destruct (hoy <=? Prestamo.fecha_devolucion p); [discriminate|].
    apply Qmult_le_0_compat; [|discriminate].
    change 0%Q with (inject_Z 0). rewrite <- Zle_Qle. apply Z.le_max_l.
Qed.

Lemma calcular_multa_correcta_testigo :
  Prestamo.calcular_multa 738010 prestamo_viejo = 0%Q
  /\ Prestamo.calcular_multa 738020 prestamo_viejo = (inject_Z 6 * (1 # 2))%Q
  /\ (Prestamo.calcular_multa 738034 prestamo_viejo == 10)%Q.
Proof.
  split; [|split].
  - apply (proj1 (calcular_multa_correcta 738010 prestamo_viejo)).
    right. cbn. lia.
  - apply (proj1 (proj2 (calcular_multa_correcta 738020 prestamo_viejo))).
    + reflexivity.
    + cbn. lia.
  - apply (proj1 (proj2 (proj2 (calcular_multa_correcta 738034 prestamo_viejo)))).
    + reflexivity.
    + reflexivity.
Defined.

(** ** The operations, one at a time *)

Ltac desplegar :=
  unfold agregar_libro, prestar_libro, devolver_libro, bind, self, ret, print,
    create_task, set_libros, set_prestamos, elevar, guardar_datos; cbn.

Lemma sumar_dias_ok hoy : reloj_ok hoy -> sumar_dias hoy 14 = Ret (hoy + 14).
Proof.
  intros [[H1 H2] H3]. unfold sumar_dias.
  replace (0 <? hoy + 14) with true by (symmetry; apply Z.ltb_lt; lia).
  replace (hoy + 14 <=? Fecha.MAXORDINAL) with true by (symmetry; apply Z.leb_le; lia).
  reflexivity.
Qed.

(** C8. Adding a book whose identifier is already in the catalog returns
    failure and changes neither the catalog nor the file; so a second
    addition with the same identifier fails and leaves the catalog as the
    first left it.  An addition that returns success has appended the
    book and written the new state, and it does so when the identifier
    is new and the write goes through. *)
Theorem agregar_libro_correcto (env : Entorno) (libro : Libro.t) (w : Mundo) :
  let r := agregar_libro env libro w in
  ((exists l, In l (libros (bib w)) /\ Libro.id l = Libro.id libro) ->
   fst r = Ret false /\ bib (snd r) = bib w /\ disco (snd r) = disco w)
  /\ (forall env' libro', Libro.id libro' = Libro.id libro ->
      let r' := agregar_libro env' libro' (snd r) in
      fst r' = Ret false
      /\ bib (snd r') = bib (snd r)
      /\ List.length (libros (bib (snd r'))) = List.length (libros (bib (snd r))))
  /\ (fst r = Ret true ->
      libros (bib (snd r)) = libros (bib w) ++ [libro]
      /\ prestamos (bib (snd r)) = prestamos (bib w)
      /\ disco (snd r) = Documento (datos (bib (snd r))))
  /\ ((forall l, In l (libros (bib w)) -> Libro.id l <> Libro.id libro) ->
      escritura env = EscrituraOk -> fst r = Ret true).
Proof.
  assert (rechazo : forall e l' w',
    (exists l, In l (libros (bib w')) /\ Libro.id l = Libro.id l') ->
    fst (agregar_libro e l' w') = Ret false
    /\ bib (snd (agregar_libro e l' w')) = bib w'
    /\ disco (snd (agregar_libro e l' w')) = disco w').
  { intros e l' w' H. apply existe_libro_find in H. desplegar. rewrite H. cbn. auto. }
  cbn zeta. split; [apply rechazo|]. split; [|split].
  - intros env' libro' E.
    assert (exists l, In l (libros (bib (snd (agregar_libro env libro w))))
                      /\ Libro.id l = Libro.id libro') as H.
    { desplegar. destruct (existsb (con_id (Libro.id libro)) (libros (bib w))) eqn:Ex.
      - cbn. apply existe_libro_find in Ex. destruct Ex as (l & Hin & El).
        exists l. split; [assumption|congruence].
      - exists libro. split; [|congruence].
        destruct (escritura env); cbn; apply in_or_app; right; now left. }
    destruct (rechazo env' libro' _ H) as (R1 & R2 & R3).
    repeat split; [assumption|assumption|now rewrite R2].
  - desplegar. destruct (existsb (con_id (Libro.id libro)) (libros (bib w))); cbn;
      [discriminate|].
    destruct (escritura env); cbn; [auto|discriminate|discriminate].
  - intros H E. desplegar.
    destruct (existsb (con_id (Libro.id libro)) (libros (bib w))) eqn:Ex.
    + apply existe_libro_find in Ex. destruct Ex as (l & Hin & El).
      now destruct (H l Hin).
    + rewrite E. reflexivity.
Qed.

Lemma agregar_libro_correcto_testigo :
  fst (agregar_libro entorno_1 libro_x mundo_vacio) = Ret true
  /\ fst (agregar_libro entorno_1 libro_x
            (snd (agregar_libro entorno_1 libro_x mundo_vacio))) = Ret false
  /\ libros (bib (snd (agregar_libro entorno_1 libro_x mundo_vacio))) = [libro_x].
Proof.
  pose proof (agregar_libro_correcto entorno_1 libro_x mundo_vacio) as (_ & H2 & H3 & H4).
  assert (fst (agregar_libro entorno_1 libro_x mundo_vacio) = Ret true) as Ok.
  { apply H4; [intros l []|reflexivity]. }
  split; [exact Ok|]. split.
  - exact (proj1 (H2 entorno_1 libro_x eq_refl)).
  - exact (proj1 (H3 Ok)).
Defined.

(** C10. A loan marked as returned has fine 0, so a return that succeeds
    reports the plain confirmation, and no call of [devolver_libro]
    ever reports a late return. *)
Theorem devolver_libro_sin_multa :
  (forall hoy p, Prestamo.calcular_multa hoy (Prestamo.marcar_devuelto p) = 0%Q)
  /\ forall env libro_id usuario w,
      let r := devolver_libro env libro_id usuario w in
      (fst r = Ret true ->
       exists libro, libro_de libro_id (bib w) = Some libro
                     /\ salida (snd r) = salida w ++ [LibroDevuelto (Libro.titulo libro)])
      /\ (forall m, In (DevolucionTardia m) (salida (snd r)) ->
                    In (DevolucionTardia m) (salida w)).
Proof.
  split; [reflexivity|].
  intros env libro_id usuario w. cbn zeta. unfold libro_de. desplegar.
  destruct (find (activo_de libro_id usuario) (prestamos (bib w))) as [p|]; cbn.
  - destruct (find (con_id libro_id) (libros (bib w))) as [l|]; cbn.
    + destruct (escritura env); cbn.
      * split; [intros _; now exists l|].
        intros m H. apply in_app_or in H. destruct H as [H|[H|[]]]; [assumption|discriminate].
      * split; [discriminate|trivial].
      * split; [discriminate|trivial].
    + split; [discriminate|].
      intros m H. apply in_app_or in H. destruct H as [H|[H|[]]]; [assumption|discriminate].
  - split; [discriminate|].
    intros m H. apply in_app_or in H. destruct H as [H|[H|[]]]; [assumption|discriminate].
Qed.

Lemma devolver_libro_sin_multa_testigo :
  exists libro,
    libro_de 1 (bib mundo_doble) = Some libro
    /\ salida (snd (devolver_libro entorno_1 1 "alice" mundo_doble))
       = salida mundo_doble ++ [LibroDevuelto (Libro.titulo libro)].
Proof.
  apply (proj1 (proj2 devolver_libro_sin_multa entorno_1 1 "alice"%string mundo_doble)).
  reflexivity.
Defined.

(** C1. A loan returns failure exactly when the borrower already holds
    an unreturned loan of the book, or no book has the identifier, or the
    book has no stock; it then changes neither the lists nor the file.
    Otherwise, on a day whose fourteenth day after is still a date, the
    book's stock is one less and a loan dated today, due in 14 days and
    not returned is appended; and when the write of the file goes
    through, the call returns success and the file holds the new state. *)
Theorem prestar_libro_correcto (env : Entorno) (libro_id : Z) (usuario : string)
    (w : Mundo) :
  let r := prestar_libro env libro_id usuario w in
  (fst r = Ret false <-> prestamo_rechazado libro_id usuario (bib w))
  /\ (prestamo_rechazado libro_id usuario (bib w) ->
      bib (snd r) = bib w /\ disco (snd r) = disco w)
  /\ (~ prestamo_rechazado libro_id usuario (bib w) ->
      reloj_ok (hoy env) ->
      exists antes libro despues,
        libros (bib w) = antes ++ libro :: despues
        /\ (forall l, In l antes -> Libro.id l <> libro_id)
        /\ Libro.id libro = libro_id
        /\ libros (bib (snd r))
           = antes ++ Libro.con_stock libro (Libro.stock libro - 1) :: despues
        /\ prestamos (bib (snd r))
           = prestamos (bib w)
             ++ [Prestamo.mk libro_id usuario (hoy env) (hoy env + 14) false]
        /\ (escritura env = EscrituraOk ->
            fst r = Ret true
            /\ disco (snd r) = Documento (datos (bib (snd r))))).
Proof.
  cbn zeta. unfold prestamo_rechazado.
  rewrite tiene_activo_existsb, sin_libro_find. unfold libro_de. desplegar.
  destruct (existsb (activo_de libro_id usuario) (prestamos (bib w))) eqn:Ea; cbn.
  { split; [tauto|]. split; [auto|]. intros H. exfalso. apply H. now left. }
  destruct (find (con_id libro_id) (libros (bib w))) as [libro|] eqn:Ef; cbn.
  2:{ split; [tauto|]. split; [auto|]. intros H. exfalso. apply H. right. now left. }
  destruct (Libro.stock libro <=? 0) eqn:Es; cbn.
  { assert (exists l, Some libro = Some l /\ Libro.stock l <= 0) as H
      by (exists libro; split; [reflexivity|now apply Z.leb_le]).
    split; [tauto|]. split; [auto|]. intros N. exfalso. apply N. right. now right. }
  assert (N : ~ (false = true \/ Some libro = None
                 \/ exists l, Some libro = Some l /\ Libro.stock l <= 0)).
  { intros [H|[H|(l & [= <-] & H)]]; try discriminate.
    apply Z.leb_gt in Es. lia. }
  split; [|split].
  - split; [|intros H; now destruct (N H)].
    unfold Prestamo.init.
    destruct (sumar_dias (hoy env) 14); cbn; [|discriminate].
    destruct (escritura env); cbn; discriminate.
  - intros H; now destruct (N H).
  - intros _ Hr.
    destruct (find_partir _ _ _ Ef) as (antes & despues & El & Ha & Hx).
    exists antes, libro, despues.
    unfold Prestamo.init. rewrite (sumar_dias_ok _ Hr). cbn.
    pose proof (modificar_primero_partir (con_id libro_id)
                  (fun l => Libro.con_stock l (Libro.stock l - 1))
                  antes libro despues Ha Hx) as Em.
    rewrite <- El in Em.
    unfold con_id in Hx. apply Z.eqb_eq in Hx.
    split; [assumption|]. split.
    { intros l Hl E. apply Ha in Hl. unfold con_id in Hl. apply Z.eqb_neq in Hl.
      contradiction. }
    split; [assumption|].
    destruct (escritura env); cbn; (split; [exact Em|]); (split; [reflexivity|]);
      intros He; try discriminate He; split; reflexivity.
Qed.

Lemma prestar_libro_correcto_testigo :
  exists antes libro despues,
    libros (bib mundo_un_libro) = antes ++ libro :: despues
    /\ (forall l, In l antes -> Libro.id l <> 1)
    /\ Libro.id libro = 1
    /\ libros (bib (snd (prestar_libro entorno_1 1 "alice" mundo_un_libro)))
       = antes ++ Libro.con_stock libro (Libro.stock libro - 1) :: despues
    /\ prestamos (bib (snd (prestar_libro entorno_1 1 "alice" mundo_un_libro)))
       = prestamos (bib mundo_un_libro)
         ++ [Prestamo.mk 1 "alice" dia_1 (dia_1 + 14) false]
    /\ fst (prestar_libro entorno_1 1 "alice" mundo_un_libro) = Ret true
    /\ disco (snd (prestar_libro entorno_1 1 "alice" mundo_un_libro))
       = Documento (datos (bib (snd (prestar_libro entorno_1 1 "alice" mundo_un_libro)))).
Proof.
  destruct (proj2 (proj2 (prestar_libro_correcto entorno_1 1 "alice"%string
                            mundo_un_libro)))
    as (antes & libro & despues & H1 & H2 & H3 & H4 & H5 & H6).
  - intros [(p & [] & _)|[H|(l & E & H)]].
    + apply (H libro_x); [now left|reflexivity].
    + injection E as <-. now apply H.
  - unfold reloj_ok, Fecha.valida, Fecha.MAXORDINAL, entorno_1, dia_1. cbn [hoy]. lia.
  - exists antes, libro, despues. destruct (H6 eq_refl) as [H7 H8].
    repeat split; assumption.
Defined.

(** C2, as the code has it.  A return that succeeds marks the first
    unreturned loan of the book and borrower in insertion order: no loan
    before it is one of theirs, and the loans after it, theirs or not,
    are left as they were. *)
Theorem devolver_libro_marca_el_primero (env : Entorno) (libro_id : Z)
    (usuario : string) (w : Mundo) :
  let r := devolver_libro env libro_id usuario w in
  fst r = Ret true ->
  exists antes p despues,
    prestamos (bib w) = antes ++ p :: despues
    /\ (forall q, In q antes -> activo_de libro_id usuario q = false)
    /\ activo_de libro_id usuario p = true
    /\ prestamos (bib (snd r)) = antes ++ Prestamo.marcar_devuelto p :: despues.
Proof.
  cbn zeta. desplegar.
  destruct (find (activo_de libro_id usuario) (prestamos (bib w))) as [p|] eqn:Ep; cbn;
    [|discriminate].
  destruct (find (con_id libro_id) (libros (bib w))) as [l|]; cbn; [|discriminate].
  destruct (find_partir _ _ _ Ep) as (antes & despues & E & Ha & Hp).
  intros H. exists antes, p, despues.
  repeat split; try assumption.
  rewrite <- (modificar_primero_partir _ Prestamo.marcar_devuelto antes p despues Ha Hp).
  rewrite <- E.
  destruct (escritura env); cbn in *; [reflexivity|discriminate|discriminate].
Qed.

Lemma devolver_libro_marca_el_primero_testigo :
  exists antes p despues,
    prestamos (bib mundo_doble) = antes ++ p :: despues
    /\ (forall q, In q antes -> activo_de 1 "alice" q = false)
    /\ activo_de 1 "alice" p = true
    /\ prestamos (bib (snd (devolver_libro entorno_1 1 "alice" mundo_doble)))
       = antes ++ Prestamo.marcar_devuelto p :: despues.
Proof.
  apply (devolver_libro_marca_el_primero entorno_1 1 "alice"%string mundo_doble).
  reflexivity.
Defined.

(** With two unreturned loans of book 1 to alice, the return marks the
    older one and leaves the newer one unreturned. *)
Lemma devolver_libro_no_marca_el_ultimo :
  fst (devolver_libro entorno_1 1 "alice" mundo_doble) = Ret true
  /\ prestamos (bib (snd (devolver_libro entorno_1 1 "alice" mundo_doble)))
     = [Prestamo.marcar_devuelto prestamo_viejo; prestamo_nuevo]
  /\ ~ devuelve_el_ultimo.
Proof.
  split; [reflexivity|]. split; [reflexivity|].
  intros H.
  specialize (H entorno_1 1 "alice"%string mundo_doble
                [prestamo_viejo] prestamo_nuevo []
                eq_refl eq_refl (fun q F => match F with end) eq_refl).
  discriminate H.
Qed.

(** ** Memory and file *)

Lemma app_uno_distinto {A} (l : list A) (x : A) : l ++ [x] <> l.
Proof.
  intros H. apply (f_equal (@List.length A)) in H.
  rewrite length_app in H. cbn in H. lia.
Qed.

Lemma marcar_devuelto_cambia libro_id usuario ps p :
  find (activo_de libro_id usuario) ps = Some p ->
  modificar_primero (activo_de libro_id usuario) Prestamo.marcar_devuelto ps <> ps.
Proof.
  intros Ep H.
  destruct (find_partir _ _ _ Ep) as (antes & despues & E & Ha & Hp).
  rewrite E in H. rewrite modificar_primero_partir in H by assumption.
  apply app_inv_head in H. injection H as H.
  apply activo_de_true in Hp. destruct Hp as (_ & _ & Hd).
  apply (f_equal Prestamo.devuelto) in H. cbn in H. congruence.
Qed.

(** C3, as the code has it.  With a clock that shows an ordinary date,
    a mutating operation ends in one of three ways.  It returns failure,
    and the lists and the file are what they were.  It returns success:
    the write went through, the lists changed and the file holds the new
    lists.  Or the write failed: the error of the write leaves the
    operation, the lists keep the change a successful write would have
    left (nothing is rolled back), and the file is what it was or
    truncated. *)
Theorem operaciones_sin_vuelta_atras (env : Entorno) (op : operacion) (w : Mundo) :
  reloj_ok (hoy env) ->
  let r := ejecutar env op w in
  let r_ok := ejecutar (con_escritura env EscrituraOk) op w in
  match fst r with
  | Ret false => bib (snd r) = bib w /\ disco (snd r) = disco w
  | Ret true =>
      escritura env = EscrituraOk
      /\ bib (snd r) <> bib w
      /\ disco (snd r) = Documento (datos (bib (snd r)))
  | Raise e =>
      e = OSError
      /\ escritura env <> EscrituraOk
      /\ fst r_ok = Ret true
      /\ bib (snd r) = bib (snd r_ok)
      /\ bib (snd r) <> bib w
      /\ (disco (snd r) = disco w \/ disco (snd r) = NoJson)
  end.
Proof.
  intros Hr. cbn zeta. destruct op as [libro|libro_id usuario|libro_id usuario];
    unfold ejecutar, con_escritura.
  - desplegar.
    destruct (existsb (con_id (Libro.id libro)) (libros (bib w))); cbn; [auto|].
    assert (mk (libros (bib w) ++ [libro]) (prestamos (bib w)) <> bib w) as D.
    { intros H. apply (f_equal libros) in H. cbn in H. now apply app_uno_distinto in H. }
    destruct (escritura env) eqn:E; cbn; repeat split; auto; discriminate.
  - desplegar. unfold Prestamo.init. rewrite (sumar_dias_ok _ Hr). cbn.
    destruct (existsb (activo_de libro_id usuario) (prestamos (bib w))); cbn; [auto|].
    destruct (find (con_id libro_id) (libros (bib w))) as [libro|]; cbn; [|auto].
    destruct (Libro.stock libro <=? 0); cbn; [auto|].
    match goal with
    | |- context [mk ?l ?p] => assert (mk l p <> bib w) as D
    end.
    { intros H. apply (f_equal prestamos) in H. cbn in H. now apply app_uno_distinto in H. }
    destruct (escritura env) eqn:E; cbn; repeat split; auto; discriminate.
  - desplegar.
    destruct (find (activo_de libro_id usuario) (prestamos (bib w))) as [p|] eqn:Ep; cbn;
      [|auto].
    destruct (find (con_id libro_id) (libros (bib w))) as [libro|]; cbn; [|auto].
    match goal with
    | |- context [mk ?l ?p] => assert (mk l p <> bib w) as D
    end.
    { intros H. apply (f_equal prestamos) in H. cbn in H.
      now apply (marcar_devuelto_cambia _ _ _ _ Ep) in H. }
    destruct (escritura env) eqn:E; cbn; repeat split; auto; discriminate.
Qed.

Lemma operaciones_sin_vuelta_atras_testigo :
  fst (ejecutar entorno_sin_permiso (Agregar libro_x) mundo_vacio) = Raise OSError
  /\ bib (snd (ejecutar entorno_sin_permiso (Agregar libro_x) mundo_vacio))
     = bib (snd (ejecutar entorno_1 (Agregar libro_x) mundo_vacio)).
Proof.
  assert (reloj_ok (hoy entorno_sin_permiso)) as Hr.
  { unfold reloj_ok, Fecha.valida, Fecha.MAXORDINAL, entorno_sin_permiso, dia_1.
    cbn [hoy]. lia. }
  pose proof (operaciones_sin_vuelta_atras entorno_sin_permiso (Agregar libro_x)
                mundo_vacio Hr) as H.
  cbn zeta in H.
  destruct (fst (ejecutar entorno_sin_permiso (Agregar libro_x) mundo_vacio))
    as [[|]|e] eqn:E; try discriminate E.
  destruct H as (-> & _ & _ & H & _). split; [reflexivity|exact H].
Defined.

(** The write is refused when the first book is added: the call raises,
    the catalog holds the book and the file does not. *)
Lemma agregar_libro_no_atomica :
  fst (ejecutar entorno_sin_permiso (Agregar libro_x) mundo_vacio) = Raise OSError
  /\ libros (bib (snd (ejecutar entorno_sin_permiso (Agregar libro_x) mundo_vacio)))
     = [libro_x]
  /\ disco (snd (ejecutar entorno_sin_permiso (Agregar libro_x) mundo_vacio)) = NoExiste
  /\ ~ (forall env op w, atomica env op w).
Proof.
  repeat split.
  intros H. destruct (H entorno_sin_permiso (Agregar libro_x) mundo_vacio)
    as [(H1 & _)|(_ & H2 & _)]; discriminate.
Qed.

(** ** Loading *)

(** C9, as the code has it.  A manager built when the data file is
    missing has empty lists and reports the absence; one built when the
    file holds a text that [json.load] rejects with [JSONDecodeError]
    has empty lists and reports the corruption.  In both cases
    [cargar_datos] returns, leaving the lists it found; and it does so
    for every file on which [open] raises [FileNotFoundError] or
    [json.load] raises [JSONDecodeError]. *)
Theorem cargar_datos_recuperable (hoy : Z) :
  Biblioteca.init hoy NoExiste = Cargada (mk [] []) [SinDatosPrevios]
  /\ Biblioteca.init hoy NoJson = Cargada (mk [] []) [ErrorLectura]
  /\ (forall self, cargar_datos hoy self NoExiste = Cargada self [SinDatosPrevios])
  /\ (forall self, cargar_datos hoy self NoJson = Cargada self [ErrorLectura])
  /\ (forall self d, abrir_y_leer d = Raise FileNotFoundError ->
        cargar_datos hoy self d = Cargada self [SinDatosPrevios])
  /\ (forall self d, abrir_y_leer d = Raise JSONDecodeError ->
        cargar_datos hoy self d = Cargada self [ErrorLectura]).
Proof.
  repeat split; intros self d H; unfold cargar_datos, leer_todo; now rewrite H.
Qed.

Lemma cargar_datos_recuperable_testigo :
  cargar_datos dia_1 (bib mundo_doble) NoJson = Cargada (bib mundo_doble) [ErrorLectura].
Proof.
  apply (proj2 (proj2 (proj2 (proj2 (proj2 (cargar_datos_recuperable dia_1)))))
           (bib mundo_doble) NoJson).
  reflexivity.
Defined.

(** A file that holds JSON, with a book record that lacks its title:
    the [KeyError] of the lookup leaves [cargar_datos].  So does the
    [UnicodeDecodeError] of a file whose bytes are not text. *)
Lemma cargar_datos_no_total :
  Biblioteca.init dia_1 (Documento documento_incompleto)
  = CargaFallida (KeyError "titulo")
  /\ Biblioteca.init dia_1 NoTexto = CargaFallida UnicodeDecodeError
  /\ ~ carga_total.
Proof.
  split; [reflexivity|]. split; [reflexivity|].
  intros H. now apply (H dia_1 (Documento documento_incompleto) (KeyError "titulo")).
Qed.

Lemma cargar_libros_guardados (ls : list Libro.t) :
  exists cs, para_cada cargar_libro (map Libro.to_dict ls) = Ret cs
             /\ todos Libro.tipado cs = Some ls.
Proof.
  induction ls as [|l ls (cs & E1 & E2)]; [now exists []|].
  exists (Libro.mk_cargado (JNum (Libro.id l)) (JStr (Libro.titulo l))
            (JStr (Libro.autor l)) (JNum (Libro.stock l)) :: cs).
  cbn [map para_cada]. rewrite E1. split; [reflexivity|].
  cbn [todos]. rewrite E2. now destruct l.
Qed.

Lemma cargar_prestamos_guardados (hoy : Z) (ps : list Prestamo.t) :
  reloj_ok hoy ->
  Forall (fun p => Fecha.cuatro_cifras (Prestamo.fecha_prestamo p)
                   /\ Fecha.cuatro_cifras (Prestamo.fecha_devolucion p)) ps ->
  exists cs, para_cada (cargar_prestamo hoy) (map Prestamo.to_dict ps) = Ret cs
             /\ todos Prestamo.tipado cs = Some ps.
Proof.
  intros Hr H. induction H as [|p ps [V1 V2] _ (cs & E1 & E2)]; [now exists []|].
  exists (Prestamo.mk_cargado (JNum (Prestamo.libro_id p)) (JStr (Prestamo.usuario p))
            (Prestamo.fecha_prestamo p) (Prestamo.fecha_devolucion p)
            (JBool (Prestamo.devuelto p)) :: cs).
  cbn [map para_cada]. rewrite E1.
  assert (cargar_prestamo hoy (Prestamo.to_dict p)
          = Ret (Prestamo.mk_cargado (JNum (Prestamo.libro_id p))
                   (JStr (Prestamo.usuario p)) (Prestamo.fecha_prestamo p)
                   (Prestamo.fecha_devolucion p) (JBool (Prestamo.devuelto p)))) as ->.
  { unfold cargar_prestamo, Prestamo.to_dict.
    rewrite (sumar_dias_ok _ Hr).
    cbn [subindice buscar_clave ligar strptime_json].
    cbn -[Fecha.strptime Fecha.strftime].
    rewrite (strptime_strftime _ V1), (strptime_strftime _ V2). reflexivity. }
  split; [reflexivity|].
  cbn [todos]. rewrite E2. now destruct p.
Qed.

(** The dictionary of a loan with a date before year 1000 is not read
    back: [strptime] raises [ValueError]. *)
Lemma cargar_prestamo_corto (hoy : Z) (p : Prestamo.t) :
  reloj_ok hoy ->
  Fecha.valida (Prestamo.fecha_prestamo p) ->
  Fecha.valida (Prestamo.fecha_devolucion p) ->
  Prestamo.fecha_prestamo p < 364878 \/ Prestamo.fecha_devolucion p < 364878 ->
  cargar_prestamo hoy (Prestamo.to_dict p) = Raise ValueError.
Proof.
  intros Hr V1 V2 C. unfold cargar_prestamo, Prestamo.to_dict.
  rewrite (sumar_dias_ok _ Hr).
  cbn [subindice buscar_clave ligar strptime_json].
  cbn -[Fecha.strptime Fecha.strftime].
  destruct (Z.lt_ge_cases (Prestamo.fecha_prestamo p) 364878) as [L|L].
  - now rewrite (strptime_strftime_corto _ V1 L).
  - assert (Fecha.cuatro_cifras (Prestamo.fecha_prestamo p)) as K
      by (unfold Fecha.cuatro_cifras, Fecha.valida in *; lia).
    rewrite (strptime_strftime _ K). cbn.
    destruct C as [C|C]; [lia|].
    now rewrite (strptime_strftime_corto _ V2 C).
Qed.

Lemma cargar_prestamos_cortos (hoy : Z) (ps : list Prestamo.t) :
  reloj_ok hoy ->
  Forall (fun p => Fecha.valida (Prestamo.fecha_prestamo p)
                   /\ Fecha.valida (Prestamo.fecha_devolucion p)) ps ->
  Exists (fun p => Prestamo.fecha_prestamo p < 364878
                   \/ Prestamo.fecha_devolucion p < 364878) ps ->
  para_cada (cargar_prestamo hoy) (map Prestamo.to_dict ps) = Raise ValueError.
Proof.
  intros Hr V. induction V as [|p ps [V1 V2] Vs IH]; intros X; [inversion X|].
  cbn [map para_cada].
  destruct (Z.lt_ge_cases (Prestamo.fecha_prestamo p) 364878) as [L|L];
    [rewrite cargar_prestamo_corto; auto|].
  destruct (Z.lt_ge_cases (Prestamo.fecha_devolucion p) 364878) as [L'|L'];
    [rewrite cargar_prestamo_corto; auto|].
  inversion X as [? ? [C|C]|? ? X']; subst; try lia.
  destruct (cargar_prestamos_guardados hoy [p] Hr) as (cs & E & _).
  { constructor; [|constructor].
    unfold Fecha.cuatro_cifras, Fecha.valida in *. lia. }
  cbn [map para_cada] in E.
  destruct (cargar_prestamo hoy (Prestamo.to_dict p)) as [c|e]; [|discriminate E].
  cbn [ligar]. now rewrite (IH X').
Qed.

Lemma cargar_datos_de_datos (hoy : Z) (self b : Biblioteca.t) :
  reloj_ok hoy -> fechas_de_cuatro_cifras b ->
  cargar_datos hoy self (Documento (datos b)) = Cargada b [].
Proof.
  intros Hr Hv.
  destruct (cargar_libros_guardados (libros b)) as (cl & L1 & L2).
  destruct (cargar_prestamos_guardados hoy (prestamos b) Hr Hv) as (cp & P1 & P2).
  unfold cargar_datos, leer_todo, datos.
  cbn -[para_cada cargar_libro cargar_prestamo].
  rewrite L1. cbn -[para_cada cargar_libro cargar_prestamo].
  rewrite P1. cbn -[para_cada cargar_libro cargar_prestamo].
  rewrite L2, P2. now destruct b.
Qed.

Lemma cargar_datos_de_datos_cortos (hoy : Z) (self b : Biblioteca.t) :
  reloj_ok hoy -> fechas_validas b -> alguna_fecha_corta b ->
  cargar_datos hoy self (Documento (datos b)) = CargaFallida ValueError.
Proof.
  intros Hr Hv Hc.
  destruct (cargar_libros_guardados (libros b)) as (cl & L1 & L2).
  pose proof (cargar_prestamos_cortos hoy (prestamos b) Hr Hv Hc) as P.
  unfold cargar_datos, leer_todo, datos.
  cbn -[para_cada cargar_libro cargar_prestamo].
  rewrite L1. cbn -[para_cada cargar_libro cargar_prestamo].
  rewrite P. reflexivity.
Qed.

(** C7. The round trip breaks on a date before year 1000.  The data
    file [documento_999], which holds a loan made on 0999-05-07, is
    loaded without a warning into the state of [mundo_999].  Saving that
    state goes through and writes the dates as '999-05-07' and
    '999-05-21'; loading what was written raises [ValueError], and the
    state is not brought back. *)
Theorem guardar_y_cargar_anio_999 :
  Biblioteca.init dia_1 (Documento documento_999) = Cargada (bib mundo_999) []
  /\ fst (guardar_datos entorno_1 mundo_999) = Ret tt
  /\ disco (snd (guardar_datos entorno_1 mundo_999))
     = Documento (JObj [("libros"%string, JArr [Libro.to_dict libro_x]);
                        ("prestamos"%string, JArr [prestamo_999_escrito])])
  /\ Biblioteca.init dia_1 (disco (snd (guardar_datos entorno_1 mundo_999)))
     = CargaFallida ValueError.
Proof. repeat split. Qed.

(** ** Invariants of runs *)

Lemma filter_modificar_le {A} (q p : A -> bool) (f : A -> A) (l : list A) :
  (forall x, q (f x) = false) ->
  (List.length (filter q (modificar_primero p f l)) <= List.length (filter q l))%nat.
Proof.
  intros H. induction l as [|a l IH]; cbn; [lia|].
  destruct (p a); cbn.
  - rewrite H. destruct (q a); cbn; lia.
  - destruct (q a); cbn; lia.
Qed.

Lemma existsb_false_filter {A} (q : A -> bool) (l : list A) :
  existsb q l = false -> filter q l = [].
Proof.
  induction l as [|a l IH]; cbn; [reflexivity|].
  destruct (q a); cbn; [discriminate|exact IH].
Qed.

Lemma find_modificar_con_id (f : Libro.t -> Libro.t) (a b : Z) (l : list Libro.t) :
  (forall x, Libro.id (f x) = Libro.id x) ->
  find (con_id a) (modificar_primero (con_id b) f l)
  = if a =? b then option_map f (find (con_id a) l) else find (con_id a) l.
Proof.
  intros Hf. induction l as [|x l IH]; cbn [modificar_primero find].
  - now destruct (a =? b).
  - assert (con_id a (f x) = con_id a x) as Ef by (unfold con_id; now rewrite Hf).
    destruct (con_id b x) eqn:Eb; cbn [find]; rewrite ?Ef;
      destruct (con_id a x) eqn:Ea; unfold con_id in Ea, Eb.
    + apply Z.eqb_eq in Ea, Eb.
      replace (a =? b) with true by (symmetry; apply Z.eqb_eq; congruence).
      reflexivity.
    + apply Z.eqb_eq in Eb. apply Z.eqb_neq in Ea.
      replace (a =? b) with false by (symmetry; apply Z.eqb_neq; congruence).
      reflexivity.
    + apply Z.eqb_eq in Ea. apply Z.eqb_neq in Eb.
      replace (a =? b) with false by (symmetry; apply Z.eqb_neq; congruence).
      reflexivity.
    + exact IH.
Qed.

Lemma activos_tras_devolver (a b : Z) (usuario : string) (ps : list Prestamo.t)
    (p : Prestamo.t) :
  find (activo_de b usuario) ps = Some p ->
  Z.of_nat (List.length (filter (cuenta_activo a)
     (modificar_primero (activo_de b usuario) Prestamo.marcar_devuelto ps)))
  + (if a =? b then 1 else 0)
  = Z.of_nat (List.length (filter (cuenta_activo a) ps)).
Proof.
  intros Ep. destruct (find_partir _ _ _ Ep) as (antes & despues & E & Ha & Hp).
  rewrite E, modificar_primero_partir by assumption.
  rewrite !filter_app, !length_app. cbn [filter].
  apply activo_de_true in Hp. destruct Hp as (H1 & _ & H3).
  assert (cuenta_activo a (Prestamo.marcar_devuelto p) = false) as ->
    by (unfold cuenta_activo; cbn; apply andb_false_r).
  assert (cuenta_activo a p = (a =? b)) as ->
    by (unfold cuenta_activo; rewrite H1, H3, andb_true_r; apply Z.eqb_sym).
  destruct (a =? b); cbn [List.length]; lia.
Qed.

Lemma unico_activo_paso (env : Entorno) (op : operacion) (w : Mundo) :
  unico_activo (bib w) -> unico_activo (bib (tras env op w)).
Proof.
  intros H. unfold tras. destruct op as [libro|libro_id usuario|libro_id usuario];
    unfold ejecutar.
  - desplegar. destruct (existsb _ (libros (bib w))); cbn; [exact H|].
    destruct (escritura env); cbn; exact H.
  - desplegar.
    destruct (existsb (activo_de libro_id usuario) (prestamos (bib w))) eqn:Ea; cbn;
      [exact H|].
    destruct (find (con_id libro_id) (libros (bib w))) as [libro|]; cbn; [|exact H].
    destruct (Libro.stock libro <=? 0); cbn; [exact H|].
    unfold Prestamo.init. destruct (sumar_dias (hoy env) 14) as [fd|e]; cbn;
      [|exact H].
    assert (unico_activo
              (mk (modificar_primero (con_id libro_id)
                     (fun l => Libro.con_stock l (Libro.stock l - 1)) (libros (bib w)))
                  (prestamos (bib w)
                   ++ [Prestamo.mk libro_id usuario (hoy env) fd false]))) as U.
    { intros a u. cbn [prestamos]. rewrite filter_app, length_app. cbn [filter].
      destruct (activo_de a u (Prestamo.mk libro_id usuario (hoy env) fd false)) eqn:Ex.
      - apply activo_de_true in Ex. cbn in Ex. destruct Ex as (<- & <- & _).
        rewrite (existsb_false_filter _ _ Ea). cbn. lia.
      - specialize (H a u). cbn. lia. }
    destruct (escritura env); cbn; exact U.
  - desplegar.
    destruct (find (activo_de libro_id usuario) (prestamos (bib w))) as [p|]; cbn;
      [|exact H].
    destruct (find (con_id libro_id) (libros (bib w))) as [libro|]; cbn; [|exact H].
    assert (unico_activo
              (mk (modificar_primero (con_id libro_id)
                     (fun l => Libro.con_stock l (Libro.stock l + 1)) (libros (bib w)))
                  (modificar_primero (activo_de libro_id usuario)
                     Prestamo.marcar_devuelto (prestamos (bib w))))) as U.
    { intros a u. cbn [prestamos]. specialize (H a u).
      pose proof (filter_modificar_le (activo_de a u) (activo_de libro_id usuario)
                    Prestamo.marcar_devuelto (prestamos (bib w))) as L.
      assert (forall x, activo_de a u (Prestamo.marcar_devuelto x) = false) as F.
      { intros x. unfold activo_de. cbn. apply andb_false_r. }
      specialize (L F). lia. }
    destruct (escritura env); cbn; exact U.
Qed.

Lemma unico_activo_alcanzable (w w' : Mundo) :
  unico_activo (bib w) -> alcanzable w w' -> unico_activo (bib w').
Proof.
  intros H R. induction R as [|w' env op _ IH]; [exact H|].
  now apply unico_activo_paso.
Qed.

Lemma prestar_libro_ya_prestado (env : Entorno) (libro_id : Z) (usuario : string)
    (w : Mundo) :
  existsb (activo_de libro_id usuario) (prestamos (bib w)) = true ->
  fst (prestar_libro env libro_id usuario w) = Ret false
  /\ bib (snd (prestar_libro env libro_id usuario w)) = bib w.
Proof.
  intros H. desplegar. rewrite H. cbn. auto.
Qed.

Lemma prestar_dos_veces (env env' : Entorno) (libro_id : Z) (usuario : string)
    (w : Mundo) :
  let r1 := prestar_libro env libro_id usuario w in
  let r2 := prestar_libro env' libro_id usuario (snd r1) in
  fst r1 = Ret true ->
  fst r2 = Ret false
  /\ bib (snd r2) = bib (snd r1)
  /\ exists s, stock_de libro_id (bib w) = Some s
               /\ stock_de libro_id (bib (snd r2)) = Some (s - 1).
Proof.
  cbn zeta. intros H1.
  assert (tiene_activo libro_id usuario (bib (snd (prestar_libro env libro_id usuario w)))
          /\ exists s, stock_de libro_id (bib w) = Some s
                       /\ stock_de libro_id
                            (bib (snd (prestar_libro env libro_id usuario w)))
                          = Some (s - 1)) as [A S].
  { revert H1. unfold stock_de, libro_de. desplegar.
    destruct (existsb (activo_de libro_id usuario) (prestamos (bib w))); cbn;
      [discriminate|].
    destruct (find (con_id libro_id) (libros (bib w))) as [libro|] eqn:Ef; cbn;
      [|discriminate].
    destruct (Libro.stock libro <=? 0); cbn; [discriminate|].
    unfold Prestamo.init. destruct (sumar_dias (hoy env) 14) as [fd|e]; cbn;
      [|discriminate].
    destruct (escritura env); cbn; [|discriminate|discriminate].
    intros _. split.
    - exists (Prestamo.mk libro_id usuario (hoy env) fd false).
      cbn. split; [apply in_or_app; right; now left|auto].
    - exists (Libro.stock libro). split; [reflexivity|].
      rewrite find_modificar_con_id by reflexivity.
      rewrite Z.eqb_refl, Ef. reflexivity. }
  apply tiene_activo_existsb in A.
  destruct S as (s & S1 & S2).
  destruct (prestar_libro_ya_prestado env' libro_id usuario _ A) as [R B].
  split; [exact R|]. split; [exact B|]. exists s. now rewrite B.
Qed.

(** C5. The manager's operations keep the invariant that a book and a
    borrower have at most one unreturned loan; and after a loan that
    succeeded, the same loan asked again fails, leaves the lists as they
    were, and the book's stock is one below what it was before the two
    calls. *)
Theorem unico_activo_invariante (w w' : Mundo) :
  unico_activo (bib w) ->
  alcanzable w w' ->
  unico_activo (bib w')
  /\ forall env env' libro_id usuario,
      let r1 := prestar_libro env libro_id usuario w' in
      let r2 := prestar_libro env' libro_id usuario (snd r1) in
      fst r1 = Ret true ->
      fst r2 = Ret false
      /\ bib (snd r2) = bib (snd r1)
      /\ exists s, stock_de libro_id (bib w') = Some s
                   /\ stock_de libro_id (bib (snd r2)) = Some (s - 1).
Proof.
  intros H R. split; [now apply (unico_activo_alcanzable w)|].
  intros env env' libro_id usuario. apply prestar_dos_veces.
Qed.

Lemma unico_activo_invariante_testigo :
  unico_activo (bib (tras entorno_1 (Prestar 1 "alice") mundo_un_libro))
  /\ fst (prestar_libro entorno_1 1 "alice"
            (snd (prestar_libro entorno_1 1 "alice" mundo_un_libro))) = Ret false.
Proof.
  assert (unico_activo (bib mundo_un_libro)) as U by (intros a u; cbn; lia).
  split.
  - apply (proj1 (unico_activo_invariante mundo_un_libro _ U
                    (alc_paso _ _ entorno_1 (Prestar 1 "alice") (alc_inicio _)))).
  - apply (proj2 (unico_activo_invariante mundo_un_libro _ U (alc_inicio _))
             entorno_1 entorno_1 1 "alice"%string).
    reflexivity.
Defined.

Lemma stock_conservado_paso (env : Entorno) (op : operacion) (w : Mundo)
    (libro_id s : Z) :
  reloj_ok (hoy env) ->
  stock_de libro_id (bib w) = Some s ->
  exists s', stock_de libro_id (bib (tras env op w)) = Some s'
             /\ s' + activos libro_id (bib (tras env op w))
                = s + activos libro_id (bib w).
Proof.
  intros Hr Hs. unfold tras, stock_de, libro_de, activos in *.
  destruct op as [libro|b usuario|b usuario]; unfold ejecutar.
  - desplegar. destruct (existsb _ (libros (bib w))); cbn; [now exists s|].
    assert (option_map Libro.stock (find (con_id libro_id) (libros (bib w) ++ [libro]))
            = Some s) as E.
    { destruct (find (con_id libro_id) (libros (bib w))) as [l|] eqn:Ef; [|discriminate].
      now rewrite (find_app_some _ _ _ _ Ef). }
    destruct (escritura env); cbn; now exists s.
  - desplegar. unfold Prestamo.init. rewrite (sumar_dias_ok _ Hr). cbn.
    destruct (existsb (activo_de b usuario) (prestamos (bib w))); cbn; [now exists s|].
    destruct (find (con_id b) (libros (bib w))) as [libro|] eqn:Eb; cbn;
      [|now exists s].
    destruct (Libro.stock libro <=? 0); cbn; [now exists s|].
    assert (exists s',
      option_map Libro.stock
        (find (con_id libro_id)
           (modificar_primero (con_id b)
              (fun l => Libro.con_stock l (Libro.stock l - 1)) (libros (bib w))))
      = Some s'
      /\ s' + Z.of_nat (List.length (filter (cuenta_activo libro_id)
                 (prestamos (bib w)
                  ++ [Prestamo.mk b usuario (hoy env) (hoy env + 14) false])))
         = s + Z.of_nat (List.length (filter (cuenta_activo libro_id)
                 (prestamos (bib w))))) as K.
    { rewrite find_modificar_con_id by reflexivity.
      rewrite filter_app, length_app. cbn [filter]. unfold cuenta_activo at 2.
      cbn [Prestamo.libro_id Prestamo.devuelto negb]. rewrite andb_true_r.
      rewrite (Z.eqb_sym b libro_id).
      destruct (libro_id =? b).
      - destruct (find (con_id libro_id) (libros (bib w))) as [l|]; [|discriminate].
        cbn in Hs. injection Hs as Hs. exists (s - 1). cbn. split; [f_equal; lia|lia].
      - exists s. cbn. split; [assumption|lia]. }
    destruct (escritura env); cbn; exact K.
  - desplegar.
    destruct (find (activo_de b usuario) (prestamos (bib w))) as [p|] eqn:Ep; cbn;
      [|now exists s].
    destruct (find (con_id b) (libros (bib w))) as [libro|] eqn:Eb; cbn;
      [|now exists s].
    assert (exists s',
      option_map Libro.stock
        (find (con_id libro_id)
           (modificar_primero (con_id b)
              (fun l => Libro.con_stock l (Libro.stock l + 1)) (libros (bib w))))
      = Some s'
      /\ s' + Z.of_nat (List.length (filter (cuenta_activo libro_id)
                 (modificar_primero (activo_de b usuario) Prestamo.marcar_devuelto
                    (prestamos (bib w)))))
         = s + Z.of_nat (List.length (filter (cuenta_activo libro_id)
                 (prestamos (bib w))))) as K.
    { rewrite find_modificar_con_id by reflexivity.
      pose proof (activos_tras_devolver libro_id b usuario _ _ Ep) as C.
      destruct (libro_id =? b).
      - destruct (find (con_id libro_id) (libros (bib w))) as [l|]; [|discriminate].
        cbn in Hs. injection Hs as Hs. exists (s + 1). cbn. split; [f_equal; lia|lia].
      - exists s. split; [assumption|lia]. }
    destruct (escritura env); cbn; exact K.
Qed.

(** X22. Along any run of operations made on days whose fourteenth day
    after is a date, the stock of a book of the catalog plus the number
    of its unreturned loans does not change.  For a book that starts
    with no unreturned loan, the final stock is the initial stock minus
    the number of its loans still unreturned. *)
Theorem stock_conservado (ops : list (Entorno * operacion)) (w : Mundo)
    (libro_id s0 : Z) :
  Forall (fun eo => reloj_ok (hoy (fst eo))) ops ->
  stock_de libro_id (bib w) = Some s0 ->
  exists sf,
    stock_de libro_id (bib (correr ops w)) = Some sf
    /\ sf + activos libro_id (bib (correr ops w)) = s0 + activos libro_id (bib w)
    /\ (activos libro_id (bib w) = 0 ->
        sf = s0 - activos libro_id (bib (correr ops w))).
Proof.
  intros H. revert w s0.
  induction H as [|[env op] ops Hr _ IH]; intros w s0 Hs; cbn [correr].
  - exists s0. repeat split; [assumption|lia].
  - cbn [fst] in Hr.
    destruct (stock_conservado_paso env op w libro_id s0 Hr Hs) as (s1 & S1 & E1).
    destruct (IH _ _ S1) as (sf & Sf & Ef & _).
    exists sf. split; [assumption|]. split; lia.
Qed.

Lemma stock_conservado_testigo :
  exists sf,
    stock_de 1 (bib (correr [(entorno_1, Prestar 1 "alice");
                             (entorno_1, Prestar 1 "bob");
                             (entorno_1, Devolver 1 "alice")] mundo_un_libro))
    = Some sf
    /\ sf = 2 - activos 1 (bib (correr [(entorno_1, Prestar 1 "alice");
                                        (entorno_1, Prestar 1 "bob");
                                        (entorno_1, Devolver 1 "alice")]
                                  mundo_un_libro)).
Proof.
  assert (reloj_ok (hoy entorno_1)) as Hr.
  { unfold reloj_ok, Fecha.valida, Fecha.MAXORDINAL, entorno_1, dia_1. cbn [hoy]. lia. }
  destruct (stock_conservado
              [(entorno_1, Prestar 1 "alice"); (entorno_1, Prestar 1 "bob");
               (entorno_1, Devolver 1 "alice")] mundo_un_libro 1 2)
    as (sf & S & _ & E).
  - repeat (apply Forall_cons; [exact Hr|]). apply Forall_nil.
  - reflexivity.
  - exists sf. split; [exact S|]. apply E. reflexivity.
Defined.


(** * Further properties *)

(** ** Fines over time *)

(** X1. The fine of a loan never decreases as the days pass. *)
Theorem multa_no_decrece (hoy hoy' : Z) (p : Prestamo.t) :
  hoy <= hoy' ->
  (Prestamo.calcular_multa hoy p <= Prestamo.calcular_multa hoy' p)%Q.
Proof.
  intros H. unfold Prestamo.calcular_multa.
  destruct (Prestamo.devuelto p); [apply Qle_refl|].
  destruct (Z.leb_spec hoy (Prestamo.fecha_devolucion p)) as [L|L];
    destruct (Z.leb_spec hoy' (Prestamo.fecha_devolucion p)) as [L'|L'].
  - apply Qle_refl.
  - apply Qmult_le_0_compat; [|discriminate].
    change 0%Q with (inject_Z 0). rewrite <- Zle_Qle. apply Z.le_max_l.
  - lia.
  - apply Qmult_le_compat_r; [|discriminate].
    rewrite <- Zle_Qle. lia.
Qed.

Lemma multa_no_decrece_testigo :
  (Prestamo.calcular_multa 738020 prestamo_viejo
   <= Prestamo.calcular_multa 738034 prestamo_viejo)%Q.
Proof.
  apply (multa_no_decrece 738020 738034 prestamo_viejo). lia.
Defined.

(** X2. A fine is positive exactly for a loan that is not returned and
    past its due date, and a positive fine is at least 0.50. *)
Theorem multa_positiva (hoy : Z) (p : Prestamo.t) :
  ((0 < Prestamo.calcular_multa hoy p)%Q
   <-> Prestamo.devuelto p = false /\ Prestamo.fecha_devolucion p < hoy)
  /\ ((0 < Prestamo.calcular_multa hoy p)%Q ->
      ((1 # 2) <= Prestamo.calcular_multa hoy p)%Q).
Proof.
  unfold Prestamo.calcular_multa.
  destruct (Prestamo.devuelto p).
  { split; [split|]; [intros H; now apply Qlt_irrefl in H|intros [H _]; discriminate|].
    intros H; now apply Qlt_irrefl in H. }
  destruct (Z.leb_spec hoy (Prestamo.fecha_devolucion p)) as [L|L].
  { split; [split|]; [intros H; now apply Qlt_irrefl in H|intros [_ H]; lia|].
    intros H; now apply Qlt_irrefl in H. }
  assert (((1 # 2) <= inject_Z (Z.max 0 (hoy - Prestamo.fecha_devolucion p)) * (1 # 2))%Q)
    as K.
  { setoid_replace (1 # 2)%Q with (inject_Z 1 * (1 # 2))%Q at 1 by reflexivity.
    apply Qmult_le_compat_r; [|discriminate]. rewrite <- Zle_Qle. lia. }
  split; [split|]; [auto| |auto].
  intros _. eapply Qlt_le_trans; [|exact K]. reflexivity.
Qed.

Lemma multa_positiva_testigo :
  ((1 # 2) <= Prestamo.calcular_multa 738015 prestamo_viejo)%Q.
Proof.
  apply (proj2 (multa_positiva 738015 prestamo_viejo)).
  apply (proj2 (proj1 (multa_positiva 738015 prestamo_viejo))).
  split; [reflexivity|cbn; lia].
Defined.

(** ** Returns *)

Lemma find_none_existsb {A} (q : A -> bool) (l : list A) :
  find q l = None <-> existsb q l = false.
Proof.
  induction l as [|a l IH]; cbn; [tauto|].
  destruct (q a); cbn; [split; discriminate|exact IH].
Qed.

Lemma no_activo_find libro_id usuario b :
  ~ tiene_activo libro_id usuario b
  <-> find (activo_de libro_id usuario) (prestamos b) = None.
Proof.
  rewrite tiene_activo_existsb, find_none_existsb.
  destruct (existsb (activo_de libro_id usuario) (prestamos b)); split;
    congruence.
Qed.

(** X3. A return gives failure exactly when the borrower holds no
    unreturned loan of the book or no book has the identifier, and then
    changes neither the lists nor the file.  Otherwise the stock of the
    book is one more; and when the write goes through the call returns
    success with the new state in the file. *)
Theorem devolver_libro_correcto (env : Entorno) (libro_id : Z) (usuario : string)
    (w : Mundo) :
  let r := devolver_libro env libro_id usuario w in
  let rechazada :=
    ~ tiene_activo libro_id usuario (bib w) \/ sin_libro libro_id (bib w) in
  (fst r = Ret false <-> rechazada)
  /\ (rechazada -> bib (snd r) = bib w /\ disco (snd r) = disco w)
  /\ (~ rechazada ->
      exists antes libro despues,
        libros (bib w) = antes ++ libro :: despues
        /\ (forall l, In l antes -> Libro.id l <> libro_id)
        /\ Libro.id libro = libro_id
        /\ libros (bib (snd r))
           = antes ++ Libro.con_stock libro (Libro.stock libro + 1) :: despues
        /\ (escritura env = EscrituraOk ->
            fst r = Ret true
            /\ disco (snd r) = Documento (datos (bib (snd r))))).
Proof.
  cbn zeta. rewrite no_activo_find, sin_libro_find. unfold libro_de. desplegar.
  destruct (find (activo_de libro_id usuario) (prestamos (bib w))) as [p|] eqn:Ep; cbn.
  2:{ split; [tauto|]. split; [auto|]. intros H. exfalso. apply H. now left. }
  destruct (find (con_id libro_id) (libros (bib w))) as [libro|] eqn:Ef; cbn.
  2:{ split; [tauto|]. split; [auto|]. intros H. exfalso. apply H. now right. }
  assert (N : ~ (Some p = None \/ Some libro = None)) by (intros [H|H]; discriminate).
  split; [|split].
  - split; [|intros H; now destruct (N H)].
    destruct (escritura env); cbn; discriminate.
  - intros H; now destruct (N H).
  - intros _.
    destruct (find_partir _ _ _ Ef) as (antes & despues & El & Ha & Hx).
    exists antes, libro, despues.
    pose proof (modificar_primero_partir (con_id libro_id)
                  (fun l => Libro.con_stock l (Libro.stock l + 1))
                  antes libro despues Ha Hx) as Em.
    rewrite <- El in Em.
    unfold con_id in Hx. apply Z.eqb_eq in Hx.
    split; [assumption|]. split.
    { intros l Hl E. apply Ha in Hl. unfold con_id in Hl. apply Z.eqb_neq in Hl.
      contradiction. }
    split; [assumption|].
    destruct (escritura env); cbn; (split; [exact Em|]);
      intros He; try discriminate He; split; reflexivity.
Qed.

Lemma devolver_libro_correcto_testigo :
  bib (snd (devolver_libro entorno_1 1 "bob" mundo_doble)) = bib mundo_doble
  /\ exists antes libro despues,
       libros (bib mundo_doble) = antes ++ libro :: despues
       /\ libros (bib (snd (devolver_libro entorno_1 1 "alice" mundo_doble)))
          = antes ++ Libro.con_stock libro (Libro.stock libro + 1) :: despues
       /\ fst (devolver_libro entorno_1 1 "alice" mundo_doble) = Ret true.
Proof.
  split.
  - apply (proj1 (proj2 (devolver_libro_correcto entorno_1 1 "bob"%string mundo_doble))).
    left. intros (p & Hin & _ & Hu & _).
    destruct Hin as [<-|[<-|[]]]; discriminate Hu.
  - destruct (proj2 (proj2 (devolver_libro_correcto entorno_1 1 "alice"%string
                              mundo_doble)))
      as (antes & libro & despues & H1 & _ & _ & H4 & H5).
    + intros [H|H].
      * apply H. exists prestamo_viejo. repeat split. now left.
      * apply (H libro_x); [now left|reflexivity].
    + exists antes, libro, despues. destruct (H5 eq_refl) as [H6 _].
      repeat split; assumption.
Defined.

Lemma modificar_primero_deshace {A} (q : A -> bool) (f g : A -> A) (l : list A) :
  (forall x, q x = true -> q (f x) = true /\ g (f x) = x) ->
  modificar_primero q g (modificar_primero q f l) = l.
Proof.
  intros H. induction l as [|a l IH]; cbn; [reflexivity|].
  destruct (q a) eqn:E; cbn.
  - destruct (H a E) as [-> ->]. reflexivity.
  - rewrite E. now rewrite IH.
Qed.

Lemma find_app_final {A} (q : A -> bool) (l : list A) (x : A) :
  existsb q l = false -> q x = true -> find q (l ++ [x]) = Some x.
Proof.
  intros H Hx. induction l as [|a l IH]; cbn in *; [now rewrite Hx|].
  destruct (q a); [discriminate|auto].
Qed.

Lemma modificar_primero_app_final {A} (q : A -> bool) (f : A -> A) (l : list A) (x : A) :
  existsb q l = false -> q x = true ->
  modificar_primero q f (l ++ [x]) = l ++ [f x].
Proof.
  intros H Hx. induction l as [|a l IH]; cbn in *; [now rewrite Hx|].
  destruct (q a); [discriminate|]. f_equal. auto.
Qed.

Lemma prestar_libro_exito (env : Entorno) (libro_id : Z) (usuario : string)
    (w : Mundo) :
  fst (prestar_libro env libro_id usuario w) = Ret true ->
  exists libro,
    find (con_id libro_id) (libros (bib w)) = Some libro
    /\ existsb (activo_de libro_id usuario) (prestamos (bib w)) = false
    /\ 0 < Libro.stock libro
    /\ 0 < hoy env + 14 <= Fecha.MAXORDINAL
    /\ escritura env = EscrituraOk
    /\ bib (snd (prestar_libro env libro_id usuario w))
       = mk (modificar_primero (con_id libro_id)
               (fun l => Libro.con_stock l (Libro.stock l - 1)) (libros (bib w)))
            (prestamos (bib w)
             ++ [Prestamo.mk libro_id usuario (hoy env) (hoy env + 14) false])
    /\ disco (snd (prestar_libro env libro_id usuario w))
       = Documento (datos (bib (snd (prestar_libro env libro_id usuario w)))).
Proof.
  desplegar.
  destruct (existsb (activo_de libro_id usuario) (prestamos (bib w))) eqn:Ea; cbn;
    [discriminate|].
  destruct (find (con_id libro_id) (libros (bib w))) as [libro|] eqn:Ef; cbn;
    [|discriminate].
  destruct (Z.leb_spec (Libro.stock libro) 0) as [Es|Es]; cbn; [discriminate|].
  unfold Prestamo.init, sumar_dias.
  destruct (Z.ltb_spec 0 (hoy env + 14)) as [H1|H1]; cbn; [|discriminate].
  destruct (Z.leb_spec (hoy env + 14) Fecha.MAXORDINAL) as [H2|H2]; cbn; [|discriminate].
  destruct (escritura env) eqn:He; cbn; [|discriminate|discriminate].
  intros _. exists libro. repeat split; auto.
Qed.

(** X4. A loan that succeeded followed by the return of the same book
    by the same borrower gives back the catalog exactly as it was before
    the loan, and leaves the loan at the end of the loans, marked
    returned. *)
Theorem prestar_y_devolver (env env' : Entorno) (libro_id : Z) (usuario : string)
    (w : Mundo) :
  let r1 := prestar_libro env libro_id usuario w in
  let r2 := devolver_libro env' libro_id usuario (snd r1) in
  fst r1 = Ret true ->
  libros (bib (snd r2)) = libros (bib w)
  /\ prestamos (bib (snd r2))
     = prestamos (bib w)
       ++ [Prestamo.mk libro_id usuario (hoy env) (hoy env + 14) true]
  /\ (escritura env' = EscrituraOk ->
      fst r2 = Ret true /\ disco (snd r2) = Documento (datos (bib (snd r2)))).
Proof.
  cbn zeta. intros H.
  destruct (prestar_libro_exito _ _ _ _ H) as (libro & Ef & Ea & _ & _ & _ & Hb & _).
  set (w1 := snd (prestar_libro env libro_id usuario w)) in *. clearbody w1.
  set (nuevo := Prestamo.mk libro_id usuario (hoy env) (hoy env + 14) false) in *.
  assert (An : activo_de libro_id usuario nuevo = true).
  { apply activo_de_true. now cbn. }
  set (ls' := modificar_primero (con_id libro_id)
                (fun l => Libro.con_stock l (Libro.stock l - 1)) (libros (bib w))) in *.
  assert (Fl : find (con_id libro_id) ls'
               = Some (Libro.con_stock libro (Libro.stock libro - 1))).
  { unfold ls'. rewrite find_modificar_con_id by reflexivity.
    now rewrite Z.eqb_refl, Ef. }
  assert (modificar_primero (con_id libro_id)
            (fun l => Libro.con_stock l (Libro.stock l + 1)) ls' = libros (bib w)) as Eu.
  { unfold ls'. apply modificar_primero_deshace.
    intros [i t a s] Hq. unfold con_id, Libro.con_stock in *. cbn in *.
    split; [exact Hq|]. f_equal. lia. }
  unfold devolver_libro, bind, self, ret, print, set_libros, set_prestamos,
    guardar_datos.
  cbn [fst snd]. rewrite Hb. cbn [prestamos libros].
  rewrite (find_app_final _ _ _ Ea An), Fl.
  cbn [fst snd bib libros prestamos].
  rewrite (modificar_primero_app_final _ _ _ _ Ea An), Eu.
  destruct (escritura env'); cbn; (split; [reflexivity|]); (split; [reflexivity|]);
    intros He; try discriminate He; split; reflexivity.
Qed.

Lemma prestar_y_devolver_testigo :
  libros (bib (snd (devolver_libro entorno_1 1 "alice"
                      (snd (prestar_libro entorno_1 1 "alice" mundo_un_libro)))))
  = libros (bib mundo_un_libro).
Proof.
  apply (proj1 (prestar_y_devolver entorno_1 entorno_1 1 "alice"%string
                  mundo_un_libro eq_refl)).
Defined.

(** X5. While a book and a borrower have at most one unreturned loan, a
    return that succeeded cannot be repeated: the second return gives
    failure and changes nothing. *)
Theorem devolver_dos_veces (env env' : Entorno) (libro_id : Z) (usuario : string)
    (w : Mundo) :
  let r1 := devolver_libro env libro_id usuario w in
  let r2 := devolver_libro env' libro_id usuario (snd r1) in
  unico_activo (bib w) ->
  fst r1 = Ret true ->
  fst r2 = Ret false
  /\ bib (snd r2) = bib (snd r1)
  /\ disco (snd r2) = disco (snd r1).
Proof.
  cbn zeta. intros U H1.
  assert (find (activo_de libro_id usuario)
            (prestamos (bib (snd (devolver_libro env libro_id usuario w)))) = None) as F.
  { revert H1. desplegar.
    destruct (find (activo_de libro_id usuario) (prestamos (bib w))) as [p|] eqn:Ep; cbn;
      [|discriminate].
    destruct (find (con_id libro_id) (libros (bib w))) as [l|]; cbn; [|discriminate].
    destruct (escritura env); cbn; [|discriminate|discriminate].
    intros _.
    destruct (find_partir _ _ _ Ep) as (antes & despues & E & Ha & Hp).
    rewrite E, modificar_primero_partir by assumption.
    specialize (U libro_id usuario). rewrite E, filter_app, length_app in U.
    cbn [filter] in U. rewrite Hp in U. cbn [List.length] in U.
    apply find_none_existsb. rewrite existsb_app. cbn [existsb].
    assert (existsb (activo_de libro_id usuario) antes = false) as ->.
    { destruct (existsb (activo_de libro_id usuario) antes) eqn:X; [|reflexivity].
      apply existsb_exists in X. destruct X as (x & Hin & Hx).
      rewrite (Ha x Hin) in Hx. discriminate. }
    assert (activo_de libro_id usuario (Prestamo.marcar_devuelto p) = false) as ->
      by (unfold activo_de; cbn; apply andb_false_r).
    cbn.
    destruct (existsb (activo_de libro_id usuario) despues) eqn:X; [|reflexivity].
    apply existsb_exists in X. destruct X as (x & Hin & Hx).
    assert (In x (filter (activo_de libro_id usuario) despues)) as Hf
      by (apply filter_In; auto).
    destruct (filter (activo_de libro_id usuario) despues); [destruct Hf|].
    cbn in U. lia. }
  set (w1 := snd (devolver_libro env libro_id usuario w)) in *. clearbody w1.
  desplegar. rewrite F. cbn. auto.
Qed.

Lemma devolver_dos_veces_testigo :
  fst (devolver_libro entorno_1 1 "alice"
         (snd (devolver_libro entorno_1 1 "alice"
                 (snd (prestar_libro entorno_1 1 "alice" mundo_un_libro)))))
  = Ret false.
Proof.
  apply (devolver_dos_veces entorno_1 entorno_1 1 "alice"%string
           (snd (prestar_libro entorno_1 1 "alice" mundo_un_libro))).
  - apply (unico_activo_paso entorno_1 (Prestar 1 "alice") mundo_un_libro).
    intros a u. cbn. lia.
  - reflexivity.
Defined.

(** ** The stock, one operation at a time *)

Lemma devolver_libro_exito (env : Entorno) (libro_id : Z) (usuario : string)
    (w : Mundo) :
  fst (devolver_libro env libro_id usuario w) = Ret true ->
  exists p libro,
    find (activo_de libro_id usuario) (prestamos (bib w)) = Some p
    /\ find (con_id libro_id) (libros (bib w)) = Some libro
    /\ bib (snd (devolver_libro env libro_id usuario w))
       = mk (modificar_primero (con_id libro_id)
               (fun l => Libro.con_stock l (Libro.stock l + 1)) (libros (bib w)))
            (modificar_primero (activo_de libro_id usuario)
               Prestamo.marcar_devuelto (prestamos (bib w))).
Proof.
  desplegar.
  destruct (find (activo_de libro_id usuario) (prestamos (bib w))) as [p|] eqn:Ep; cbn;
    [|discriminate].
  destruct (find (con_id libro_id) (libros (bib w))) as [libro|] eqn:Ef; cbn;
    [|discriminate].
  destruct (escritura env); cbn; [|discriminate|discriminate].
  intros _. exists p, libro. repeat split.
Qed.

Lemma ejecutar_falso (env : Entorno) (op : operacion) (w : Mundo) :
  fst (ejecutar env op w) = Ret false ->
  bib (snd (ejecutar env op w)) = bib w /\ disco (snd (ejecutar env op w)) = disco w.
Proof.
  destruct op as [libro|b usuario|b usuario]; unfold ejecutar.
  - desplegar. destruct (existsb _ (libros (bib w))); cbn; [auto|].
    destruct (escritura env); cbn; discriminate.
  - desplegar.
    destruct (existsb (activo_de b usuario) (prestamos (bib w))); cbn; [auto|].
    destruct (find (con_id b) (libros (bib w))) as [libro|]; cbn; [|auto].
    destruct (Libro.stock libro <=? 0); cbn; [auto|].
    unfold Prestamo.init. destruct (sumar_dias (hoy env) 14); cbn; [|discriminate].
    destruct (escritura env); cbn; discriminate.
  - desplegar.
    destruct (find (activo_de b usuario) (prestamos (bib w))) as [p|]; cbn; [|auto].
    destruct (find (con_id b) (libros (bib w))) as [libro|]; cbn; [|auto].
    destruct (escritura env); cbn; discriminate.
Qed.

Lemma cuenta_activo_app (a b : Z) (usuario : string) (d1 d2 : Z)
    (ps : list Prestamo.t) :
  Z.of_nat (List.length (filter (cuenta_activo a)
                           (ps ++ [Prestamo.mk b usuario d1 d2 false])))
  = Z.of_nat (List.length (filter (cuenta_activo a) ps)) + (if a =? b then 1 else 0).
Proof.
  rewrite filter_app, length_app. cbn [filter]. unfold cuenta_activo at 2.
  cbn [Prestamo.libro_id Prestamo.devuelto negb]. rewrite andb_true_r.
  rewrite (Z.eqb_sym b a). destruct (a =? b); cbn [List.length]; lia.
Qed.

(** The stock and the unreturned loans of a book other than the one an
    operation names are what they were, however the operation ends. *)
Lemma stock_de_otro (env : Entorno) (op : operacion) (w : Mundo) (libro_id s : Z) :
  stock_de libro_id (bib w) = Some s ->
  (forall usuario, op <> Prestar libro_id usuario) ->
  (forall usuario, op <> Devolver libro_id usuario) ->
  stock_de libro_id (bib (snd (ejecutar env op w))) = Some s
  /\ activos libro_id (bib (snd (ejecutar env op w))) = activos libro_id (bib w).
Proof.
  intros Hs N1 N2. unfold stock_de, libro_de, activos in *.
  destruct op as [libro|b usuario|b usuario]; unfold ejecutar.
  - desplegar. destruct (existsb _ (libros (bib w))); cbn; [auto|].
    assert (option_map Libro.stock (find (con_id libro_id) (libros (bib w) ++ [libro]))
            = Some s) as E.
    { destruct (find (con_id libro_id) (libros (bib w))) as [l|] eqn:Ef; [|discriminate].
      now rewrite (find_app_some _ _ _ _ Ef). }
    destruct (escritura env); cbn; auto.
  - assert ((libro_id =? b) = false) as D
      by (apply Z.eqb_neq; intros ->; now apply (N1 usuario)).
    desplegar.
    destruct (existsb (activo_de b usuario) (prestamos (bib w))); cbn; [auto|].
    destruct (find (con_id b) (libros (bib w))) as [libro|]; cbn; [|auto].
    destruct (Libro.stock libro <=? 0); cbn; [auto|].
    assert (option_map Libro.stock
              (find (con_id libro_id)
                 (modificar_primero (con_id b)
                    (fun l => Libro.con_stock l (Libro.stock l - 1)) (libros (bib w))))
            = Some s) as E
      by (rewrite find_modificar_con_id by reflexivity; now rewrite D).
    unfold Prestamo.init. destruct (sumar_dias (hoy env) 14) as [fd|e]; cbn; [|auto].
    pose proof (cuenta_activo_app libro_id b usuario (hoy env) fd (prestamos (bib w)))
      as C.
    rewrite D in C.
    destruct (escritura env); cbn; (split; [exact E|lia]).
  - assert ((libro_id =? b) = false) as D
      by (apply Z.eqb_neq; intros ->; now apply (N2 usuario)).
    desplegar.
    destruct (find (activo_de b usuario) (prestamos (bib w))) as [p|] eqn:Ep; cbn;
      [|auto].
    destruct (find (con_id b) (libros (bib w))) as [libro|]; cbn; [|auto].
    assert (option_map Libro.stock
              (find (con_id libro_id)
                 (modificar_primero (con_id b)
                    (fun l => Libro.con_stock l (Libro.stock l + 1)) (libros (bib w))))
            = Some s) as E
      by (rewrite find_modificar_con_id by reflexivity; now rewrite D).
    pose proof (activos_tras_devolver libro_id b usuario _ _ Ep) as C.
    rewrite D in C.
    destruct (escritura env); cbn; (split; [exact E|lia]).
Qed.

(** X23. What one operation does to the stock of a book of the catalog
    and to the number of its unreturned loans.  A loan of the book that
    returns success takes exactly one from the stock and adds exactly
    one unreturned loan; a return of the book that returns success adds
    exactly one to the stock and takes away exactly one unreturned loan;
    an operation that returns failure changes nothing; and an operation
    that is neither a loan nor a return of the book, an addition
    included, leaves both numbers as they were however it ends. *)
Theorem stock_paso_exacto (env : Entorno) (op : operacion) (w : Mundo)
    (libro_id s : Z) :
  stock_de libro_id (bib w) = Some s ->
  let r := ejecutar env op w in
  (forall usuario, op = Prestar libro_id usuario -> fst r = Ret true ->
     stock_de libro_id (bib (snd r)) = Some (s - 1)
     /\ activos libro_id (bib (snd r)) = activos libro_id (bib w) + 1)
  /\ (forall usuario, op = Devolver libro_id usuario -> fst r = Ret true ->
        stock_de libro_id (bib (snd r)) = Some (s + 1)
        /\ activos libro_id (bib (snd r)) = activos libro_id (bib w) - 1)
  /\ (fst r = Ret false -> bib (snd r) = bib w /\ disco (snd r) = disco w)
  /\ ((forall usuario, op <> Prestar libro_id usuario) ->
      (forall usuario, op <> Devolver libro_id usuario) ->
      stock_de libro_id (bib (snd r)) = Some s
      /\ activos libro_id (bib (snd r)) = activos libro_id (bib w)).
Proof.
  intros Hs. cbn zeta. split; [|split; [|split]].
  - intros usuario -> H. cbn [ejecutar] in *.
    destruct (prestar_libro_exito env libro_id usuario w H)
      as (libro & Ef & _ & _ & _ & _ & Eb & _).
    rewrite Eb. unfold stock_de, libro_de, activos in *. cbn [libros prestamos].
    rewrite find_modificar_con_id by reflexivity. rewrite Z.eqb_refl.
    rewrite Ef in *. cbn in Hs. injection Hs as Hs.
    rewrite cuenta_activo_app, Z.eqb_refl. cbn. split; [f_equal; lia|lia].
  - intros usuario -> H. cbn [ejecutar] in *.
    destruct (devolver_libro_exito env libro_id usuario w H) as (p & libro & Ep & Ef & Eb).
    rewrite Eb. unfold stock_de, libro_de, activos in *. cbn [libros prestamos].
    rewrite find_modificar_con_id by reflexivity. rewrite Z.eqb_refl.
    rewrite Ef in *. cbn in Hs. injection Hs as Hs.
    pose proof (activos_tras_devolver libro_id libro_id usuario _ _ Ep) as C.
    rewrite Z.eqb_refl in C. cbn. split; [f_equal; lia|lia].
  - apply ejecutar_falso.
  - now apply stock_de_otro.
Qed.

Lemma stock_paso_exacto_testigo :
  stock_de 1 (bib (snd (ejecutar entorno_1 (Prestar 1 "alice") mundo_un_libro)))
  = Some (2 - 1)
  /\ activos 1 (bib (snd (ejecutar entorno_1 (Prestar 1 "alice") mundo_un_libro)))
     = activos 1 (bib mundo_un_libro) + 1.
Proof.
  apply (proj1 (stock_paso_exacto entorno_1 (Prestar 1 "alice") mundo_un_libro 1 2
                  eq_refl) "alice"%string eq_refl eq_refl).
Defined.

(** ** More invariants of runs *)

Lemma map_modificar_primero {A B} (g : A -> B) (q : A -> bool) (f : A -> A)
    (l : list A) :
  (forall x, g (f x) = g x) ->
  map g (modificar_primero q f l) = map g l.
Proof.
  intros H. induction l as [|a l IH]; cbn; [reflexivity|].
  destruct (q a); cbn; [now rewrite H|now rewrite IH].
Qed.

(** The lists an operation leaves, in terms of the lists it found. *)
Lemma tras_formas (env : Entorno) (op : operacion) (w : Mundo) :
  (bib (tras env op w) = bib w)
  \/ (exists libro, op = Agregar libro
        /\ existsb (con_id (Libro.id libro)) (libros (bib w)) = false
        /\ bib (tras env op w) = mk (libros (bib w) ++ [libro]) (prestamos (bib w)))
  \/ (exists libro_id libro,
        find (con_id libro_id) (libros (bib w)) = Some libro
        /\ 0 < Libro.stock libro
        /\ ~ 0 < hoy env + 14 <= Fecha.MAXORDINAL
        /\ bib (tras env op w)
           = mk (modificar_primero (con_id libro_id)
                   (fun l => Libro.con_stock l (Libro.stock l - 1)) (libros (bib w)))
                (prestamos (bib w)))
  \/ (exists libro_id usuario libro,
        op = Prestar libro_id usuario
        /\ find (con_id libro_id) (libros (bib w)) = Some libro
        /\ 0 < Libro.stock libro
        /\ 0 < hoy env + 14 <= Fecha.MAXORDINAL
        /\ existsb (activo_de libro_id usuario) (prestamos (bib w)) = false
        /\ bib (tras env op w)
           = mk (modificar_primero (con_id libro_id)
                   (fun l => Libro.con_stock l (Libro.stock l - 1)) (libros (bib w)))
                (prestamos (bib w)
                 ++ [Prestamo.mk libro_id usuario (hoy env) (hoy env + 14) false]))
  \/ (exists libro_id usuario p,
        op = Devolver libro_id usuario
        /\ find (activo_de libro_id usuario) (prestamos (bib w)) = Some p
        /\ bib (tras env op w)
           = mk (modificar_primero (con_id libro_id)
                   (fun l => Libro.con_stock l (Libro.stock l + 1)) (libros (bib w)))
                (modificar_primero (activo_de libro_id usuario)
                   Prestamo.marcar_devuelto (prestamos (bib w)))).
Proof.
  unfold tras. destruct op as [libro|libro_id usuario|libro_id usuario]; unfold ejecutar.
  - desplegar.
    destruct (existsb (con_id (Libro.id libro)) (libros (bib w))) eqn:Ex; cbn;
      [now left|].
    right; left. exists libro. split; [reflexivity|]. split; [assumption|].
    destruct (escritura env); reflexivity.
  - desplegar.
    destruct (existsb (activo_de libro_id usuario) (prestamos (bib w))) eqn:Ea; cbn;
      [now left|].
    destruct (find (con_id libro_id) (libros (bib w))) as [libro|] eqn:Ef; cbn;
      [|now left].
    destruct (Z.leb_spec (Libro.stock libro) 0) as [Es|Es]; cbn; [now left|].
    unfold Prestamo.init, sumar_dias.
    destruct (Z.ltb_spec 0 (hoy env + 14)) as [H1|H1]; cbn.
    2:{ right; right; left. exists libro_id, libro.
        split; [assumption|]. split; [assumption|]. split; [lia|reflexivity]. }
    destruct (Z.leb_spec (hoy env + 14) Fecha.MAXORDINAL) as [H2|H2]; cbn.
    2:{ right; right; left. exists libro_id, libro.
        split; [assumption|]. split; [assumption|]. split; [lia|reflexivity]. }
    right; right; right; left. exists libro_id, usuario, libro.
    split; [reflexivity|]. split; [assumption|]. split; [assumption|].
    split; [lia|]. split; [assumption|].
    destruct (escritura env); reflexivity.
  - desplegar.
    destruct (find (activo_de libro_id usuario) (prestamos (bib w))) as [p|] eqn:Ep; cbn;
      [|now left].
    destruct (find (con_id libro_id) (libros (bib w))) as [libro|]; cbn; [|now left].
    right; right; right; right. exists libro_id, usuario, p.
    split; [reflexivity|]. split; [assumption|].
    destruct (escritura env); reflexivity.
Qed.

Lemma ids_unicos_paso (env : Entorno) (op : operacion) (w : Mundo) :
  ids_unicos (bib w) -> ids_unicos (bib (tras env op w)).
Proof.
  unfold ids_unicos. intros H.
  destruct (tras_formas env op w)
    as [E|[(libro & _ & Ex & E)|[(i & l & _ & _ & _ & E)
       |[(i & u & l & _ & _ & _ & _ & _ & E)|(i & u & p & _ & _ & E)]]]];
    rewrite E; cbn [libros]; try assumption.
  - rewrite map_app. cbn. apply NoDup_app; [assumption|repeat constructor; intros []|].
    intros x Hx [<-|[]]. apply in_map_iff in Hx. destruct Hx as (l & El & Hl).
    assert (existsb (con_id (Libro.id libro)) (libros (bib w)) = true) as T.
    { apply existsb_exists. exists l. split; [assumption|]. now apply Z.eqb_eq. }
    congruence.
  - rewrite map_modificar_primero; [assumption|reflexivity].
  - rewrite map_modificar_primero; [assumption|reflexivity].
  - rewrite map_modificar_primero; [assumption|reflexivity].
Qed.

(** X6. The operations keep the identifiers of the catalog pairwise
    distinct: from a catalog without a repeated identifier, no run of
    additions, loans and returns reaches one with a repeated
    identifier. *)
Theorem ids_unicos_invariante (w w' : Mundo) :
  ids_unicos (bib w) -> alcanzable w w' -> ids_unicos (bib w').
Proof.
  intros H R. induction R as [|w' env op _ IH]; [exact H|].
  now apply ids_unicos_paso.
Qed.

Lemma ids_unicos_invariante_testigo :
  ids_unicos (bib (tras entorno_1 (Agregar libro_x)
                     (tras entorno_1 (Agregar libro_x) mundo_vacio))).
Proof.
  apply (ids_unicos_invariante mundo_vacio).
  - constructor.
  - apply alc_paso, alc_paso, alc_inicio.
Defined.

Lemma Forall_modificar_primero {A} (P : A -> Prop) (q : A -> bool) (f : A -> A)
    (l : list A) :
  (forall x, q x = true -> P x -> P (f x)) ->
  Forall P l -> Forall P (modificar_primero q f l).
Proof.
  intros H F. induction F as [|a l Pa Fl IH]; cbn; [constructor|].
  destruct (q a) eqn:E; constructor; auto.
Qed.

Lemma stocks_no_negativos_paso (env : Entorno) (op : operacion) (w : Mundo) :
  stock_admisible (env, op) ->
  stocks_no_negativos (bib w) -> stocks_no_negativos (bib (tras env op w)).
Proof.
  unfold stocks_no_negativos, stock_admisible. cbn [snd]. intros Ha H.
  unfold tras. destruct op as [libro|libro_id usuario|libro_id usuario]; unfold ejecutar.
  - desplegar. destruct (existsb _ (libros (bib w))); cbn; [assumption|].
    assert (Forall (fun l => 0 <= Libro.stock l) (libros (bib w) ++ [libro])) as K
      by (apply Forall_app; split; [assumption|now repeat constructor]).
    destruct (escritura env); exact K.
  - desplegar.
    destruct (existsb (activo_de libro_id usuario) (prestamos (bib w))); cbn;
      [assumption|].
    destruct (find (con_id libro_id) (libros (bib w))) as [libro|] eqn:Ef; cbn;
      [|assumption].
    destruct (Z.leb_spec (Libro.stock libro) 0) as [Es|Es]; cbn; [assumption|].
    assert (Forall (fun l => 0 <= Libro.stock l)
              (modificar_primero (con_id libro_id)
                 (fun l => Libro.con_stock l (Libro.stock l - 1)) (libros (bib w)))) as K.
    { destruct (find_partir _ _ _ Ef) as (antes & despues & El & Hn & Hx).
      rewrite El in *. rewrite modificar_primero_partir by assumption.
      apply Forall_app in H. destruct H as [H1 H2]. inversion H2; subst.
      apply Forall_app. split; [assumption|]. constructor; [cbn; lia|assumption]. }
    unfold Prestamo.init. destruct (sumar_dias (hoy env) 14); cbn; [|exact K].
    destruct (escritura env); exact K.
  - desplegar.
    destruct (find (activo_de libro_id usuario) (prestamos (bib w))) as [p|]; cbn;
      [|assumption].
    destruct (find (con_id libro_id) (libros (bib w))) as [libro|]; cbn; [|assumption].
    assert (Forall (fun l => 0 <= Libro.stock l)
              (modificar_primero (con_id libro_id)
                 (fun l => Libro.con_stock l (Libro.stock l + 1)) (libros (bib w)))) as K.
    { apply Forall_modificar_primero; [|assumption]. intros x _ Hx. cbn. lia. }
    destruct (escritura env); exact K.
Qed.

(** X7. No loan takes a stock below zero: along a run in which only
    books with a stock of zero or more are added, a catalog without a
    negative stock never gets one. *)
Theorem stocks_no_negativos_invariante (ops : list (Entorno * operacion)) (w : Mundo) :
  Forall stock_admisible ops ->
  stocks_no_negativos (bib w) ->
  stocks_no_negativos (bib (correr ops w)).
Proof.
  intros F. revert w. induction F as [|[env op] ops Ha _ IH]; intros w H; cbn [correr];
    [assumption|].
  apply IH. now apply stocks_no_negativos_paso.
Qed.

Lemma stocks_no_negativos_invariante_testigo :
  stocks_no_negativos
    (bib (correr [(entorno_1, Prestar 1 "alice"); (entorno_1, Prestar 1 "bob");
                  (entorno_1, Prestar 1 "carol")] mundo_un_libro)).
Proof.
  apply (stocks_no_negativos_invariante
           [(entorno_1, Prestar 1 "alice"); (entorno_1, Prestar 1 "bob");
            (entorno_1, Prestar 1 "carol")] mundo_un_libro).
  - repeat (apply Forall_cons; [exact I|]). apply Forall_nil.
  - unfold stocks_no_negativos. cbn. repeat constructor. cbn. lia.
Defined.

(** *** Nothing is removed *)

Lemma continua_refl (b : Biblioteca.t) : continua b b.
Proof.
  repeat split; [exists []; now rewrite app_nil_r..|auto].
Qed.

Lemma continua_trans (a b c : Biblioteca.t) :
  continua a b -> continua b c -> continua a c.
Proof.
  intros ((l1 & L1) & (p1 & P1) & D1) ((l2 & L2) & (p2 & P2) & D2).
  repeat split.
  - exists (l1 ++ l2). now rewrite L2, L1, app_assoc.
  - exists (p1 ++ p2). now rewrite P2, P1, app_assoc.
  - auto.
Qed.

Lemma devueltos_app (ps : list Prestamo.t) (p : Prestamo.t) (i : nat) :
  nth i (devueltos ps) false = true ->
  nth i (devueltos (ps ++ [p])) false = true.
Proof.
  unfold devueltos. intros H. rewrite map_app, app_nth1; [assumption|].
  destruct (Nat.lt_ge_cases i (List.length (map Prestamo.devuelto ps))) as [L|L];
    [assumption|].
  rewrite nth_overflow in H by assumption. discriminate.
Qed.

Lemma devueltos_marcar (q : Prestamo.t -> bool) (ps : list Prestamo.t) (i : nat) :
  nth i (devueltos ps) false = true ->
  nth i (devueltos (modificar_primero q Prestamo.marcar_devuelto ps)) false = true.
Proof.
  unfold devueltos. revert i. induction ps as [|p ps IH]; intros i; cbn; [trivial|].
  destruct (q p); cbn; destruct i; auto.
Qed.

Lemma continua_paso (env : Entorno) (op : operacion) (w : Mundo) :
  continua (bib w) (bib (tras env op w)).
Proof.
  destruct (tras_formas env op w)
    as [E|[(libro & _ & _ & E)|[(i & l & _ & _ & _ & E)
       |[(i & u & l & _ & _ & _ & _ & _ & E)|(i & u & p & _ & _ & E)]]]];
    rewrite E; [apply continua_refl|..]; unfold continua; cbn [libros prestamos].
  - repeat split; [|exists []; now rewrite app_nil_r|auto].
    exists [sin_stock libro]. now rewrite map_app.
  - repeat split; [|exists []; now rewrite app_nil_r|auto].
    exists []. rewrite app_nil_r. now apply map_modificar_primero.
  - repeat split.
    + exists []. rewrite app_nil_r. now apply map_modificar_primero.
    + eexists. rewrite map_app. reflexivity.
    + intros k. apply devueltos_app.
  - repeat split.
    + exists []. rewrite app_nil_r. now apply map_modificar_primero.
    + exists []. rewrite app_nil_r. now apply map_modificar_primero.
    + intros k. apply devueltos_marcar.
Qed.

(** X8. The two lists only grow: whatever run of operations is made,
    every book is still in its place with its identifier, title and
    author, every loan is still in its place with its book, borrower and
    dates, and a loan that was returned is still returned. *)
Theorem nada_se_borra (w w' : Mundo) :
  alcanzable w w' -> continua (bib w) (bib w').
Proof.
  intros R. induction R as [|w' env op _ IH]; [apply continua_refl|].
  eapply continua_trans; [exact IH|apply continua_paso].
Qed.

Lemma nada_se_borra_testigo :
  continua (bib mundo_doble)
    (bib (tras entorno_1 (Devolver 1 "alice")
            (tras entorno_1 (Agregar (Libro.mk 2 "Z" "W" 1)) mundo_doble))).
Proof.
  apply (nada_se_borra mundo_doble). apply alc_paso, alc_paso, alc_inicio.
Defined.

(** *** Dates stay dates *)




(** *** The file follows the lists *)

Lemma sincronizado_paso (env : Entorno) (op : operacion) (w : Mundo) :
  escritura env = EscrituraOk -> reloj_ok (hoy env) ->
  sincronizado w -> sincronizado (tras env op w).
Proof.
  unfold sincronizado, tras. intros He Hr H.
  destruct op as [libro|libro_id usuario|libro_id usuario]; unfold ejecutar.
  - desplegar. rewrite He.
    destruct (existsb _ (libros (bib w))); cbn; [assumption|reflexivity].
  - desplegar. unfold Prestamo.init. rewrite (sumar_dias_ok _ Hr), He. cbn.
    destruct (existsb (activo_de libro_id usuario) (prestamos (bib w))); cbn;
      [assumption|].
    destruct (find (con_id libro_id) (libros (bib w))) as [libro|]; cbn; [|assumption].
    destruct (Libro.stock libro <=? 0); cbn; [assumption|reflexivity].
  - desplegar. rewrite He.
    destruct (find (activo_de libro_id usuario) (prestamos (bib w))) as [p|]; cbn;
      [|assumption].
    destruct (find (con_id libro_id) (libros (bib w))) as [libro|]; cbn;
      [reflexivity|assumption].
Qed.

Lemma fechas_de_cuatro_cifras_paso (env : Entorno) (op : operacion) (w : Mundo) :
  Fecha.cuatro_cifras (hoy env) ->
  fechas_de_cuatro_cifras (bib w) -> fechas_de_cuatro_cifras (bib (tras env op w)).
Proof.
  unfold fechas_de_cuatro_cifras. intros Hh H.
  destruct (tras_formas env op w)
    as [E|[(libro & _ & _ & E)|[(i & l & _ & _ & _ & E)
       |[(i & u & l & _ & _ & _ & Hd & _ & E)|(i & u & p & _ & _ & E)]]]];
    rewrite E; cbn [prestamos]; try assumption.
  - apply Forall_app. split; [assumption|]. constructor; [|constructor].
    cbn. split; [assumption|]. unfold Fecha.cuatro_cifras in *. lia.
  - apply Forall_modificar_primero; [|assumption]. intros x _ Hx. exact Hx.
Qed.

(** X10. When the file holds the lists and every date of the loans is in
    year 1000 or later, the file still holds the lists after any run of
    operations whose writes go through, made on days from year 1000 on
    whose fourteenth day after is a date; and the program started again
    on that file finds the lists exactly as the run left them. *)
Theorem reinicio_tras_correr (ops : list (Entorno * operacion)) (w : Mundo) (hoy' : Z) :
  Forall (fun eo => escritura (fst eo) = EscrituraOk
                    /\ reloj_ok (hoy (fst eo))
                    /\ Fecha.cuatro_cifras (hoy (fst eo))) ops ->
  sincronizado w ->
  fechas_de_cuatro_cifras (bib w) ->
  reloj_ok hoy' ->
  sincronizado (correr ops w)
  /\ fechas_de_cuatro_cifras (bib (correr ops w))
  /\ Biblioteca.init hoy' (disco (correr ops w)) = Cargada (bib (correr ops w)) [].
Proof.
  intros F. revert w. induction F as [|[env op] ops (He & Hr & Hc) _ IH]; intros w S V R;
    cbn [correr].
  - split; [assumption|]. split; [assumption|]. rewrite S. unfold Biblioteca.init.
    now apply cargar_datos_de_datos.
  - cbn [fst] in He, Hr, Hc. apply IH; [now apply sincronizado_paso| |assumption].
    now apply fechas_de_cuatro_cifras_paso.
Qed.

Lemma reinicio_tras_correr_testigo :
  Biblioteca.init dia_1
    (disco (correr [(entorno_1, Prestar 1 "alice"); (entorno_1, Devolver 1 "alice")]
              (snd (agregar_libro entorno_1 libro_x mundo_vacio))))
  = Cargada
      (bib (correr [(entorno_1, Prestar 1 "alice"); (entorno_1, Devolver 1 "alice")]
              (snd (agregar_libro entorno_1 libro_x mundo_vacio)))) [].
Proof.
  assert (reloj_ok dia_1) as Hr
    by (unfold reloj_ok, Fecha.valida, Fecha.MAXORDINAL, dia_1; lia).
  assert (Fecha.cuatro_cifras dia_1) as Hc
    by (unfold Fecha.cuatro_cifras, Fecha.MAXORDINAL, dia_1; lia).
  apply (reinicio_tras_correr
           [(entorno_1, Prestar 1 "alice"); (entorno_1, Devolver 1 "alice")]
           (snd (agregar_libro entorno_1 libro_x mundo_vacio)) dia_1).
  - repeat (apply Forall_cons; [split; [reflexivity|split; [exact Hr|exact Hc]]|]).
    apply Forall_nil.
  - reflexivity.
  - constructor.
  - exact Hr.
Defined.

(** *** Writing and reading back *)

(** X21. A state whose dates are all in year 1000 or later, once
    written, is read back as it was: the same books with their
    identifiers, titles, authors and stocks, and the same loans with
    their book, borrower, two dates and returned flag, in the same
    order. *)
Theorem guardar_y_cargar (env : Entorno) (w : Mundo) (hoy' : Z) (self : Biblioteca.t) :
  escritura env = EscrituraOk ->
  fechas_de_cuatro_cifras (bib w) ->
  reloj_ok hoy' ->
  fst (guardar_datos env w) = Ret tt
  /\ bib (snd (guardar_datos env w)) = bib w
  /\ cargar_datos hoy' self (disco (snd (guardar_datos env w))) = Cargada (bib w) [].
Proof.
  intros He Hv Hr. unfold guardar_datos. rewrite He. cbn [fst snd bib disco].
  repeat split. now apply cargar_datos_de_datos.
Qed.

Lemma guardar_y_cargar_testigo :
  cargar_datos dia_1 (mk [] [])
    (disco (snd (guardar_datos entorno_1 mundo_doble)))
  = Cargada (bib mundo_doble) [].
Proof.
  apply (guardar_y_cargar entorno_1 mundo_doble dia_1 (mk [] [])).
  - reflexivity.
  - unfold fechas_de_cuatro_cifras, Fecha.cuatro_cifras, Fecha.MAXORDINAL.
    repeat constructor; cbn; lia.
  - unfold reloj_ok, Fecha.valida, Fecha.MAXORDINAL, dia_1. lia.
Defined.

(** X24. A state that holds a date before year 1000 is written without
    complaint and cannot be read back: the year is written on fewer than
    four digits, and reading the file raises [ValueError]. *)
Theorem guardar_y_no_cargar (env : Entorno) (w : Mundo) (hoy' : Z)
    (self : Biblioteca.t) :
  escritura env = EscrituraOk ->
  fechas_validas (bib w) ->
  alguna_fecha_corta (bib w) ->
  reloj_ok hoy' ->
  fst (guardar_datos env w) = Ret tt
  /\ bib (snd (guardar_datos env w)) = bib w
  /\ cargar_datos hoy' self (disco (snd (guardar_datos env w)))
     = CargaFallida ValueError.
Proof.
  intros He Hv Hc Hr. unfold guardar_datos. rewrite He. cbn [fst snd bib disco].
  repeat split. now apply cargar_datos_de_datos_cortos.
Qed.

Lemma guardar_y_no_cargar_testigo :
  cargar_datos dia_1 (mk [] [])
    (disco (snd (guardar_datos entorno_1 mundo_999)))
  = CargaFallida ValueError.
Proof.
  apply (guardar_y_no_cargar entorno_1 mundo_999 dia_1 (mk [] [])).
  - reflexivity.
  - unfold fechas_validas, Fecha.valida, Fecha.MAXORDINAL.
    repeat constructor; cbn; lia.
  - constructor. cbn. lia.
  - unfold reloj_ok, Fecha.valida, Fecha.MAXORDINAL, dia_1. lia.
Defined.

(** ** Dates read from text *)

Section LecturaDeFechas.
Import Fecha.

Lemma caso_guion {A} (P : A -> Prop) (c : ascii) (x y : A) :
  P x -> P y -> P (match c with "-"%char => x | _ => y end).
Proof.
  intros Hx Hy. destruct c as [[] [] [] [] [] [] [] []]; assumption.
Qed.

Lemma lee_guion_some s r : lee_guion s = Some r -> s = String "-" r.
Proof.
  destruct s as [|c s]; cbn; [discriminate|].
  destruct c as [[] [] [] [] [] [] [] []]; cbn; try discriminate.
  now intros [= ->].
Qed.

Lemma es_digito_valor c : es_digito c = true -> 0 <= valor c <= 9.
Proof.
  unfold es_digito, valor. intros H. apply andb_prop in H. destruct H as [H1 H2].
  apply Z.leb_le in H1, H2. lia.
Qed.

Lemma entre_valor lo hi c : entre lo hi c = true -> lo <= valor c <= hi /\ es_digito c = true.
Proof.
  unfold entre. intros H. apply andb_prop in H. destruct H as [H H3].
  apply andb_prop in H. destruct H as [H1 H2].
  apply Z.leb_le in H2, H3. auto.
Qed.

Lemma lee_anio_cota s y r : lee_anio s = Some (y, r) -> 0 <= y <= 9999.
Proof.
  destruct s as [|a [|b [|c [|d s]]]]; unfold lee_anio; try discriminate.
  destruct (es_digito a) eqn:Ea; cbn [andb]; [|discriminate].
  destruct (es_digito b) eqn:Eb; cbn [andb]; [|discriminate].
  destruct (es_digito c) eqn:Ec; cbn [andb]; [|discriminate].
  destruct (es_digito d) eqn:Ed; cbn [andb]; [|discriminate].
  intros K.
  assert (1000 * valor a + 100 * valor b + 10 * valor c + valor d = y) by congruence.
  apply es_digito_valor in Ea, Eb, Ec, Ed. lia.
Qed.

Lemma lee_mes_cota s m r : lee_mes s = Some (m, r) -> 1 <= m <= 12.
Proof.
  assert (B1 : forall a b r', 
    (if ((valor a =? 1) && entre 0 2 b) || ((valor a =? 0) && entre 1 9 b)
      then if es_digito a then Some (10 * valor a + valor b, r') else None
      else None) = Some (m, r) -> 1 <= m <= 12).
  { intros a b r'.
    destruct (Z.eqb_spec (valor a) 1) as [E1|E1]; cbn [andb orb].
    - destruct (entre 0 2 b) eqn:Eb; cbn [andb orb].
      + apply entre_valor in Eb. destruct (es_digito a); [|discriminate].
        intros K. assert (10 * valor a + valor b = m) by congruence. lia.
      + destruct (Z.eqb_spec (valor a) 0); cbn [andb orb]; [lia|discriminate].
    - destruct (Z.eqb_spec (valor a) 0) as [E0|E0]; cbn [andb orb]; [|discriminate].
      destruct (entre 1 9 b) eqn:Eb; cbn [andb orb]; [|discriminate].
      apply entre_valor in Eb. destruct (es_digito a); [|discriminate].
      intros K. assert (10 * valor a + valor b = m) by congruence. lia. }
  assert (B2 : forall a r', (if entre 1 9 a then Some (valor a, r') else None) = Some (m, r) -> 1 <= m <= 12).
  { intros a r'. destruct (entre 1 9 a) eqn:Ea; [|discriminate].
    apply entre_valor in Ea. intros K. assert (valor a = m) by congruence. lia. }
  set (P := fun o : option (Z * string) => o = Some (m, r) -> 1 <= m <= 12).
  assert (PN : P None) by (unfold P; discriminate).
  destruct s as [|a [|b [|c s]]]; unfold lee_mes; try discriminate.
  - apply (caso_guion P b); [exact (B2 _ _)|exact PN].
  - apply (caso_guion P b).
    + apply (caso_guion P c); [exact (B1 _ _ _)|exact (B2 _ _)].
    + apply (caso_guion P c); [exact (B1 _ _ _)|exact PN].
Qed.

Lemma lee_dia_cota s d : lee_dia s = Some d -> 1 <= d.
Proof.
  destruct s as [|a [|b [|c s]]]; unfold lee_dia; try discriminate.
  - destruct (entre 1 9 a) eqn:Ea; [|discriminate].
    apply entre_valor in Ea. intros K. assert (valor a = d) by congruence. lia.
  - destruct (es_digito a) eqn:Da.
    + apply es_digito_valor in Da.
      destruct (((valor a =? 3) && entre 0 1 b) || (entre 1 2 a && es_digito b)
                || ((valor a =? 0) && entre 1 9 b)) eqn:C; [|discriminate].
      intros K. assert (E : 10 * valor a + valor b = d) by congruence.
      apply orb_prop in C. destruct C as [C|C]; [apply orb_prop in C; destruct C as [C|C]|];
        apply andb_prop in C; destruct C as [C1 C2].
      * apply Z.eqb_eq in C1. apply entre_valor in C2. lia.
      * apply entre_valor in C1. apply es_digito_valor in C2. lia.
      * apply entre_valor in C2. lia.
    + destruct ((a =? " ")%char && entre 1 9 b) eqn:C; [|discriminate].
      apply andb_prop in C. destruct C as [_ C]. apply entre_valor in C.
      intros K. assert (valor b = d) by congruence. lia.
Qed.

Lemma ymd2ord_valida (y m d : Z) :
  1 <= y <= 9999 -> 1 <= m <= 12 -> 1 <= d <= days_in_month y m ->
  valida (ymd2ord y m d).
Proof.
  intros Hy Hm Hd. unfold valida, MAXORDINAL, ymd2ord, days_before_month.
  destruct (dias_del_mes_cota m (is_leap y) Hm) as [M1 M2].
  unfold days_in_month in Hd.
  assert (0 <= days_before_year y
          /\ days_before_year y + 365 + b2z (is_leap y) <= 3652059) as [Y1 Y2].
  { unfold days_before_year.
    assert (y <= 9998 \/ y = 9999) as [L|L] by lia; [|subst y].
    - assert (b2z (is_leap y) <= 1) by (destruct (is_leap y); cbn; lia).
      cbn zeta. Z.div_mod_to_equations. lia.
    - vm_compute. split; discriminate. }
  lia.
Qed.

Lemma strptime_valida (s : string) (d : Z) :
  strptime s = Some d -> valida d.
Proof.
  unfold strptime.
  destruct (lee_anio s) as [[y r]|] eqn:Ey; [|discriminate].
  destruct (lee_guion r) as [r1|]; [|discriminate].
  destruct (lee_mes r1) as [[m r2]|] eqn:Em; [|discriminate].
  destruct (lee_dia r2) as [dd|] eqn:Ed; [|discriminate].
  destruct (Z.leb_spec 1 y) as [L1|L1]; cbn [andb]; [|discriminate].
  destruct (Z.leb_spec dd (days_in_month y m)) as [L2|L2]; [|discriminate].
  intros [= <-].
  apply lee_anio_cota in Ey. apply lee_mes_cota in Em. apply lee_dia_cota in Ed.
  apply ymd2ord_valida; lia.
Qed.

End LecturaDeFechas.


(** ** More on loading *)

(** X11. A file that holds JSON other than an object makes
    [cargar_datos] fail with the [AttributeError] of [data.get]; an
    object with neither a "libros" nor a "prestamos" entry is read as an
    empty library, without a warning, whatever the lists were before. *)
Theorem cargar_datos_forma (hoy : Z) (self : Biblioteca.t) :
  (forall data, (forall kv, data <> JObj kv) ->
     cargar_datos hoy self (Documento data) = CargaFallida AttributeError)
  /\ (forall kv, buscar_clave "libros" kv = None ->
        buscar_clave "prestamos" kv = None ->
        cargar_datos hoy self (Documento (JObj kv)) = Cargada (mk [] []) []).
Proof.
  split.
  - intros data H. destruct data; try reflexivity. now destruct (H kv).
  - intros kv H1 H2. unfold cargar_datos, leer_todo. cbn. rewrite H1. cbn.
    rewrite H2. reflexivity.
Qed.

Lemma cargar_datos_forma_testigo :
  cargar_datos dia_1 (bib mundo_doble) (Documento (JArr []))
  = CargaFallida AttributeError
  /\ cargar_datos dia_1 (bib mundo_doble) (Documento (JObj [("books"%string, JArr [])]))
     = Cargada (mk [] []) [].
Proof.
  split.
  - apply (proj1 (cargar_datos_forma dia_1 (bib mundo_doble))). discriminate.
  - apply (proj2 (cargar_datos_forma dia_1 (bib mundo_doble))); reflexivity.
Defined.

Lemma para_cada_Forall {A B} (f : A -> resultado B) (Q : B -> Prop) (l : list A) :
  (forall x c, f x = Ret c -> Q c) ->
  forall cs, para_cada f l = Ret cs -> Forall Q cs.
Proof.
  intros H. induction l as [|x l IH]; cbn; intros cs E.
  - injection E as <-. constructor.
  - destruct (f x) as [c|e] eqn:Ex; cbn in E; [|discriminate].
    destruct (para_cada f l) as [cs'|e]; cbn in E; [|discriminate].
    injection E as <-. constructor; eauto.
Qed.

Lemma todos_Forall {A B} (g : A -> option B) (Q : A -> Prop) (P : B -> Prop) :
  (forall c p, g c = Some p -> Q c -> P p) ->
  forall cs ps, todos g cs = Some ps -> Forall Q cs -> Forall P ps.
Proof.
  intros H cs. induction cs as [|c cs IH]; cbn; intros ps E F.
  - injection E as <-. constructor.
  - inversion F; subst.
    destruct (g c) as [p|] eqn:Ec; [|discriminate].
    destruct (todos g cs) as [ps'|]; [|discriminate].
    injection E as <-. constructor; eauto.
Qed.

Lemma strptime_json_valida (v : json) (d : Z) :
  strptime_json v = Ret d -> Fecha.valida d.
Proof.
  destruct v; cbn; try discriminate.
  destruct (Fecha.strptime s) as [d'|] eqn:E; [|discriminate].
  intros [= <-]. now apply strptime_valida in E.
Qed.

Lemma cargar_prestamo_valida (hoy : Z) (j : json) (c : Prestamo.cargado) :
  cargar_prestamo hoy j = Ret c ->
  Fecha.valida (Prestamo.c_fecha_prestamo c)
  /\ Fecha.valida (Prestamo.c_fecha_devolucion c).
Proof.
  unfold cargar_prestamo.
  destruct (subindice j "libro_id") as [v1|]; cbn [ligar]; [|discriminate].
  destruct (subindice j "usuario") as [v2|]; cbn [ligar]; [|discriminate].
  destruct (sumar_dias hoy 14) as [v3|]; cbn [ligar]; [|discriminate].
  destruct (subindice j "fecha_prestamo") as [v4|]; cbn [ligar]; [|discriminate].
  destruct (strptime_json v4) as [d1|] eqn:E1; cbn [ligar]; [|discriminate].
  destruct (subindice j "fecha_devolucion") as [v5|]; cbn [ligar]; [|discriminate].
  destruct (strptime_json v5) as [d2|] eqn:E2; cbn [ligar]; [|discriminate].
  destruct (subindice j "devuelto") as [v6|]; cbn [ligar]; [|discriminate].
  intros [= <-]. cbn. split; eapply strptime_json_valida; eassumption.
Qed.

Lemma tipado_fechas (c : Prestamo.cargado) (p : Prestamo.t) :
  Prestamo.tipado c = Some p ->
  Prestamo.fecha_prestamo p = Prestamo.c_fecha_prestamo c
  /\ Prestamo.fecha_devolucion p = Prestamo.c_fecha_devolucion c.
Proof.
  unfold Prestamo.tipado.
  destruct (Prestamo.c_libro_id c); try discriminate.
  destruct (Prestamo.c_usuario c); try discriminate.
  destruct (Prestamo.c_devuelto c); try discriminate.
  intros [= <-]. split; reflexivity.
Qed.

Lemma leer_todo_fechas (hoy : Z) (d : archivo) (ls : list Libro.cargado)
    (ps : list Prestamo.cargado) :
  leer_todo hoy d = Ret (ls, ps) ->
  Forall (fun c => Fecha.valida (Prestamo.c_fecha_prestamo c)
                   /\ Fecha.valida (Prestamo.c_fecha_devolucion c)) ps.
Proof.
  unfold leer_todo.
  destruct (abrir_y_leer d) as [data|e]; cbn [ligar]; [|discriminate].
  destruct (get data "libros") as [jl|e]; cbn [ligar]; [|discriminate].
  destruct (iterar jl) as [xs|e]; cbn [ligar]; [|discriminate].
  destruct (para_cada cargar_libro xs) as [cl|e]; cbn [ligar]; [|discriminate].
  destruct (get data "prestamos") as [jp|e]; cbn [ligar]; [|discriminate].
  destruct (iterar jp) as [ys|e]; cbn [ligar]; [|discriminate].
  destruct (para_cada (cargar_prestamo hoy) ys) as [cp|e] eqn:Ep; cbn [ligar];
    [|discriminate].
  intros [= _ <-].
  apply (para_cada_Forall (cargar_prestamo hoy) _ ys); [|assumption].
  intros x c. apply cargar_prestamo_valida.
Qed.

(** X12. Every loan record that [cargar_datos] builds from a data file
    has its two dates within the calendar, also when the file was
    written by hand with dates that are not zero-filled and when other
    fields of the record are of a type the class does not declare.  A
    library read without a warning, written and read again on an
    ordinary day, comes back as it was read when its dates are in year
    1000 or later; when one of them is before year 1000, reading what
    was written raises [ValueError]. *)
Theorem carga_con_fechas_validas (hoy : Z) (d : archivo) :
  (forall ls ps, leer_todo hoy d = Ret (ls, ps) ->
     Forall (fun c => Fecha.valida (Prestamo.c_fecha_prestamo c)
                      /\ Fecha.valida (Prestamo.c_fecha_devolucion c)) ps)
  /\ (forall self b, cargar_datos hoy self d = Cargada b [] ->
        fechas_validas b
        /\ forall hoy' self', reloj_ok hoy' ->
             (fechas_de_cuatro_cifras b ->
              cargar_datos hoy' self' (Documento (datos b)) = Cargada b [])
             /\ (alguna_fecha_corta b ->
                 cargar_datos hoy' self' (Documento (datos b))
                 = CargaFallida ValueError)).
Proof.
  split; [intros ls ps; apply leer_todo_fechas|].
  intros self b H.
  assert (fechas_validas b) as V.
  { revert H. unfold cargar_datos.
    destruct (leer_todo hoy d) as [[cl cp]|e] eqn:El; [|destruct e; discriminate].
    apply leer_todo_fechas in El.
    destruct (todos Libro.tipado cl) as [libros|]; [|discriminate].
    destruct (todos Prestamo.tipado cp) as [prestamos|] eqn:Et; [|discriminate].
    intros [= <-]. unfold fechas_validas. cbn [Biblioteca.prestamos].
    apply (todos_Forall Prestamo.tipado
             (fun c => Fecha.valida (Prestamo.c_fecha_prestamo c)
                       /\ Fecha.valida (Prestamo.c_fecha_devolucion c))
             _ ) with (cs := cp); [|assumption|assumption].
    intros c p Hc Q. destruct (tipado_fechas c p Hc) as [-> ->]. exact Q. }
  split; [assumption|].
  intros hoy' self' R. split; intros K.
  - now apply cargar_datos_de_datos.
  - now apply cargar_datos_de_datos_cortos.
Qed.

Lemma carga_con_fechas_validas_testigo :
  fechas_validas (mk [] [Prestamo.mk 1 "ana" 738925 738939 false])
  /\ cargar_datos dia_1 (mk [] [])
       (Documento (datos (mk [] [Prestamo.mk 1 "ana" 738925 738939 false])))
     = Cargada (mk [] [Prestamo.mk 1 "ana" 738925 738939 false]) []
  /\ cargar_datos dia_1 (mk [] []) (Documento (datos (bib mundo_999)))
     = CargaFallida ValueError.
Proof.
  assert (reloj_ok dia_1) as Hr
    by (unfold reloj_ok, Fecha.valida, Fecha.MAXORDINAL, dia_1; lia).
  destruct (proj2 (carga_con_fechas_validas dia_1 (Documento documento_sin_ceros))
              (mk [] []) (mk [] [Prestamo.mk 1 "ana" 738925 738939 false]) eq_refl)
    as [V R].
  destruct (proj2 (carga_con_fechas_validas dia_1 (Documento documento_999))
              (mk [] []) (bib mundo_999) eq_refl)
    as [_ R'].
  split; [exact V|]. split.
  - apply (proj1 (R dia_1 (mk [] []) Hr)).
    unfold fechas_de_cuatro_cifras, Fecha.cuatro_cifras, Fecha.MAXORDINAL.
    repeat constructor; cbn; lia.
  - apply (proj2 (R' dia_1 (mk [] []) Hr)). constructor. cbn. lia.
Defined.


(** ** Searching the catalog *)

Lemma filter_con_id_unico (n : Z) (ls : list Libro.t) :
  NoDup (map Libro.id ls) ->
  filter (con_id n) ls
  = match find (con_id n) ls with
    | Some l => [l]
    | None => []
    end.
Proof.
  induction ls as [|a ls IH]; cbn; [reflexivity|]. intros N.
  inversion N as [|x xs Hx Hn]; subst.
  destruct (con_id n a) eqn:E.
  - f_equal. unfold con_id in E. apply Z.eqb_eq in E.
    destruct (filter (con_id n) ls) as [|c cs] eqn:F; [reflexivity|].
    assert (In c (filter (con_id n) ls)) as Hc by (rewrite F; now left).
    apply filter_In in Hc. destruct Hc as [Hc Ec]. unfold con_id in Ec.
    apply Z.eqb_eq in Ec. exfalso. apply Hx. rewrite E, <- Ec. now apply in_map.
  - now apply IH.
Qed.

Section Busqueda.
Variable lower : string -> string.
Variable int : string -> option Z.

(** X13. A search never raises: with a criterion that is not one of id,
    titulo, autor and stock in any letter case it finds nothing and
    reports the criterion, and with a value that is not a number for the
    criteria id and stock it finds nothing and reports the value. *)
Theorem buscar_libro_errores (criterio valor : string) (b : Biblioteca.t) :
  (pertenece (lower criterio) ["id"; "titulo"; "autor"; "stock"]%string = false ->
   buscar_libro lower int criterio valor b = ([], [CriterioInvalido (lower criterio)]))
  /\ (pertenece (lower criterio) ["id"; "stock"]%string = true ->
      int valor = None ->
      buscar_libro lower int criterio valor b
      = ([], [ValorInvalido (lower criterio) valor])).
Proof.
  unfold buscar_libro. split.
  - intros ->. reflexivity.
  - intros H E. rewrite H, E.
    assert (pertenece (lower criterio) ["id"; "titulo"; "autor"; "stock"]%string = true)
      as ->; [|reflexivity].
    unfold pertenece in *. cbn in *.
    destruct (lower criterio =? "id")%string; [reflexivity|].
    destruct (lower criterio =? "stock")%string; [|discriminate].
    cbn. now rewrite !orb_true_r.
Qed.

(** X14. What a search finds: the books of the catalog, in the order of
    the catalog, whose identifier or stock is the number typed, or whose
    title or author is exactly the text typed; the criterion is taken
    without regard to letter case. *)
Theorem buscar_libro_resultados (criterio valor : string) (b : Biblioteca.t) :
  let r := fst (buscar_libro lower int criterio valor b) in
  (exists f, r = filter f (libros b))
  /\ (lower criterio = "id"%string ->
      forall l, In l r <-> In l (libros b) /\ int valor = Some (Libro.id l))
  /\ (lower criterio = "stock"%string ->
      forall l, In l r <-> In l (libros b) /\ int valor = Some (Libro.stock l))
  /\ (lower criterio = "titulo"%string ->
      forall l, In l r <-> In l (libros b) /\ Libro.titulo l = valor)
  /\ (lower criterio = "autor"%string ->
      forall l, In l r <-> In l (libros b) /\ Libro.autor l = valor).
Proof.
  cbn zeta. unfold buscar_libro. split; [|repeat split].
  - destruct (negb _); [now exists (fun _ => false); induction (libros b)|].
    destruct (if pertenece _ _ then _ else _);
      [eexists; reflexivity|now exists (fun _ => false); induction (libros b)].
  - rewrite H in H0. cbn in H0. destruct (int valor) as [n|]; cbn in H0; [|destruct H0].
    apply filter_In in H0. tauto.
  - rewrite H in H0. cbn in H0. destruct (int valor) as [n|]; cbn in H0; [|destruct H0].
    apply filter_In in H0. destruct H0 as [_ E]. cbn in E. apply Z.eqb_eq in E.
    now rewrite E.
  - intros [Hin E]. rewrite H. cbn. rewrite E. cbn. apply filter_In.
    split; [assumption|]. cbn. apply Z.eqb_refl.
  - rewrite H in H0. cbn in H0. destruct (int valor) as [n|]; cbn in H0; [|destruct H0].
    apply filter_In in H0. tauto.
  - rewrite H in H0. cbn in H0. destruct (int valor) as [n|]; cbn in H0; [|destruct H0].
    apply filter_In in H0. destruct H0 as [_ E]. cbn in E. apply Z.eqb_eq in E.
    now rewrite E.
  - intros [Hin E]. rewrite H. cbn. rewrite E. cbn. apply filter_In.
    split; [assumption|]. cbn. apply Z.eqb_refl.
  - rewrite H in H0. cbn in H0. apply filter_In in H0. tauto.
  - rewrite H in H0. cbn in H0. apply filter_In in H0. destruct H0 as [_ E].
    cbn in E. now apply String.eqb_eq in E.
  - intros [Hin E]. rewrite H. cbn. apply filter_In. split; [assumption|].
    cbn. now apply String.eqb_eq.
  - rewrite H in H0. cbn in H0. apply filter_In in H0. tauto.
  - rewrite H in H0. cbn in H0. apply filter_In in H0. destruct H0 as [_ E].
    cbn in E. now apply String.eqb_eq in E.
  - intros [Hin E]. rewrite H. cbn. apply filter_In. split; [assumption|].
    cbn. now apply String.eqb_eq.
Qed.

(** X15. In a catalog without a repeated identifier, a search by
    identifier finds the book the loans and returns act on, and nothing
    else: at most one book. *)
Theorem buscar_libro_por_id (criterio valor : string) (n : Z) (b : Biblioteca.t) :
  lower criterio = "id"%string ->
  int valor = Some n ->
  ids_unicos b ->
  buscar_libro lower int criterio valor b
  = (match libro_de n b with
     | Some l => [l]
     | None => []
     end, []).
Proof.
  intros Hc Hv Hu. unfold buscar_libro, libro_de. rewrite Hc, Hv. cbn.
  f_equal. rewrite <- (filter_con_id_unico n (libros b) Hu).
  apply filter_ext. intros l. reflexivity.
Qed.

End Busqueda.

Lemma buscar_libro_errores_testigo :
  buscar_libro lower_ascii int_decimal "ISBN" "1" (bib mundo_doble)
  = ([], [CriterioInvalido "isbn"])
  /\ buscar_libro lower_ascii int_decimal "Stock" "dos" (bib mundo_doble)
     = ([], [ValorInvalido "stock" "dos"]).
Proof.
  split.
  - apply (proj1 (buscar_libro_errores lower_ascii int_decimal "ISBN" "1"
                    (bib mundo_doble))).
    reflexivity.
  - apply (proj2 (buscar_libro_errores lower_ascii int_decimal "Stock" "dos"
                    (bib mundo_doble))); reflexivity.
Defined.

Lemma buscar_libro_resultados_testigo :
  In libro_x (fst (buscar_libro lower_ascii int_decimal "TITULO" "X" (bib mundo_doble))).
Proof.
  apply (proj1 (proj2 (proj2 (proj2 (buscar_libro_resultados lower_ascii int_decimal
                                       "TITULO" "X" (bib mundo_doble))))) eq_refl libro_x).
  split; [now left|reflexivity].
Defined.

Lemma buscar_libro_por_id_testigo :
  buscar_libro lower_ascii int_decimal "Id" "1" (bib mundo_doble) = ([libro_x], []).
Proof.
  apply (buscar_libro_por_id lower_ascii int_decimal "Id" "1" 1 (bib mundo_doble)).
  - reflexivity.
  - reflexivity.
  - unfold ids_unicos. cbn. repeat constructor. intros [].
Defined.

(** ** The list of active loans *)

Lemma multa_de_atrasado (hoy : Z) (p : Prestamo.t) :
  Prestamo.devuelto p = false -> Prestamo.fecha_devolucion p < hoy ->
  ((1 # 2) <= Prestamo.calcular_multa hoy p)%Q.
Proof.
  intros Hd Hl. unfold Prestamo.calcular_multa. rewrite Hd.
  replace (hoy <=? Prestamo.fecha_devolucion p) with false
    by (symmetry; apply Z.leb_gt; lia).
  setoid_replace (1 # 2)%Q with (inject_Z 1 * (1 # 2))%Q at 1 by reflexivity.
  apply Qmult_le_compat_r; [|discriminate]. rewrite <- Zle_Qle. lia.
Qed.

Lemma lineas_prestamos_ok (reloj : nat -> Z) (ls : list Libro.t)
    (activos : list Prestamo.t) :
  (forall i j, (i <= j)%nat -> reloj i <= reloj j) ->
  Forall (fun p => Prestamo.devuelto p = false) activos ->
  forall k,
    List.length (lineas_prestamos reloj k ls activos) = List.length activos
    /\ forall m, In (Some m) (map es_atrasado (lineas_prestamos reloj k ls activos)) ->
                 ((1 # 2) <= m)%Q.
Proof.
  intros Hm F. induction F as [|p ps Hp _ IH]; intros k; cbn [lineas_prestamos].
  - split; [reflexivity|intros m []].
  - destruct (Z.leb_spec (reloj k) (Prestamo.fecha_devolucion p)) as [L|L].
    + destruct (IH (S k)) as [I1 I2]. cbn [List.length map In es_atrasado].
      split; [now rewrite I1|]. intros m [H|H]; [discriminate|auto].
    + rewrite Hp. destruct (IH (S (S k))) as [I1 I2].
      cbn [List.length map In es_atrasado].
      split; [now rewrite I1|]. intros m [H|H]; [|auto].
      injection H as <-. apply multa_de_atrasado; [assumption|].
      specialize (Hm k (S k)). lia.
Qed.

(** X16. The list of active loans has one line for each loan that is
    not returned, after its heading, or the single line that says there
    is none; and while the clock does not go back during the call, every
    loan shown as late carries a fine of at least 0.50. *)
Theorem listar_prestamos_activos_correcto (reloj : nat -> Z) (b : Biblioteca.t) :
  (forall i j, (i <= j)%nat -> reloj i <= reloj j) ->
  let activos := filter (fun p => negb (Prestamo.devuelto p)) (prestamos b) in
  let lineas := listar_prestamos_activos reloj b in
  (activos = [] -> lineas = [NoHayPrestamos])
  /\ (activos <> [] ->
      exists resto, lineas = CabeceraPrestamos :: resto
                    /\ List.length resto = List.length activos)
  /\ (forall m, In (Some m) (map es_atrasado lineas) -> ((1 # 2) <= m)%Q).
Proof.
  intros Hm. cbn zeta. unfold listar_prestamos_activos.
  assert (Forall (fun p => Prestamo.devuelto p = false)
            (filter (fun p => negb (Prestamo.devuelto p)) (prestamos b))) as F.
  { apply Forall_forall. intros p Hp. apply filter_In in Hp.
    destruct Hp as [_ Hp]. now apply negb_true_iff in Hp. }
  destruct (filter (fun p => negb (Prestamo.devuelto p)) (prestamos b)) as [|p ps] eqn:E.
  - split; [reflexivity|]. split; [congruence|]. intros m [H|[]]. discriminate.
  - destruct (lineas_prestamos_ok reloj (libros b) (p :: ps) Hm F 0%nat) as [L1 L2].
    split; [discriminate|]. split.
    + intros _. eexists. split; [reflexivity|exact L1].
    + intros m [H|H]; [discriminate|auto].
Qed.

Lemma listar_prestamos_activos_correcto_testigo :
  ((1 # 2) <= Prestamo.calcular_multa dia_1 prestamo_viejo)%Q.
Proof.
  apply (proj2 (proj2 (listar_prestamos_activos_correcto (reloj_fijo dia_1)
                         (bib mundo_doble) (fun i j _ => Z.le_refl dia_1)))).
  right. left. reflexivity.
Defined.

(** ** The menu *)

Section Menu.
Variable lower : string -> string.
Variable int : string -> option Z.

Lemma alcanzable_trans (a b c : Mundo) :
  alcanzable a b -> alcanzable b c -> alcanzable a c.
Proof.
  intros H1 H2. induction H2 as [|c env op _ IH]; [assumption|].
  now apply alc_paso.
Qed.

Lemma quieto_dentro {A} (m : S_ A) : quieto m -> dentro m.
Proof. intros H s. rewrite H. apply alc_inicio. Qed.

Lemma quieto_bind {A B} (m : S_ A) (k : A -> S_ B) :
  quieto m -> (forall a, quieto (k a)) -> quieto (bind_s m k).
Proof.
  intros Hm Hk s. unfold bind_s. specialize (Hm s).
  destruct (m s) as [[a|e] s']; cbn in *; [|assumption].
  now rewrite Hk.
Qed.

Lemma dentro_bind {A B} (m : S_ A) (k : A -> S_ B) :
  dentro m -> (forall a, dentro (k a)) -> dentro (bind_s m k).
Proof.
  intros Hm Hk s. unfold bind_s. specialize (Hm s).
  destruct (m s) as [[a|e] s']; cbn in *; [|assumption].
  eapply alcanzable_trans; [exact Hm|apply Hk].
Qed.

Lemma no_crece_bind {A B} (m : S_ A) (k : A -> S_ B) :
  no_crece m -> (forall a, no_crece (k a)) -> no_crece (bind_s m k).
Proof.
  intros Hm Hk s. unfold bind_s. specialize (Hm s).
  destruct (m s) as [[a|e] s']; cbn in *; [|assumption].
  specialize (Hk a s'). lia.
Qed.

Lemma quieto_salvo {A} (m h : S_ A) :
  quieto m -> quieto h -> quieto (salvo_ValueError m h).
Proof.
  intros Hm Hh s. unfold salvo_ValueError. specialize (Hm s).
  destruct (m s) as [[a|[[]|]] s']; cbn in *; try assumption;
    now rewrite Hh.
Qed.

Lemma dentro_salvo {A} (m h : S_ A) :
  dentro m -> dentro h -> dentro (salvo_ValueError m h).
Proof.
  intros Hm Hh s. unfold salvo_ValueError. specialize (Hm s).
  destruct (m s) as [[a|[[]|]] s']; cbn in *; try assumption;
    (eapply alcanzable_trans; [exact Hm|apply Hh]).
Qed.

Lemma no_crece_salvo {A} (m h : S_ A) :
  no_crece m -> no_crece h -> no_crece (salvo_ValueError m h).
Proof.
  intros Hm Hh s. unfold salvo_ValueError. specialize (Hm s).
  destruct (m s) as [[a|[[]|]] s']; cbn in *; try assumption;
    (specialize (Hh s'); lia).
Qed.

Lemma quieto_input p : quieto (input p).
Proof. intros s. unfold input. now destruct (teclado s). Qed.

Lemma no_crece_input p : no_crece (input p).
Proof. intros s. unfold input. destruct (teclado s); cbn; lia. Qed.

Lemma quieto_input_int p : quieto (input_int int p).
Proof.
  apply quieto_bind; [apply quieto_input|]. intros x s. now destruct (int x).
Qed.

Lemma no_crece_input_int p : no_crece (input_int int p).
Proof.
  apply no_crece_bind; [apply no_crece_input|]. intros x s. destruct (int x); cbn; lia.
Qed.

Lemma dentro_llamar (env : Entorno) (op : operacion) :
  dentro (llamar (ejecutar env op)).
Proof.
  intros s. unfold llamar.
  pose proof (alc_paso (mundo s) (mundo s) env op (alc_inicio _)) as H.
  unfold tras in H. destruct (ejecutar env op (mundo s)) as [[a|e] w']; exact H.
Qed.

Lemma no_crece_llamar {A} (m : M A) : no_crece (llamar m).
Proof.
  intros s. unfold llamar. destruct (m (mundo s)) as [[a|e] w']; cbn; lia.
Qed.

Lemma mostrar_menu_forma (s : Sesion) :
  mostrar_menu s
  = match teclado s with
    | [] => (inr EOFError,
             mk_sesion (mundo s) (pantalla s ++ [MenuPrincipal; Pregunta PideOpcion]) [])
    | o :: r => (inl o,
                 mk_sesion (mundo s) (pantalla s ++ [MenuPrincipal; Pregunta PideOpcion]) r)
    end.
Proof.
  unfold mostrar_menu, bind_s, print_s, input. cbn.
  destruct (teclado s); now rewrite <- app_assoc.
Qed.

Lemma quieto_mostrar_menu : quieto mostrar_menu.
Proof. intros s. rewrite mostrar_menu_forma. now destruct (teclado s). Qed.

Lemma quieto_buscar (criterio valor : string) :
  quieto (fun s =>
    let '(encontrados, avisos) := buscar_libro lower int criterio valor (bib (mundo s)) in
    bind_s (print_todas avisos)
      (fun _ => match encontrados with
                | [] => print_s SinResultados
                | _ => print_todas (CabeceraResultados :: map LineaResultado encontrados)
                end) s).
Proof.
  intros s. destruct (buscar_libro lower int criterio valor (bib (mundo s))) as [[|? ?] ?];
    reflexivity.
Qed.

Lemma no_crece_buscar (criterio valor : string) :
  no_crece (fun s =>
    let '(encontrados, avisos) := buscar_libro lower int criterio valor (bib (mundo s)) in
    bind_s (print_todas avisos)
      (fun _ => match encontrados with
                | [] => print_s SinResultados
                | _ => print_todas (CabeceraResultados :: map LineaResultado encontrados)
                end) s).
Proof.
  intros s. destruct (buscar_libro lower int criterio valor (bib (mundo s))) as [[|? ?] ?];
    cbn; lia.
Qed.

Ltac sencilla :=
  let s := fresh "s" in
  intros s; unfold print_s, print_todas, ret_s; cbn;
  first [reflexivity | lia | apply alc_inicio].

Lemma segun_opcion_dentro (env : Entorno) (reloj : nat -> Z) (opcion : string) :
  dentro (segun_opcion lower int env reloj opcion).
Proof.
  unfold segun_opcion.
  repeat match goal with
  | |- dentro (if ?c then _ else _) => destruct c
  | |- dentro (match ?c with Some _ => _ | None => _ end) => destruct c
  | |- dentro (bind_s _ _) => apply dentro_bind; [|intros]
  | |- dentro (salvo_ValueError _ _) => apply dentro_salvo
  | |- dentro (llamar (agregar_libro ?e ?l)) => exact (dentro_llamar e (Agregar l))
  | |- dentro (llamar (prestar_libro ?e ?i ?u)) => exact (dentro_llamar e (Prestar i u))
  | |- dentro (llamar (devolver_libro ?e ?i ?u)) => exact (dentro_llamar e (Devolver i u))
  | |- dentro (input_int _ _) => apply quieto_dentro, quieto_input_int
  | |- dentro (input _) => apply quieto_dentro, quieto_input
  | |- dentro (fun s => let '(_, _) := buscar_libro _ _ _ _ _ in _) =>
      apply quieto_dentro, quieto_buscar
  | |- dentro _ => apply quieto_dentro; sencilla
  end.
Qed.

Lemma segun_opcion_no_crece (env : Entorno) (reloj : nat -> Z) (opcion : string) :
  no_crece (segun_opcion lower int env reloj opcion).
Proof.
  unfold segun_opcion.
  repeat match goal with
  | |- no_crece (if ?c then _ else _) => destruct c
  | |- no_crece (match ?c with Some _ => _ | None => _ end) => destruct c
  | |- no_crece (bind_s _ _) => apply no_crece_bind; [|intros]
  | |- no_crece (salvo_ValueError _ _) => apply no_crece_salvo
  | |- no_crece (llamar _) => apply no_crece_llamar
  | |- no_crece (input_int _ _) => apply no_crece_input_int
  | |- no_crece (input _) => apply no_crece_input
  | |- no_crece (fun s => let '(_, _) := buscar_libro _ _ _ _ _ in _) =>
      apply no_crece_buscar
  | |- no_crece _ => sencilla
  end.
Qed.

Lemma segun_opcion_quieto (env : Entorno) (reloj : nat -> Z) (opcion : string) :
  opcion <> "1"%string -> opcion <> "4"%string -> opcion <> "5"%string ->
  quieto (segun_opcion lower int env reloj opcion).
Proof.
  intros N1 N4 N5. unfold segun_opcion.
  destruct (String.eqb_spec opcion "1"); [contradiction|].
  destruct (String.eqb_spec opcion "4"); [contradiction|].
  destruct (String.eqb_spec opcion "5"); [contradiction|].
  repeat match goal with
  | |- quieto (if ?c then _ else _) => destruct c
  | |- quieto (match ?c with Some _ => _ | None => _ end) => destruct c
  | |- quieto (bind_s _ _) => apply quieto_bind; [|intros]
  | |- quieto (input _) => apply quieto_input
  | |- quieto (fun s => let '(_, _) := buscar_libro _ _ _ _ _ in _) =>
      apply quieto_buscar
  | |- quieto _ => sencilla
  end.
Qed.

Lemma nunca_sale_bind {A} (m : S_ A) (k : A -> S_ bool) :
  (forall a, nunca_sale (k a)) -> nunca_sale (bind_s m k).
Proof.
  intros Hk s. unfold bind_s. destruct (m s) as [[a|e] s']; [apply Hk|discriminate].
Qed.

Lemma nunca_sale_false : nunca_sale (ret_s false).
Proof. intros s. discriminate. Qed.

Lemma segun_opcion_sale (env : Entorno) (reloj : nat -> Z) (opcion : string)
    (s : Sesion) :
  fst (segun_opcion lower int env reloj opcion s) = inl true <-> opcion = "7"%string.
Proof.
  split.
  - intros H. destruct (String.eqb_spec opcion "7") as [E|N]; [assumption|].
    exfalso. revert s H. change (nunca_sale (segun_opcion lower int env reloj opcion)).
    unfold segun_opcion.
    replace (opcion =? "7")%string with false by (symmetry; now apply String.eqb_neq).
    repeat first
      [ apply nunca_sale_false
      | apply nunca_sale_bind; intros
      | match goal with
        | |- nunca_sale (if ?c then _ else _) => destruct c
        | |- nunca_sale (match ?c with Some _ => _ | None => _ end) => destruct c
        end ].
  - intros ->. reflexivity.
Qed.

Lemma iteracion_dentro (env : Entorno) (reloj : nat -> Z) :
  dentro (iteracion lower int env reloj).
Proof.
  unfold iteracion. apply dentro_bind.
  - apply quieto_dentro, quieto_mostrar_menu.
  - intros o. apply segun_opcion_dentro.
Qed.

Lemma iteracion_forma (env : Entorno) (reloj : nat -> Z) (s : Sesion) :
  iteracion lower int env reloj s
  = match teclado s with
    | [] => (inr EOFError,
             mk_sesion (mundo s) (pantalla s ++ [MenuPrincipal; Pregunta PideOpcion]) [])
    | o :: r =>
        segun_opcion lower int env reloj o
          (mk_sesion (mundo s) (pantalla s ++ [MenuPrincipal; Pregunta PideOpcion]) r)
    end.
Proof.
  unfold iteracion, bind_s. rewrite mostrar_menu_forma. now destruct (teclado s).
Qed.

Lemma bucle_dentro (ambientes : list (Entorno * (nat -> Z))) (s : Sesion) :
  alcanzable (mundo s) (mundo (snd (bucle lower int ambientes s))).
Proof.
  revert s. induction ambientes as [|[env reloj] resto IH]; intros s; cbn [bucle];
    [apply alc_inicio|].
  pose proof (iteracion_dentro env reloj s) as H.
  destruct (iteracion lower int env reloj s) as [[[|]|e] s']; cbn [snd] in *;
    try assumption.
  eapply alcanzable_trans; [exact H|apply IH].
Qed.

(** X17. Whatever is typed at the menu, the loop of [main] changes the
    library only through additions, loans and returns; so it keeps what
    they keep, such as at most one unreturned loan for a book and a
    borrower. *)
Theorem sesion_dentro (ambientes : list (Entorno * (nat -> Z))) (s : Sesion) :
  let s' := snd (bucle lower int ambientes s) in
  alcanzable (mundo s) (mundo s')
  /\ (unico_activo (bib (mundo s)) -> unico_activo (bib (mundo s'))).
Proof.
  cbn zeta. split; [apply bucle_dentro|].
  intros U. eapply unico_activo_alcanzable; [exact U|apply bucle_dentro].
Qed.

(** X18. A number that cannot be read aborts the option: when the
    identifier typed for a loan, a return or a new book, or the stock
    typed for a new book, is not an integer, the turn reports it,
    changes neither the lists nor the file, and the menu comes back. *)
Theorem numero_ilegible (env : Entorno) (reloj : nat -> Z) (s : Sesion)
    (x : string) (r : list string) :
  int x = None ->
  (teclado s = "4"%string :: x :: r ->
   iteracion lower int env reloj s
   = (inl false,
      mk_sesion (mundo s)
        (pantalla s ++ [MenuPrincipal; Pregunta PideOpcion; Pregunta PideIdPrestar;
                        ErrorIdEntero]) r))
  /\ (teclado s = "5"%string :: x :: r ->
      iteracion lower int env reloj s
      = (inl false,
         mk_sesion (mundo s)
           (pantalla s ++ [MenuPrincipal; Pregunta PideOpcion; Pregunta PideIdDevolver;
                           ErrorIdEntero]) r))
  /\ (teclado s = "1"%string :: x :: r ->
      iteracion lower int env reloj s
      = (inl false,
         mk_sesion (mundo s)
           (pantalla s ++ [MenuPrincipal; Pregunta PideOpcion; Pregunta PideIdLibro;
                           ErrorEnteros]) r))
  /\ (forall y n titulo autor,
        teclado s = "1"%string :: y :: titulo :: autor :: x :: r ->
        int y = Some n ->
        iteracion lower int env reloj s
        = (inl false,
           mk_sesion (mundo s)
             (pantalla s ++ [MenuPrincipal; Pregunta PideOpcion; Pregunta PideIdLibro;
                             Pregunta PideTitulo; Pregunta PideAutor; Pregunta PideStock;
                             ErrorEnteros]) r)).
Proof.
  intros Hx. repeat split.
  - intros E. rewrite iteracion_forma, E.
    unfold segun_opcion, input_int, salvo_ValueError, bind_s, input, print_s, ret_s.
    cbn. rewrite Hx. cbn. now rewrite <- !app_assoc.
  - intros E. rewrite iteracion_forma, E.
    unfold segun_opcion, input_int, salvo_ValueError, bind_s, input, print_s, ret_s.
    cbn. rewrite Hx. cbn. now rewrite <- !app_assoc.
  - intros E. rewrite iteracion_forma, E.
    unfold segun_opcion, input_int, salvo_ValueError, bind_s, input, print_s, ret_s.
    cbn. rewrite Hx. cbn. now rewrite <- !app_assoc.
  - intros y n titulo autor E Hy. rewrite iteracion_forma, E.
    unfold segun_opcion, input_int, salvo_ValueError, bind_s, input, print_s, ret_s.
    cbn. rewrite Hy. cbn. rewrite Hx. cbn. now rewrite <- !app_assoc.
Qed.

(** X19. Only option 7 leaves the loop: a turn ends the loop exactly
    when the line typed at the menu is 7; the lists and the file are
    then what they were, as they are after any option other than 1, 4
    and 5, and when nothing is left to read. *)
Theorem solo_sale_con_7 (env : Entorno) (reloj : nat -> Z) (s : Sesion) :
  (fst (iteracion lower int env reloj s) = inl true
   <-> exists r, teclado s = "7"%string :: r)
  /\ ((forall r, teclado s <> "1"%string :: r)
      -> (forall r, teclado s <> "4"%string :: r)
      -> (forall r, teclado s <> "5"%string :: r)
      -> mundo (snd (iteracion lower int env reloj s)) = mundo s).
Proof.
  rewrite iteracion_forma. destruct (teclado s) as [|o r].
  { split; [split; [discriminate|intros (r & H); discriminate]|reflexivity]. }
  split.
  - rewrite segun_opcion_sale. split; [intros ->; now exists r|].
    intros (r' & H). congruence.
  - intros N1 N4 N5. rewrite segun_opcion_quieto; [reflexivity|..]; intros ->;
      [apply (N1 r)|apply (N4 r)|apply (N5 r)]; reflexivity.
Qed.

Lemma bucle_termina (ambientes : list (Entorno * (nat -> Z))) (s : Sesion) :
  (List.length (teclado s) < List.length ambientes)%nat ->
  fst (bucle lower int ambientes s) <> EnCurso.
Proof.
  revert s. induction ambientes as [|[env reloj] resto IH]; intros s L; cbn in L;
    [lia|].
  cbn [bucle]. rewrite iteracion_forma.
  destruct (teclado s) as [|o r] eqn:E; [discriminate|].
  pose proof (segun_opcion_no_crece env reloj o
                (mk_sesion (mundo s) (pantalla s ++ [MenuPrincipal; Pregunta PideOpcion]) r))
    as C.
  destruct (segun_opcion lower int env reloj o _) as [[[|]|e] s']; cbn in *;
    try discriminate.
  apply IH. lia.
Qed.

(** X20. The program stops on every finite script: given more turns
    than there are lines to type, [main] never ends about to show the
    menu again; it has left by option 7, or an exception has left it,
    at the latest the [EOFError] of [input] when nothing is left to
    read. *)
Theorem main_termina (hoy : Z) (d : archivo) (lineas : list string)
    (ambientes : list (Entorno * (nat -> Z))) (f : final) (s : Sesion) :
  (List.length lineas < List.length ambientes)%nat ->
  main lower int hoy d lineas ambientes = Some (f, s) ->
  f = Salio \/ exists e, f = Cayo e.
Proof.
  intros L. unfold main. destruct (Biblioteca.init hoy d) as [b avisos| |e].
  - intros [= H].
    pose proof (bucle_termina ambientes
                  (mk_sesion (mk_mundo b d avisos) (map DeBiblioteca avisos) lineas) L) as T.
    rewrite H in T. cbn in T. destruct f as [|e|]; [now left|right; now exists e|].
    now destruct T.
  - discriminate.
  - intros [= <- _]. right. now eexists.
Qed.

End Menu.

Lemma sesion_dentro_testigo :
  unico_activo
    (bib (mundo (snd (bucle lower_ascii int_decimal
                        [(entorno_1, reloj_fijo dia_1); (entorno_1, reloj_fijo dia_1)]
                        (mk_sesion mundo_un_libro [] ["4"; "1"; "alice"; "7"]%string))))).
Proof.
  apply (proj2 (sesion_dentro lower_ascii int_decimal
                  [(entorno_1, reloj_fijo dia_1); (entorno_1, reloj_fijo dia_1)]
                  (mk_sesion mundo_un_libro [] ["4"; "1"; "alice"; "7"]%string))).
  intros a u. cbn. lia.
Defined.

Lemma numero_ilegible_testigo :
  iteracion lower_ascii int_decimal entorno_1 (reloj_fijo dia_1) sesion_1
  = (inl false,
     mk_sesion mundo_un_libro
       [MenuPrincipal; Pregunta PideOpcion; Pregunta PideIdPrestar; ErrorIdEntero]
       ["7"%string]).
Proof.
  apply (proj1 (numero_ilegible lower_ascii int_decimal entorno_1 (reloj_fijo dia_1)
                  sesion_1 "uno" ["7"%string] eq_refl)).
  reflexivity.
Defined.

Lemma solo_sale_con_7_testigo :
  fst (iteracion lower_ascii int_decimal entorno_1 (reloj_fijo dia_1)
         (mk_sesion mundo_un_libro [] ["7"%string])) = inl true.
Proof.
  apply (proj1 (solo_sale_con_7 lower_ascii int_decimal entorno_1 (reloj_fijo dia_1)
                  (mk_sesion mundo_un_libro [] ["7"%string]))).
  now exists [].
Defined.

Lemma main_termina_testigo :
  fst (bucle lower_ascii int_decimal
         [(entorno_1, reloj_fijo dia_1); (entorno_1, reloj_fijo dia_1);
          (entorno_1, reloj_fijo dia_1)]
         (mk_sesion (mk_mundo (mk [] []) NoExiste [SinDatosPrevios])
            [DeBiblioteca SinDatosPrevios] ["2"; "9"]%string)) = Salio
  \/ exists e,
       fst (bucle lower_ascii int_decimal
              [(entorno_1, reloj_fijo dia_1); (entorno_1, reloj_fijo dia_1);
               (entorno_1, reloj_fijo dia_1)]
              (mk_sesion (mk_mundo (mk [] []) NoExiste [SinDatosPrevios])
                 [DeBiblioteca SinDatosPrevios] ["2"; "9"]%string)) = Cayo e.
Proof.
  apply (main_termina lower_ascii int_decimal dia_1 NoExiste ["2"; "9"]%string
           [(entorno_1, reloj_fijo dia_1); (entorno_1, reloj_fijo dia_1);
            (entorno_1, reloj_fijo dia_1)] _
           (snd (bucle lower_ascii int_decimal
                   [(entorno_1, reloj_fijo dia_1); (entorno_1, reloj_fijo dia_1);
                    (entorno_1, reloj_fijo dia_1)]
                   (mk_sesion (mk_mundo (mk [] []) NoExiste [SinDatosPrevios])
                      [DeBiblioteca SinDatosPrevios] ["2"; "9"]%string)))).
  - cbn. lia.
  - reflexivity.
Defined.

(** A session from an empty library: a book is added, lent, the loans
    are listed, and the user leaves. *)
Example sesion_completa :
  let '(f, s) :=
    bucle lower_ascii int_decimal
      [(entorno_1, reloj_fijo dia_1); (entorno_1, reloj_fijo dia_1);
       (entorno_1, reloj_fijo dia_1); (entorno_1, reloj_fijo dia_1);
       (entorno_1, reloj_fijo dia_1)]
      (mk_sesion mundo_vacio []
         ["1"; "1"; "X"; "Y"; "2"; "4"; "1"; "alice"; "6"; "7"; "2"]%string) in
  f = Salio
  /\ bib (mundo s)
     = mk [Libro.mk 1 "X" "Y" 1] [Prestamo.mk 1 "alice" dia_1 (dia_1 + 14) false]
  /\ disco (mundo s) = Documento (datos (bib (mundo s)))
  /\ teclado s = ["2"%string]
  /\ In (LineaPrestamo "alice" "X" (dia_1 + 14) EnPlazo) (pantalla s).
Proof.
  vm_compute. repeat split. do 16 right. now left.
Qed.
